(** * cubescraper: the product normalisation and classification pipeline

    A shallow embedding of [add_cubes_to_database.py]: the filter
    ([should_skip]), the attribute extractors ([detect_size_mm],
    [extract_series_name], [detect_surface_finish], [is_stickered]), the
    row expander ([normalize_product]) and the deduplicator
    ([deduplicate_rows]).

    Text.  A Python [str] is modelled by [string]; a character is one code
    point below 256 (Latin-1), so that the multiplication sign U+00D7 of
    [NXN_PATTERN] and of [ILLEGAL_CUBE_TYPES] is a single character.  On
    this alphabet the character classes below ([\d], [\s], [\w],
    [str.lower]) are the ones of CPython 3. *)

From Stdlib Require Import Bool Arith ZArith Lia List Ascii String Permutation.
Import ListNotations.
Open Scope string_scope.

(* ------------------------------------------------------------------ *)
(** ** Characters *)

Module Char.

Local Open Scope nat_scope.

Definition code (c : ascii) : nat := nat_of_ascii c.

Definition between (lo hi n : nat) : bool := (lo <=? n) && (n <=? hi).

(** [\d] : the decimal digits. *)
Definition is_digit (c : ascii) : bool := between 48 57 (code c).

(** [\s] and [str.isspace]: TAB..CR, FS..US, space, NEL, NBSP. *)
Definition is_space (c : ascii) : bool :=
  let n := code c in
  between 9 13 n || between 28 32 n || (n =? 133) || (n =? 160).

(** [\w]: alphanumeric code points and the underscore. *)
Definition is_word (c : ascii) : bool :=
  let n := code c in
  between 48 57 n || between 65 90 n || (n =? 95) || between 97 122 n
  || (n =? 170) || between 178 179 n || (n =? 181) || between 185 186 n
  || between 188 190 n || between 192 214 n || between 216 246 n
  || between 248 255 n.

(** [str.lower] on one character: A-Z and the accented capitals
    U+00C0..U+00DE, the multiplication sign U+00D7 apart. *)
Definition lower (c : ascii) : ascii :=
  let n := code c in
  if between 65 90 n || (between 192 222 n && negb (n =? 215))
  then ascii_of_nat (n + 32) else c.

(** The value of a decimal digit. *)
Definition digit_value (c : ascii) : Z := Z.of_nat (code c) - 48.

(** U+00D7. *)
Definition times : ascii := ascii_of_nat 215.

End Char.

(* ------------------------------------------------------------------ *)
(** ** Strings: the [str] methods the program calls *)

Module Str.

Definition is_empty (s : string) : bool :=
  match s with EmptyString => true | String _ _ => false end.

(** [s.lower()] *)
Fixpoint lower (s : string) : string :=
  match s with
  | EmptyString => EmptyString
  | String c s' => String (Char.lower c) (lower s')
  end.

(** [s.startswith(p)] *)
Fixpoint startswith (p s : string) : bool :=
  match p with
  | EmptyString => true
  | String a p' =>
      match s with
      | EmptyString => false
      | String b s' => Ascii.eqb a b && startswith p' s'
      end
  end.

(** [sub in s] *)
Fixpoint contains (sub s : string) : bool :=
  startswith sub s ||
  match s with
  | EmptyString => false
  | String _ s' => contains sub s'
  end.

(** [s[:n]] *)
Fixpoint take (n : nat) (s : string) : string :=
  match n, s with
  | S n', String c s' => String c (take n' s')
  | _, _ => EmptyString
  end.

(** [s[n:]] *)
Fixpoint drop (n : nat) (s : string) : string :=
  match n, s with
  | S n', String _ s' => drop n' s'
  | _, _ => s
  end.

(** [s.replace(old, new)] for a non-empty [old]: the occurrences of [old]
    are found from left to right and do not overlap.  [skip] counts the
    characters of an occurrence still to be passed over. *)
Fixpoint replace_from (old new : string) (skip : nat) (s : string) : string :=
  match s with
  | EmptyString => EmptyString
  | String c s' =>
      match skip with
      | S k => replace_from old new k s'
      | O =>
          if startswith old s
          then new ++ replace_from old new (String.length old - 1) s'
          else String c (replace_from old new 0 s')
      end
  end.

(** [s.replace("", new)]: [new] before every character and at the end. *)
Fixpoint interleave (new s : string) : string :=
  match s with
  | EmptyString => new
  | String c s' => new ++ String c (interleave new s')
  end.

Definition replace (old new s : string) : string :=
  if is_empty old then interleave new s else replace_from old new 0 s.

(** [s.lstrip()], [s.rstrip()], [s.strip()] *)
Fixpoint lstrip (s : string) : string :=
  match s with
  | EmptyString => EmptyString
  | String c s' => if Char.is_space c then lstrip s' else s
  end.

Fixpoint rstrip (s : string) : string :=
  match s with
  | EmptyString => EmptyString
  | String c s' =>
      let r := rstrip s' in
      if Char.is_space c && is_empty r then EmptyString else String c r
  end.

Definition strip (s : string) : string := rstrip (lstrip s).

(** [s.split()]: the maximal runs of non-space characters.  [cur] is the
    run being read. *)
Fixpoint split_from (cur : string) (s : string) : list string :=
  match s with
  | EmptyString => if is_empty cur then [] else [cur]
  | String c s' =>
      if Char.is_space c
      then (if is_empty cur then split_from "" s' else cur :: split_from "" s')
      else split_from (cur ++ String c "") s'
  end.

Definition split (s : string) : list string := split_from "" s.

(** [s.split(sep, 1)[0]] for a non-empty [sep]: the text before the first
    occurrence of [sep], the whole of [s] when there is none. *)
Fixpoint before_first (sep s : string) : string :=
  if startswith sep s then EmptyString
  else match s with
       | EmptyString => EmptyString
       | String c s' => String c (before_first sep s')
       end.

(** [sep.join(l)] *)
Definition join (sep : string) (l : list string) : string := String.concat sep l.

(** [x in l] on a list (or a set) of strings. *)
Definition mem (x : string) (l : list string) : bool := existsb (String.eqb x) l.

Definition of_char (c : ascii) : string := String c EmptyString.

End Str.

(* ------------------------------------------------------------------ *)
(** ** Constants *)

(** The multiplication sign, as a one-character string. *)
Definition x_ : string := Str.of_char Char.times.

Definition ILLEGAL_CUBE_TYPES : list string :=
  ["Smart Cube"; "Bluetooth Cube"; "Motorized Cube"; "Robot Cube";
   "Transparent Cube"; "Clear Cube"; "Ice Cube"; "Mirror Cube";
   "Ghost Cube"; "Axis Cube"; "Fisher Cube"; "Barrel Cube"; "Cuboid";
   "2" ++ x_ ++ "2" ++ x_ ++ "3"; "3" ++ x_ ++ "3" ++ x_ ++ "2";
   "3" ++ x_ ++ "3" ++ x_ ++ "4"; "3" ++ x_ ++ "3" ++ x_ ++ "5";
   "Bandaged Cube"; "Mixup Cube"; "Mastermorphix"; "Pyramorphix";
   "Master Pyraminx"; "8" ++ x_ ++ "8 Cube"; "9" ++ x_ ++ "9 Cube";
   "10" ++ x_ ++ "10 Cube"; "11" ++ x_ ++ "11 Cube";
   "12" ++ x_ ++ "12 Cube"; "13" ++ x_ ++ "13 Cube";
   "15" ++ x_ ++ "15 Cube"; "17" ++ x_ ++ "17 Cube";
   "18" ++ x_ ++ "18 Cube"; "Kilominx"; "Gigaminx"; "Teraminx"; "Petaminx";
   "Square-2"; "Cubedron"; "Ivy Cube"; "Gear Cube"; "Helicopter Cube";
   "Redi Cube"; "Sudokube"; "Floppy Cube"; "Infinity Cube"; "Siamese Cube"].

Definition ILLEGAL_TAGS : list string :=
  ["smart"; "bluetooth"; "wifi"; "wi-fi"; "wireless"; "app"; "app-enabled";
   "connected"; "cloud"; "iot"; "sensor"; "sensors"; "gyroscope"; "gyro";
   "accelerometer"; "imu"; "magnetometer"; "cpu"; "chip"; "pcb"; "display";
   "screen"; "lcd"; "oled"; "led"; "light"; "lights"; "rgb"; "neon";
   "matrix"; "battery"; "rechargeable"; "usb"; "type-c"; "charging";
   "lithium"; "li-ion"; "charger"; "power"; "motor"; "motorized"; "auto";
   "auto-turn"; "autosolve"; "self-turning"; "self-solving"; "robotic";
   "robot"; "servo"; "camera"; "microphone"; "speaker"; "voice"; "sound";
   "buzzer"; "transparent"; "clear"; "see-through"; "crystal"; "acrylic";
   "glass"; "timer"; "hud"; "projector"; "hologram"].

(** The set literal of the source, in source order.  Its entry
    ["pill" U+200B "ow"] holds a code point outside the modelled alphabet:
    it is a substring of no modelled text and is left out. *)
Definition SKIP_PRODUCT_TYPES : list string :=
  ["accessories"; "accessories bundle"; "apparel - clearance";
   "after sale"; "beanie"; "blanket"; "book"; "bundle"; "burr puzzle";
   "christmas"; "coaching service"; "competitions"; "cube cover";
   "display case"; "display time"; "diecast model"; "diy"; "diy kits";
   "educational toy"; "flashcards"; "fidget"; "fidget cube"; "hat";
   "hoodie"; "hardware"; "hobby tools"; "jacket"; "jigsaw puzzle";
   "lanyard"; "learning"; "lube"; "live events"; "lucky dip"; "mat";
   "model kit"; "mug"; "nanoblock"; "office"; "other";
   "plastic blade"; "plushie";
   "remote control car"; "refurbished"; "syringe"; "sticker sets";
   "storage bag"; "storage box"; "stand"; "shirt"; "t-shirt"; "timer";
   "timer accessories"; "timer skin"; "tools & accessories";
   "training courses"; "toy"; "water bottle"; "wooden building block";
   "wooden learning board toy"; "wooden puzzle"; "halloween"; "digital";
   "download"; "test"; "OPTIONS_HIDDEN_PRODUCT"; "globo"; "Sliding";
   "Pillow"; "snake"; "pin"; "badge"; "mouse"; "pad"; "Locking"; "Klotski";
   "Ball"; "Kreativity"; "LMS"; "Hanayama"; "Jibbitz"; "Keychain";
   "Lubricant"; "Lubricantset"; "Game"; "mod"; "service"; "sticker";
   "Tetra"; "Lifestyle"; "Freebie"; "Decals"; "Pouch"; "Logo"; "blindfold";
   "gift"].

(** A dict literal keeps its insertion order. *)
Definition SURFACE_MAP : list (string * string) :=
  [("uv", "UV Coated"); ("uvcoated", "UV Coated"); ("frosted", "Frosted");
   ("matte", "Matte"); ("gloss", "Glossy"); ("soft-touch", "Soft Touch")].

(** A Python number: an [int], or a [float] given by its decimal expansion
    to one place ([Float10 565] is [56.5], [Float10 560] is [56.0]). *)
Inductive number : Type :=
  | Int (n : Z)
  | Float10 (tenths : Z).

Definition DEFAULT_SIZE_MM : list (string * number) :=
  [("2x2", Int 50); ("3x3", Int 56); ("4x4", Int 60);
   ("5x5", Int 62); ("6x6", Int 65); ("7x7", Int 69)].

(** [NOISE_WORDS = {...}] is the set whose one element is [Ellipsis]: no
    string is a member of it. *)
Definition NOISE_WORDS : list string := [].

(** [d.get(key)] on a dict with string keys. *)
Fixpoint dict_get {A : Type} (d : list (string * A)) (key : string) : option A :=
  match d with
  | [] => None
  | (k, v) :: d' => if String.eqb k key then Some v else dict_get d' key
  end.

(* ------------------------------------------------------------------ *)
(** ** The compiled patterns *)

Module Re.

(** [pattern.search(s)]: the match at the leftmost position that has one.
    [m] matches at the start of its argument. *)
Fixpoint search {A : Type} (m : string -> option A) (s : string) : option A :=
  match m s with
  | Some a => Some a
  | None =>
      match s with
      | EmptyString => None
      | String _ s' => search m s'
      end
  end.

(** The same for a pattern that looks at the character before the
    position ([\b]). *)
Fixpoint search_after {A : Type} (m : option ascii -> string -> option A)
    (prev : option ascii) (s : string) : option A :=
  match m prev s with
  | Some a => Some a
  | None =>
      match s with
      | EmptyString => None
      | String c s' => search_after m (Some c) s'
      end
  end.

Definition is_word_opt (c : option ascii) : bool :=
  match c with Some c => Char.is_word c | None => false end.

(** [\b] between [l] and [r]; [None] is the start or the end of the text. *)
Definition word_boundary (l r : option ascii) : bool :=
  xorb (is_word_opt l) (is_word_opt r).

Definition head (s : string) : option ascii :=
  match s with EmptyString => None | String c _ => Some c end.

(** [\d*], greedy: what follows the leading digits. *)
Fixpoint skip_digits (s : string) : string :=
  match s with
  | EmptyString => EmptyString
  | String c s' => if Char.is_digit c then skip_digits s' else s
  end.

(** A literal under [re.I]. *)
Definition literal_i (lit s : string) : bool :=
  Str.startswith (Str.lower lit) (Str.lower s).

(** [\s*mm] under [re.I]; giving spaces back never helps, [m] is no space. *)
Definition spaces_mm (s : string) : bool := literal_i "mm" (Str.lstrip s).

(** [MM_PATTERN = (\d{2}(?:\.\d)?)\s*mm], [re.I], at the start of [s]:
    group 1 of the match.  The optional group is tried first and given up
    when the rest of the pattern fails after it. *)
Definition MM_PATTERN (s : string) : option string :=
  match s with
  | String d1 (String d2 rest) =>
      if Char.is_digit d1 && Char.is_digit d2 then
        let two := String d1 (String d2 "") in
        let without := if spaces_mm rest then Some two else None in
        match rest with
        | String dot (String d3 rest') =>
            if Ascii.eqb dot "." && Char.is_digit d3 then
              if spaces_mm rest'
              then Some (String d1 (String d2 (String dot (String d3 ""))))
              else without
            else without
        | _ => without
        end
      else None
  | _ => None
  end.

(** [[x×]] under [re.I]. *)
Definition is_x (c : ascii) : bool :=
  Ascii.eqb c "x" || Ascii.eqb c "X" || Ascii.eqb c Char.times.

(** [NXN_PATTERN = \b(\d)[x×](\d)\b], [re.I], at the start of [s], the
    character before being [prev]: groups 1 and 2. *)
Definition NXN_PATTERN (prev : option ascii) (s : string) : option (ascii * ascii) :=
  match s with
  | String a (String x (String b rest)) =>
      if word_boundary prev (Some a) && Char.is_digit a && is_x x
         && Char.is_digit b && word_boundary (Some b) (head rest)
      then Some (a, b) else None
  | _ => None
  end.

(** [SIZE_PATTERN = ^\d+x\d+], [re.I], as used by [.match]. *)
Definition SIZE_PATTERN (s : string) : bool :=
  match s with
  | String d _ =>
      Char.is_digit d &&
      match skip_digits s with
      | String x (String d' _) => literal_i "x" (Str.of_char x) && Char.is_digit d'
      | _ => false
      end
  | EmptyString => false
  end.

(** [$]: the end of the text, or just before a final newline. *)
Definition at_end (s : string) : bool :=
  Str.is_empty s || String.eqb s (Str.of_char (ascii_of_nat 10)).

(** [VERSION_PATTERN = ^(v\d+|pro|plus|m)$], [re.I], as used by [.match]. *)
Definition VERSION_PATTERN (s : string) : bool :=
  (literal_i "v" s &&
     match Str.drop 1 s with
     | String d r => Char.is_digit d && at_end (skip_digits r)
     | EmptyString => false
     end)
  || (literal_i "pro" s && at_end (Str.drop 3 s))
  || (literal_i "plus" s && at_end (Str.drop 4 s))
  || (literal_i "m" s && at_end (Str.drop 1 s)).

(** For [\(.*?\)]: the length of the shortest [.*?\)] at the start of [s],
    if there is one ([.] does not match a newline). *)
Fixpoint close_paren (s : string) : option nat :=
  match s with
  | EmptyString => None
  | String c s' =>
      if Ascii.eqb c ")" then Some 1
      else if Ascii.eqb c (ascii_of_nat 10) then None
      else option_map S (close_paren s')
  end.

(** [re.sub(r"\(.*?\)", "", s)]; [skip] counts the characters of a match
    still to be passed over. *)
Fixpoint sub_parens_from (skip : nat) (s : string) : string :=
  match s with
  | EmptyString => EmptyString
  | String c s' =>
      match skip with
      | S k => sub_parens_from k s'
      | O =>
          if Ascii.eqb c "(" then
            match close_paren s' with
            | Some n => sub_parens_from n s'
            | None => String c (sub_parens_from 0 s')
            end
          else String c (sub_parens_from 0 s')
      end
  end.

Definition sub_parens (s : string) : string := sub_parens_from 0 s.

End Re.

(* ------------------------------------------------------------------ *)
(** ** Data model *)

(** A raw listing, as the storefront JSON gives it.  A key of the JSON
    object may be absent: [None]. *)
Record image : Type := { src : option string }.

Record variant : Type := {
  v_title : option string;
  v_grams : option Z;
  v_available : option bool;
  v_featured_image : option image
}.

Record product : Type := {
  title : option string;
  vendor : option string;
  product_type : option string;
  tags : option (list string);
  body_html : option string;
  images : option (list image);
  variants : option (list variant);
  published_at : option string
}.

(** One canonical row.  [related_to] is a key of Trim rows only;
    [image_url] and [surface_finish] may hold Python's [None]. *)
Record row : Type := {
  series : string;
  model : string;
  slug : string;
  brand : string;
  type : string;
  magnetic : bool;
  maglev : bool;
  smart : bool;
  wca_legal : bool;
  image_url : option string;
  discontinued : bool;
  surface_finish : option string;
  stickered : bool;
  release_date : string;
  size : number;
  weight : Z;
  rating : Z;
  notes : string;
  status : string;
  submitted_by : string;
  version_type : string;
  version_name : string;
  related_to : option string
}.

(** [row[key] = value] for the keys the row expander assigns. *)
Definition set_weight (v : Z) (r : row) : row :=
  {| series := series r; model := model r; slug := slug r; brand := brand r;
     type := type r; magnetic := magnetic r; maglev := maglev r;
     smart := smart r; wca_legal := wca_legal r; image_url := image_url r;
     discontinued := discontinued r; surface_finish := surface_finish r;
     stickered := stickered r; release_date := release_date r;
     size := size r; weight := v; rating := rating r; notes := notes r;
     status := status r; submitted_by := submitted_by r;
     version_type := version_type r; version_name := version_name r;
     related_to := related_to r |}.

Definition set_related_to (v : string) (r : row) : row :=
  {| series := series r; model := model r; slug := slug r; brand := brand r;
     type := type r; magnetic := magnetic r; maglev := maglev r;
     smart := smart r; wca_legal := wca_legal r; image_url := image_url r;
     discontinued := discontinued r; surface_finish := surface_finish r;
     stickered := stickered r; release_date := release_date r;
     size := size r; weight := weight r; rating := rating r; notes := notes r;
     status := status r; submitted_by := submitted_by r;
     version_type := version_type r; version_name := version_name r;
     related_to := Some v |}.

Definition set_slug (v : string) (r : row) : row :=
  {| series := series r; model := model r; slug := v; brand := brand r;
     type := type r; magnetic := magnetic r; maglev := maglev r;
     smart := smart r; wca_legal := wca_legal r; image_url := image_url r;
     discontinued := discontinued r; surface_finish := surface_finish r;
     stickered := stickered r; release_date := release_date r;
     size := size r; weight := weight r; rating := rating r; notes := notes r;
     status := status r; submitted_by := submitted_by r;
     version_type := version_type r; version_name := version_name r;
     related_to := related_to r |}.

Definition set_version_type (v : string) (r : row) : row :=
  {| series := series r; model := model r; slug := slug r; brand := brand r;
     type := type r; magnetic := magnetic r; maglev := maglev r;
     smart := smart r; wca_legal := wca_legal r; image_url := image_url r;
     discontinued := discontinued r; surface_finish := surface_finish r;
     stickered := stickered r; release_date := release_date r;
     size := size r; weight := weight r; rating := rating r; notes := notes r;
     status := status r; submitted_by := submitted_by r;
     version_type := v; version_name := version_name r;
     related_to := related_to r |}.

Definition set_version_name (v : string) (r : row) : row :=
  {| series := series r; model := model r; slug := slug r; brand := brand r;
     type := type r; magnetic := magnetic r; maglev := maglev r;
     smart := smart r; wca_legal := wca_legal r; image_url := image_url r;
     discontinued := discontinued r; surface_finish := surface_finish r;
     stickered := stickered r; release_date := release_date r;
     size := size r; weight := weight r; rating := rating r; notes := notes r;
     status := status r; submitted_by := submitted_by r;
     version_type := version_type r; version_name := v;
     related_to := related_to r |}.

Definition set_image_url (v : option string) (r : row) : row :=
  {| series := series r; model := model r; slug := slug r; brand := brand r;
     type := type r; magnetic := magnetic r; maglev := maglev r;
     smart := smart r; wca_legal := wca_legal r; image_url := v;
     discontinued := discontinued r; surface_finish := surface_finish r;
     stickered := stickered r; release_date := release_date r;
     size := size r; weight := weight r; rating := rating r; notes := notes r;
     status := status r; submitted_by := submitted_by r;
     version_type := version_type r; version_name := version_name r;
     related_to := related_to r |}.

(** [d.get(key, default)] on a key that may be absent. *)
Definition get {A : Type} (field : option A) (default : A) : A :=
  match field with Some a => a | None => default end.

(** [d.get(key) or default] on a string: an absent key gives [None], and
    [None] and the empty string are both falsy. *)
Definition get_or_str (field : option string) (default : string) : string :=
  match field with
  | Some s => if Str.is_empty s then default else s
  | None => default
  end.

(** [d.get(key) or default] on a list. *)
Definition get_or_list {A : Type} (field : option (list A)) (default : list A) : list A :=
  match field with
  | Some (a :: l) => a :: l
  | _ => default
  end.

(* ------------------------------------------------------------------ *)
(** ** The filter and the attribute extractors *)

(** [float(m.group(1))] for a group 1 of [MM_PATTERN]: two digits, then
    possibly a point and one digit. *)
Fixpoint int_of_digits (acc : Z) (s : string) : Z :=
  match s with
  | EmptyString => acc
  | String c s' => int_of_digits (10 * acc + Char.digit_value c) s'
  end.

Definition float_tenths (g : string) : Z :=
  10 * int_of_digits 0 (Str.take 2 g) + int_of_digits 0 (Str.drop 3 g).

Definition float (g : string) : number := Float10 (float_tenths g).

Definition variant_titles (prod : product) : list string :=
  map (fun v => get (v_title v) "") (get (variants prod) []).

Definition extract_series_name (title : string) : string :=
  let clean := Re.sub_parens title in
  let clean := Str.before_first " -" clean in
  let words :=
    (fix loop (ws : list string) : list string :=
       match ws with
       | [] => []
       | w :: ws' =>
           let lw := Str.lower w in
           if Re.SIZE_PATTERN lw || Re.VERSION_PATTERN lw || Str.mem lw NOISE_WORDS
           then []
           else w :: loop ws'
       end) (Str.split clean) in
  Str.strip (Str.join " " words).

(** The inner loop of [detect_surface_finish]: the first keyword of the
    map, in the map's order, that [key] contains. *)
Fixpoint first_keyword (m : list (string * string)) (key : string) : option string :=
  match m with
  | [] => None
  | (kw, name) :: m' =>
      if Str.contains kw key then Some name else first_keyword m' key
  end.

Fixpoint detect_surface_finish (tags : list string) : option string :=
  match tags with
  | [] => None
  | tag :: tags' =>
      let key := Str.replace " " "" (Str.replace "_" "-" (Str.lower tag)) in
      match first_keyword SURFACE_MAP key with
      | Some name => Some name
      | None => detect_surface_finish tags'
      end
  end.

Definition is_stickered (prod : product) : bool :=
  let text := Str.lower (Str.join " " (get (tags prod) [] ++ variant_titles prod)%list) in
  if Str.contains "stickerless" text then false
  else if Str.contains "stickered" text
          || existsb (fun k => Str.contains k text) ["black"; "primary"]
  then true
  else false.

(** [OrderedDict]: the keys in insertion order. *)
Definition has_key {A : Type} (d : list (string * A)) (key : string) : bool :=
  existsb (fun kv => String.eqb (fst kv) key) d.

Definition deduplicate_rows (rows : list row) : list row :=
  let unique :=
    fold_left (fun unique r =>
                 let key := slug r in
                 if negb (has_key unique key) then (unique ++ [(key, r)])%list
                 else unique)
              rows [] in
  map snd unique.

Section Pipeline.

(** Two functions of libraries: [slugify.slugify], and the substitution of
    character references [_charref.sub(_replace_charref, s)] that
    [html.unescape] performs with the entity table of the standard
    library. *)
Variable slugify : string -> string.
Variable charref_sub : string -> string.

(** [SKIP_PRODUCT_TYPES] is a [set]: the order in which a run iterates it
    is not fixed by the program (it follows the hashes of the strings,
    which change from one run to the next).  [skip_types] is the set in
    the order of the run. *)
Variable skip_types : list string.

Definition should_skip (prod : product) : bool :=
  let product_type := Str.lower (get (product_type prod) "") in
  existsb (fun skip => Str.contains (Str.lower skip) product_type) skip_types.

(** [html.unescape]. *)
Definition unescape (s : string) : string :=
  if negb (Str.contains "&" s) then s else charref_sub s.

Definition detect_size_mm (prod : product) : number :=
  let text :=
    Str.lower
      (Str.join " "
         ([get (title prod) ""; unescape (get_or_str (body_html prod) "")]
            ++ get (tags prod) []
            ++ variant_titles prod)%list) in
  match Re.search Re.MM_PATTERN text with
  | Some g => float g
  | None =>
      match Re.search_after Re.NXN_PATTERN None (get (title prod) "") with
      | Some (a, b) =>
          let key := String a (String "x" (String b "")) in
          get (dict_get DEFAULT_SIZE_MM key) (Float10 560)
      | None => Float10 560
      end
  end.

Definition base_row (prod : product) : row :=
  let tags := map Str.lower (get (tags prod) []) in
  {| series := extract_series_name (get (title prod) "");
     model :=
       Str.strip
         (Str.replace (extract_series_name (get (title prod) "")) ""
                      (get (title prod) ""));
     slug :=
       slugify
         (extract_series_name (get (title prod) "")
          ++ Str.replace (extract_series_name (get (title prod) "")) ""
                         (get (title prod) ""));
     brand := get (vendor prod) "";
     type := get (product_type prod) "";
     magnetic := Str.mem "magnetic" tags;
     maglev := existsb (fun t => Str.contains "maglev" t) tags;
     smart := Str.mem "bluetooth" tags;
     wca_legal :=
       negb (existsb (fun t => Str.mem (Str.lower t) ILLEGAL_TAGS) tags)
       && negb (Str.mem (get (product_type prod) "") ILLEGAL_CUBE_TYPES);
     image_url :=
       Some (Str.before_first "?"
               (get (src (hd {| src := None |}
                             (get_or_list (images prod) [{| src := None |}])))
                    ""));
     discontinued :=
       negb (existsb (fun v => get (v_available v) true)
                     (get (variants prod) []));
     surface_finish := detect_surface_finish tags;
     stickered := is_stickered prod;
     release_date := Str.take 10 (get (published_at prod) "");
     size := detect_size_mm prod;
     weight := 0;
     rating := 0;
     notes := "";
     status := "Pending";
     submitted_by := "CubeIndex";
     version_type := "Base";
     version_name := "";
     related_to := None |}.

(** The body of the loop over the variants. *)
Definition trim_row (base : row) (v : variant) : row :=
  let row := base in
  let row := set_weight (get (v_grams v) 0%Z) row in
  let row := set_related_to (slug row) row in
  let row := set_slug (slugify (slug row ++ " " ++ get (v_title v) "")) row in
  let row := set_version_type "Trim" row in
  let row := set_version_name (get (v_title v) "") row in
  match v_featured_image v with
  | Some img => set_image_url (src img) row
  | None => row
  end.

Definition normalize_product (prod : product) : list row :=
  let base := base_row prod in
  let variants := get_or_list (variants prod) [] in
  ([base] ++ map (trim_row base) variants)%list.

(** [main]: the rows handed to the upsert and to the JSON dump, one list
    of listings per source file, the files in sorted order.  [None]: the
    run stops at "Nothing suitable found" and writes nothing. *)
Definition candidate_rows (files : list (list product)) : list row :=
  flat_map
    (fun products =>
       flat_map (fun prod => if should_skip prod then [] else normalize_product prod)
                products)
    files.

Definition main (files : list (list product)) : option (list row) :=
  let all_rows := candidate_rows files in
  match all_rows with
  | [] => None
  | _ => Some (deduplicate_rows all_rows)
  end.

End Pipeline.

(* ------------------------------------------------------------------ *)
(** ** The program on untyped JSON values *)

(** The listings are what [json.load] returns, and nothing in the program
    checks their shape: a key may be absent, and an operation on a value
    of the wrong type raises.  [Py] models the same functions on JSON
    values, with the exceptions. *)

Module Py.

Local Open Scope list_scope.

(** The functions on typed values that the functions below share a name
    with. *)
Local Abbreviation typed_get := get.
Local Abbreviation typed_unescape := unescape.
Local Abbreviation typed_extract_series_name := extract_series_name.

#[warnings="-register-all"]
Inductive value : Type :=
  | VNone
  | VBool (b : bool)
  | VInt (n : Z)
  | VFloat10 (tenths : Z)
  | VStr (s : string)
  | VList (l : list value)
  | VDict (d : list (string * value)).

(** A computation returns a value or raises ([KeyError], [TypeError],
    [AttributeError], [IndexError]: an uncaught exception of any kind
    ends the run). *)
Inductive result (A : Type) : Type :=
  | Ok (a : A)
  | Raise.

Arguments Ok {A} a.
Arguments Raise {A}.

Definition bind {A B : Type} (r : result A) (k : A -> result B) : result B :=
  match r with
  | Ok a => k a
  | Raise => Raise
  end.

Notation "x <- e ;; k" := (bind e (fun x => k))
  (at level 61, e at next level, right associativity).

Fixpoint map_m {A B : Type} (f : A -> result B) (l : list A) : result (list B) :=
  match l with
  | [] => Ok []
  | a :: l' => b <- f a ;; bs <- map_m f l' ;; Ok (b :: bs)
  end.

(** [d.get(key, default)]; [d.get(key)] is [get d key VNone].  Only a dict
    has the method. *)
Definition get (d : value) (key : string) (default : value) : result value :=
  match d with
  | VDict kv =>
      Ok (match dict_get kv key with Some v => v | None => default end)
  | _ => Raise
  end.

(** [d[key]] on a dict. *)
Definition getitem (d : list (string * value)) (key : string) : result value :=
  match dict_get d key with
  | Some v => Ok v
  | None => Raise
  end.

(** [d[key] = v]: the key keeps its place, a new key goes last. *)
Fixpoint setitem (d : list (string * value)) (key : string) (v : value)
    : list (string * value) :=
  match d with
  | [] => [(key, v)]
  | (k, x) :: d' =>
      if String.eqb k key then (k, v) :: d' else (k, x) :: setitem d' key v
  end.

(** Truth value. *)
Definition truthy (v : value) : bool :=
  match v with
  | VNone => false
  | VBool b => b
  | VInt n => negb (n =? 0)%Z
  | VFloat10 t => negb (t =? 0)%Z
  | VStr s => negb (Str.is_empty s)
  | VList l => match l with [] => false | _ => true end
  | VDict d => match d with [] => false | _ => true end
  end.

(** [a or b] *)
Definition or_ (a b : value) : value := if truthy a then a else b.

(** [for x in v]: the items of a list, the characters of a str, the keys
    of a dict. *)
Definition iter (v : value) : result (list value) :=
  match v with
  | VList l => Ok l
  | VStr s => Ok (map (fun c => VStr (Str.of_char c)) (list_ascii_of_string s))
  | VDict d => Ok (map (fun kv => VStr (fst kv)) d)
  | _ => Raise
  end.

(** The receiver of a str method, or the operand of an operation that
    takes a str only. *)
Definition as_str (v : value) : result string :=
  match v with
  | VStr s => Ok s
  | _ => Raise
  end.

(** [v.lower()] *)
Definition lower (v : value) : result string :=
  s <- as_str v ;; Ok (Str.lower s).

(** [sep.join(items)] *)
Definition join (sep : string) (items : list value) : result string :=
  l <- map_m as_str items ;; Ok (Str.join sep l).

(** [a + b] where [b] is a list. *)
Definition list_add (a : value) (b : list value) : result (list value) :=
  match a with
  | VList l => Ok (l ++ b)
  | _ => Raise
  end.

(** [v[0]] *)
Definition first (v : value) : result value :=
  match v with
  | VList (x :: _) => Ok x
  | VStr (String c _) => Ok (VStr (Str.of_char c))
  | _ => Raise
  end.

(** [v[:10]] *)
Definition slice10 (v : value) : result value :=
  match v with
  | VStr s => Ok (VStr (Str.take 10 s))
  | VList l => Ok (VList (firstn 10 l))
  | _ => Raise
  end.

(** [v not in S] for a set [S] of strings: a list and a dict cannot be
    hashed. *)
Definition not_in_set (v : value) (S : list string) : result bool :=
  match v with
  | VStr s => Ok (negb (Str.mem s S))
  | VList _ | VDict _ => Raise
  | _ => Ok true
  end.

(** [any(v.get("available", True) for v in vs)]: [any] stops at the first
    true item. *)
Fixpoint any_available (vs : list value) : result bool :=
  match vs with
  | [] => Ok false
  | v :: vs' =>
      a <- get v "available" (VBool true) ;;
      if truthy a then Ok true else any_available vs'
  end.

Definition of_number (n : number) : value :=
  match n with
  | Int z => VInt z
  | Float10 t => VFloat10 t
  end.

Definition of_option (o : option string) : value :=
  match o with
  | Some s => VStr s
  | None => VNone
  end.

(** The JSON value of a typed listing: an absent field is an absent key. *)
Definition item (key : string) (v : option value) : list (string * value) :=
  match v with
  | Some x => [(key, x)]
  | None => []
  end.

Definition of_image (i : image) : value :=
  VDict (item "src" (option_map VStr (src i))).

Definition of_variant (v : variant) : value :=
  VDict (item "title" (option_map VStr (v_title v))
         ++ item "grams" (option_map VInt (v_grams v))
         ++ item "available" (option_map VBool (v_available v))
         ++ item "featured_image" (option_map of_image (v_featured_image v))).

Definition of_product (p : product) : value :=
  VDict (item "title" (option_map VStr (title p))
         ++ item "vendor" (option_map VStr (vendor p))
         ++ item "product_type" (option_map VStr (product_type p))
         ++ item "tags" (option_map (fun l => VList (map VStr l)) (tags p))
         ++ item "body_html" (option_map VStr (body_html p))
         ++ item "images" (option_map (fun l => VList (map of_image l)) (images p))
         ++ item "variants" (option_map (fun l => VList (map of_variant l)) (variants p))
         ++ item "published_at" (option_map VStr (published_at p))).

(** The dict of a typed row, its keys in the order of the dict literal;
    [related_to] is the key that the loop body adds. *)
Definition of_row (r : row) : list (string * value) :=
  [("series", VStr (series r));
   ("model", VStr (model r));
   ("slug", VStr (slug r));
   ("brand", VStr (brand r));
   ("type", VStr (type r));
   ("magnetic", VBool (magnetic r));
   ("maglev", VBool (maglev r));
   ("smart", VBool (smart r));
   ("wca_legal", VBool (wca_legal r));
   ("image_url", of_option (image_url r));
   ("discontinued", VBool (discontinued r));
   ("surface_finish", of_option (surface_finish r));
   ("stickered", VBool (stickered r));
   ("release_date", VStr (release_date r));
   ("size", of_number (size r));
   ("weight", VInt (weight r));
   ("rating", VInt (rating r));
   ("notes", VStr (notes r));
   ("status", VStr (status r));
   ("submitted_by", VStr (submitted_by r));
   ("version_type", VStr (version_type r));
   ("version_name", VStr (version_name r))]
  ++ item "related_to" (option_map VStr (related_to r)).

Section Pipeline.

Variable slugify : string -> string.
Variable charref_sub : string -> string.
Variable skip_types : list string.

(** [html.unescape(v)] as [detect_size_mm] uses it: for an argument that
    is no str, either [unescape] raises or it returns the argument and
    [join] raises. *)
Definition unescape (v : value) : result value :=
  s <- as_str v ;; Ok (VStr (typed_unescape charref_sub s)).

Definition should_skip (prod : value) : result bool :=
  pt <- get prod "product_type" (VStr "") ;;
  product_type <- lower pt ;;
  Ok (existsb (fun skip => Str.contains (Str.lower skip) product_type)
              skip_types).

(** [[v.get("title", "") for v in prod.get("variants", [])]] *)
Definition variant_titles (prod : value) : result (list value) :=
  variants <- get prod "variants" (VList []) ;;
  vs <- iter variants ;;
  map_m (fun v => get v "title" (VStr "")) vs.

Definition detect_size_mm (prod : value) : result value :=
  title <- get prod "title" (VStr "") ;;
  body <- get prod "body_html" VNone ;;
  body <- unescape (or_ body (VStr "")) ;;
  tags <- get prod "tags" (VList []) ;;
  tags <- iter tags ;;
  titles <- variant_titles prod ;;
  text <- join " " ([title; body] ++ tags ++ titles) ;;
  let text := Str.lower text in
  match Re.search Re.MM_PATTERN text with
  | Some g => Ok (VFloat10 (float_tenths g))
  | None =>
      title <- get prod "title" (VStr "") ;;
      title <- as_str title ;;
      match Re.search_after Re.NXN_PATTERN None title with
      | Some (a, b) =>
          let key := String a (String "x" (String b "")) in
          Ok (of_number (typed_get (dict_get DEFAULT_SIZE_MM key) (Float10 560)))
      | None => Ok (VFloat10 560)
      end
  end.

Definition extract_series_name (title : value) : result string :=
  title <- as_str title ;; Ok (typed_extract_series_name title).

Definition is_stickered (prod : value) : result bool :=
  tags <- get prod "tags" (VList []) ;;
  titles <- variant_titles prod ;;
  items <- list_add tags titles ;;
  text <- join " " items ;;
  let text := Str.lower text in
  Ok (if Str.contains "stickerless" text then false
      else if Str.contains "stickered" text
              || existsb (fun k => Str.contains k text) ["black"; "primary"]
      then true
      else false).

(** [not any(t.lower() in ILLEGAL_TAGS for t in tags) and
    prod.get("product_type", "") not in ILLEGAL_CUBE_TYPES]: the second
    operand is evaluated only when the first is true. *)
Definition wca_legal (tags : list string) (prod : value) : result bool :=
  if negb (existsb (fun t => Str.mem (Str.lower t) ILLEGAL_TAGS) tags)
  then pt <- get prod "product_type" (VStr "") ;;
       not_in_set pt ILLEGAL_CUBE_TYPES
  else Ok false.

(** [(prod.get("images") or [{}])[0].get("src", "").split("?", 1)[0]] *)
Definition image_url (prod : value) : result value :=
  images <- get prod "images" VNone ;;
  img <- first (or_ images (VList [VDict []])) ;;
  src <- get img "src" (VStr "") ;;
  src <- as_str src ;;
  Ok (VStr (Str.before_first "?" src)).

Definition base_row (prod : value) : result (list (string * value)) :=
  tags <- get prod "tags" (VList []) ;;
  tags <- iter tags ;;
  tags <- map_m lower tags ;;
  title <- get prod "title" (VStr "") ;;
  series <- extract_series_name title ;;
  title <- get prod "title" (VStr "") ;;
  title <- as_str title ;;
  title' <- get prod "title" (VStr "") ;;
  series' <- extract_series_name title' ;;
  let model := Str.strip (Str.replace series' "" title) in
  title <- get prod "title" (VStr "") ;;
  series1 <- extract_series_name title ;;
  title <- get prod "title" (VStr "") ;;
  title <- as_str title ;;
  title' <- get prod "title" (VStr "") ;;
  series2 <- extract_series_name title' ;;
  let slug := slugify (series1 ++ Str.replace series2 "" title)%string in
  brand <- get prod "vendor" (VStr "") ;;
  type <- get prod "product_type" (VStr "") ;;
  legal <- wca_legal tags prod ;;
  image <- image_url prod ;;
  variants <- get prod "variants" (VList []) ;;
  variants <- iter variants ;;
  available <- any_available variants ;;
  stickered <- is_stickered prod ;;
  published <- get prod "published_at" (VStr "") ;;
  release_date <- slice10 published ;;
  size <- detect_size_mm prod ;;
  Ok [("series", VStr series);
      ("model", VStr model);
      ("slug", VStr slug);
      ("brand", brand);
      ("type", type);
      ("magnetic", VBool (Str.mem "magnetic" tags));
      ("maglev", VBool (existsb (fun t => Str.contains "maglev" t) tags));
      ("smart", VBool (Str.mem "bluetooth" tags));
      ("wca_legal", VBool legal);
      ("image_url", image);
      ("discontinued", VBool (negb available));
      ("surface_finish", of_option (detect_surface_finish tags));
      ("stickered", VBool stickered);
      ("release_date", release_date);
      ("size", size);
      ("weight", VInt 0);
      ("rating", VInt 0);
      ("notes", VStr "");
      ("status", VStr "Pending");
      ("submitted_by", VStr "CubeIndex");
      ("version_type", VStr "Base");
      ("version_name", VStr "")].

(** The body of the loop over the variants; [base.copy()] is [base], the
    rows being values here. *)
Definition trim_row (base : list (string * value)) (v : value)
    : result (list (string * value)) :=
  let row := base in
  grams <- get v "grams" (VInt 0) ;;
  let row := setitem row "weight" grams in
  slug <- getitem row "slug" ;;
  let row := setitem row "related_to" slug in
  slug <- getitem row "slug" ;;
  slug <- as_str slug ;;
  title <- get v "title" (VStr "") ;;
  title <- as_str title ;;
  let row := setitem row "slug" (VStr (slugify (slug ++ " " ++ title)%string)) in
  let row := setitem row "version_type" (VStr "Trim") in
  title <- get v "title" (VStr "") ;;
  let row := setitem row "version_name" title in
  image <- get v "featured_image" VNone ;;
  match image with
  | VNone => Ok row
  | _ =>
      image <- get v "featured_image" VNone ;;
      src <- get image "src" VNone ;;
      Ok (setitem row "image_url" src)
  end.

Definition normalize_product (prod : value)
    : result (list (list (string * value))) :=
  base <- base_row prod ;;
  variants <- get prod "variants" VNone ;;
  let variants := or_ variants (VList []) in
  if truthy variants then
    variants <- iter variants ;;
    trims <- map_m (trim_row base) variants ;;
    Ok ([base] ++ trims)
  else Ok [base].

End Pipeline.

End Py.

(* ------------------------------------------------------------------ *)
(** ** The upsert in batches *)

Module Upsert.

Local Open Scope list_scope.

(** The number of items of [range(0, stop, step)] for a positive [step]. *)
Definition range_length (stop step : nat) : nat := (stop + step - 1) / step.

(** [range(0, stop, step)] where [stop] is a length: a zero [step] raises
    [ValueError], and a negative one gives the empty range. *)
Definition range (stop : nat) (step : Z) : Py.result (list nat) :=
  if (step =? 0)%Z then Py.Raise
  else if (step <? 0)%Z then Py.Ok []
  else Py.Ok (map (fun i => i * Z.to_nat step)
                  (seq 0 (range_length stop (Z.to_nat step)))).

(** [rows[start : start + chunk]] *)
Definition slice {A : Type} (rows : list A) (start chunk : nat) : list A :=
  firstn chunk (skipn start rows).

(** [write_rows_to_supabase]: the batches handed to [upsert], one per
    call and in the order of the calls, when every call returns. *)
Definition write_rows_to_supabase (rows : list row) (chunk : Z)
    : Py.result (list (list row)) :=
  Py.bind (range (List.length rows) chunk)
          (fun starts =>
             Py.Ok (map (fun start => slice rows start (Z.to_nat chunk)) starts)).

(** The default of the [chunk] argument. *)
Definition default_chunk : Z := 500.

End Upsert.

(* ------------------------------------------------------------------ *)
(** ** The download of a catalogue *)

(** [fetch_all_products] of [fetch_stores_products.py] and of
    [speedcubeshop.py].  The store is what it answers to the request for
    each page; the loop asks for every page once, in increasing order. *)

Module Fetch.

Local Open Scope list_scope.

(** The outcome of the inner [try]: [requests.RequestException] (no
    answer, an error status or a body that is no JSON), or the list
    [resp.json().get("products", [])]. *)
Inductive response (A : Type) : Type :=
  | RequestException
  | Products (chunk : list A).

Arguments RequestException {A}.
Arguments Products {A} chunk.

Section Loop.

Context {A : Type}.
Variable store : nat -> response A.

(** The [while True] loop from the state ([products], [page_ref[0]]);
    [fuel] bounds the number of requests, and [None] is a loop that has
    not ended within it.  The result is the final state. *)
Fixpoint loop (fuel : nat) (products : list A) (page : nat)
    : option (list A * nat) :=
  match fuel with
  | O => None
  | S fuel' =>
      match store page with
      | RequestException => Some (products, page)
      | Products [] => Some (products, page)
      | Products chunk => loop fuel' (products ++ chunk) (page + 1)
      end
  end.

(** The list returned, and the number of pages of the final message. *)
Definition fetch_all_products (fuel : nat) : option (list A) :=
  option_map fst (loop fuel [] 1).

Definition pages_collected (fuel : nat) : option nat :=
  option_map (fun state => snd state - 1) (loop fuel [] 1).

End Loop.

End Fetch.

(* ================================================================== *)
(** * Specifications *)

(** What the specification says, as definitions: the policy of the
    deduplicator, the surface finish, the model, the size. *)

(* ------------------------------------------------------------------ *)
(** ** The deduplicator *)

Module Dedup.

Local Open Scope list_scope.

(** The policy in words: keep a row, drop the later rows of the same slug. *)
Fixpoint first_wins (rows : list row) : list row :=
  match rows with
  | [] => []
  | r :: rows' =>
      r :: filter (fun r' => negb (String.eqb (slug r') (slug r)))
                  (first_wins rows')
  end.

(** The first row of a given slug. *)
Definition find_slug (s : string) (rows : list row) : option row :=
  find (fun r => String.eqb (slug r) s) rows.

(** The loop of [deduplicate_rows], started from any dictionary. *)
Definition step (unique : list (string * row)) (r : row) : list (string * row) :=
  if negb (has_key unique (slug r)) then unique ++ [(slug r, r)] else unique.

End Dedup.

(* ------------------------------------------------------------------ *)
(** ** Legality *)

(** Some tag matches the illegal-tag set, case apart. *)
Definition illegal_tag (tags : list string) : Prop :=
  exists t e, In t tags /\ In e ILLEGAL_TAGS /\ Str.lower t = Str.lower e.

(* ------------------------------------------------------------------ *)
(** ** The surface finish *)

Module Surface.

Local Open Scope list_scope.

(** The normalisation in the words of the specification: lower-case, and
    the separators "_" and " " removed. *)
Definition key_as_specified (tag : string) : string :=
  Str.replace " " "" (Str.replace "_" "" (Str.lower tag)).

Fixpoint detect_as_specified (tags : list string) : option string :=
  match tags with
  | [] => None
  | tag :: tags' =>
      match first_keyword SURFACE_MAP (key_as_specified tag) with
      | Some name => Some name
      | None => detect_as_specified tags'
      end
  end.

(** The normalisation of the code, character by character: lower-case,
    "_" becomes "-", " " is dropped. *)
Fixpoint key (tag : string) : string :=
  match tag with
  | EmptyString => EmptyString
  | String c tag' =>
      let c' := Char.lower c in
      if Ascii.eqb c' " " then key tag'
      else if Ascii.eqb c' "_" then String "-" (key tag')
      else String c' (key tag')
  end.

(** No keyword of the map occurs in the normalised tag. *)
Definition no_keyword (m : list (string * string)) (tag : string) : Prop :=
  forall kw name, In (kw, name) m -> Str.contains kw (key tag) = false.

(** What [detect_surface_finish] is to return: the display name of the
    first keyword, in the map's order, that the first tag holding one (in
    tag order) contains; [None] when no tag holds a keyword. *)
Inductive finish_of (tags : list string) : option string -> Prop :=
  | finish_found pre tag post m1 kw name m2 :
      tags = pre ++ tag :: post ->
      Forall (no_keyword SURFACE_MAP) pre ->
      SURFACE_MAP = m1 ++ (kw, name) :: m2 ->
      no_keyword m1 tag ->
      Str.contains kw (key tag) = true ->
      finish_of tags (Some name)
  | finish_none :
      Forall (no_keyword SURFACE_MAP) tags ->
      finish_of tags None.

End Surface.

(* ------------------------------------------------------------------ *)
(** ** Series and model *)

Module Model.

(** The model in the words of the specification: the series substring
    removed once. *)
Fixpoint remove_once (old s : string) : string :=
  if Str.startswith old s then Str.drop (String.length old) s
  else match s with
       | EmptyString => EmptyString
       | String c s' => String c (remove_once old s')
       end.

(** [removed_all old s out]: [out] is [s] without the occurrences of
    [old], taken from left to right, an occurrence starting where the one
    before it ends at the earliest.  Removing the empty string changes
    nothing. *)
Inductive removed_all (old : string) : string -> string -> Prop :=
  | removed_empty s :
      old = "" -> removed_all old s s
  | removed_none s :
      Str.contains old s = false -> removed_all old s s
  | removed_first pre post out :
      old <> "" ->
      (forall p1 p2, pre ++ old ++ post = p1 ++ old ++ p2 ->
                     String.length pre <= String.length p1) ->
      removed_all old post out ->
      removed_all old (pre ++ old ++ post) (pre ++ out).

End Model.

(* ------------------------------------------------------------------ *)
(** ** The size *)

Module Size.

(** The text that [detect_size_mm] searches for a measurement. *)
Definition text (charref_sub : string -> string) (prod : product) : string :=
  Str.lower
    (Str.join " "
       ([get (title prod) ""; unescape charref_sub (get_or_str (body_html prod) "")]
          ++ get (tags prod) []
          ++ variant_titles prod)%list).

Fixpoint all_space (s : string) : bool :=
  match s with
  | EmptyString => true
  | String c s' => Char.is_space c && all_space s'
  end.

(** The last character of a text. *)
Fixpoint last_char (s : string) : option ascii :=
  match s with
  | EmptyString => None
  | String c s' =>
      match s' with
      | EmptyString => Some c
      | String _ _ => last_char s'
      end
  end.

(** A pattern, as a property of a position of a text: of what comes before
    the position, of what comes from it on, and of the value matched. *)
Definition pattern (A : Type) : Type := string -> string -> A -> Prop.

(** The pattern holds at a position of [s], and at no position before. *)
Definition leftmost {A : Type} (P : pattern A) (s : string) (a : A) : Prop :=
  exists pre suf,
    s = pre ++ suf /\ P pre suf a
    /\ forall pre' suf' a',
         s = pre' ++ suf' -> String.length pre' < String.length pre ->
         ~ P pre' suf' a'.

(** The pattern holds at no position of [s]. *)
Definition nowhere {A : Type} (P : pattern A) (s : string) : Prop :=
  forall pre suf a, s = pre ++ suf -> ~ P pre suf a.

(** Two digits, possibly a point and a digit, any white space, and "mm" in
    either case: [MM_PATTERN], with the number in tenths. *)
Inductive mm_at (pre : string) : string -> Z -> Prop :=
  | mm_whole d1 d2 ws m1 m2 rest :
      Char.is_digit d1 = true -> Char.is_digit d2 = true ->
      all_space ws = true ->
      Char.lower m1 = "m"%char -> Char.lower m2 = "m"%char ->
      mm_at pre
        (String d1 (String d2 (ws ++ String m1 (String m2 rest))))
        (100 * Char.digit_value d1 + 10 * Char.digit_value d2)
  | mm_decimal d1 d2 d3 ws m1 m2 rest :
      Char.is_digit d1 = true -> Char.is_digit d2 = true ->
      Char.is_digit d3 = true ->
      all_space ws = true ->
      Char.lower m1 = "m"%char -> Char.lower m2 = "m"%char ->
      mm_at pre
        (String d1 (String d2 (String "." (String d3
           (ws ++ String m1 (String m2 rest))))))
        (100 * Char.digit_value d1 + 10 * Char.digit_value d2
         + Char.digit_value d3).

(** The pattern in the words of the specification: one or two digits,
    possibly a point and a digit, and "mm". *)
Inductive mm_as_specified (pre : string) : string -> Z -> Prop :=
  | mm_two suf t : mm_at pre suf t -> mm_as_specified pre suf t
  | mm_one_whole d ws m1 m2 rest :
      Char.is_digit d = true -> all_space ws = true ->
      Char.lower m1 = "m"%char -> Char.lower m2 = "m"%char ->
      mm_as_specified pre (String d (ws ++ String m1 (String m2 rest)))
                      (10 * Char.digit_value d)
  | mm_one_decimal d d' ws m1 m2 rest :
      Char.is_digit d = true -> Char.is_digit d' = true ->
      all_space ws = true ->
      Char.lower m1 = "m"%char -> Char.lower m2 = "m"%char ->
      mm_as_specified pre
        (String d (String "." (String d' (ws ++ String m1 (String m2 rest)))))
        (10 * Char.digit_value d + Char.digit_value d').

(** A digit, one of x, X and the multiplication sign, a digit; no word
    character before and none after: [NXN_PATTERN], with the two digits. *)
Inductive nxn_at (pre : string) : string -> ascii * ascii -> Prop :=
  | nxn_here a x b rest :
      Char.is_digit a = true -> Char.is_digit b = true ->
      x = "x"%char \/ x = "X"%char \/ x = Char.times ->
      Re.is_word_opt (last_char pre) = false ->
      Re.is_word_opt (Re.head rest) = false ->
      nxn_at pre (String a (String x (String b rest))) (a, b).

(** What [detect_size_mm] is to return for the text and the title of a
    listing. *)
Inductive size_of (text title : string) : number -> Prop :=
  | size_measured tenths :
      leftmost mm_at text tenths ->
      size_of text title (Float10 tenths)
  | size_table a b v :
      nowhere mm_at text ->
      leftmost nxn_at title (a, b) ->
      dict_get DEFAULT_SIZE_MM (String a (String "x" (String b ""))) = Some v ->
      size_of text title v
  | size_unlisted a b :
      nowhere mm_at text ->
      leftmost nxn_at title (a, b) ->
      dict_get DEFAULT_SIZE_MM (String a (String "x" (String b ""))) = None ->
      size_of text title (Float10 560)
  | size_default :
      nowhere mm_at text ->
      nowhere nxn_at title ->
      size_of text title (Float10 560).

End Size.

(* ------------------------------------------------------------------ *)
(** ** The pages of a catalogue *)

Module Catalogue.

Local Open Scope list_scope.

(** The products of a page, none for a request that fails. *)
Definition chunk_of {A : Type} (store : nat -> Fetch.response A) (page : nat)
    : list A :=
  match store page with
  | Fetch.Products chunk => chunk
  | Fetch.RequestException => []
  end.

(** The page answers with at least one product. *)
Definition full {A : Type} (store : nat -> Fetch.response A) (page : nat) : Prop :=
  exists p chunk, store page = Fetch.Products (p :: chunk).

(** The page ends the loop: the request fails or the page is empty. *)
Definition last {A : Type} (store : nat -> Fetch.response A) (page : nat) : Prop :=
  store page = Fetch.RequestException \/ store page = Fetch.Products [].

(** The products of [n] pages from page [first] on. *)
Definition pages {A : Type} (store : nat -> Fetch.response A) (first n : nat)
    : list A :=
  List.concat (map (chunk_of store) (seq first n)).

End Catalogue.

(* ------------------------------------------------------------------ *)
(** ** The sticker heuristic *)

Module Sticker.

(** The text holds no space character. *)
Fixpoint no_space (s : string) : bool :=
  match s with
  | EmptyString => true
  | String c s' => negb (Ascii.eqb c " ") && no_space s'
  end.

End Sticker.

(* ------------------------------------------------------------------ *)
(** ** The words of the series *)

Module Series.

(** The title without its parenthesised parts and without what follows
    its first " -". *)
Definition clean (title : string) : string :=
  Str.before_first " -" (Re.sub_parens title).

(** The word, lower-cased, is a size token, a version marker or a noise
    word: the condition of the [break]. *)
Definition marker (w : string) : bool :=
  let lw := Str.lower w in
  Re.SIZE_PATTERN lw || Re.VERSION_PATTERN lw || Str.mem lw NOISE_WORDS.

(** The loop over the words: the words before the first marker. *)
Fixpoint leading_words (ws : list string) : list string :=
  match ws with
  | [] => []
  | w :: ws' => if marker w then [] else w :: leading_words ws'
  end.

Fixpoint no_whitespace (s : string) : bool :=
  match s with
  | EmptyString => true
  | String c s' => negb (Char.is_space c) && no_whitespace s'
  end.

(** A word: not empty, and without white space. *)
Definition word (w : string) : bool :=
  negb (Str.is_empty w) && no_whitespace w.

End Series.

(* ------------------------------------------------------------------ *)
(** ** The deduplicator on untyped rows *)

Module PyDedup.

Local Open Scope list_scope.

(** What a hashable value is as a dict key: [True], [1] and [1.0] are one
    key, as are [False], [0] and [0.0]; a number is kept in tenths. *)
Inductive key : Type :=
  | KNone
  | KNum (tenths : Z)
  | KStr (s : string).

Definition key_eqb (a b : key) : bool :=
  match a, b with
  | KNone, KNone => true
  | KNum x, KNum y => (x =? y)%Z
  | KStr s, KStr t => String.eqb s t
  | _, _ => false
  end.

(** [hash(v)]: a list and a dict raise [TypeError]. *)
Definition hash_key (v : Py.value) : Py.result key :=
  match v with
  | Py.VNone => Py.Ok KNone
  | Py.VBool b => Py.Ok (KNum (if b then 10 else 0))
  | Py.VInt n => Py.Ok (KNum (10 * n))
  | Py.VFloat10 t => Py.Ok (KNum t)
  | Py.VStr s => Py.Ok (KStr s)
  | Py.VList _ | Py.VDict _ => Py.Raise
  end.

(** [key in unique] *)
Definition has (k : key) (unique : list (key * list (string * Py.value))) : bool :=
  existsb (fun kr => key_eqb (fst kr) k) unique.

(** The loop of [deduplicate_rows]: [r["slug"]] raises [KeyError] on a
    row without the key. *)
Fixpoint loop (unique : list (key * list (string * Py.value)))
    (rows : list (list (string * Py.value)))
    : Py.result (list (key * list (string * Py.value))) :=
  match rows with
  | [] => Py.Ok unique
  | r :: rows' =>
      Py.bind (Py.getitem r "slug") (fun v =>
      Py.bind (hash_key v) (fun k =>
      if negb (has k unique) then loop (unique ++ [(k, r)]) rows'
      else loop unique rows'))
  end.

Definition deduplicate_rows (rows : list (list (string * Py.value)))
    : Py.result (list (list (string * Py.value))) :=
  Py.bind (loop [] rows) (fun unique => Py.Ok (map snd unique)).

(** The row has a [slug] that can be a dict key. *)
Definition keyed (r : list (string * Py.value)) : Prop :=
  exists v k, dict_get r "slug" = Some v /\ hash_key v = Py.Ok k.

(** An entry of the dictionary of the typed loop, as the untyped loop
    has it. *)
Definition untyped (kr : string * row) : key * list (string * Py.value) :=
  (KStr (fst kr), Py.of_row (snd kr)).

End PyDedup.

(* ------------------------------------------------------------------ *)
(** ** The shape of listings and of rows *)

Module Shape.

Local Open Scope list_scope.

(** The keys of the dict literal of the Base row, in its order. *)
Definition columns : list string :=
  ["series"; "model"; "slug"; "brand"; "type"; "magnetic"; "maglev";
   "smart"; "wca_legal"; "image_url"; "discontinued"; "surface_finish";
   "stickered"; "release_date"; "size"; "weight"; "rating"; "notes";
   "status"; "submitted_by"; "version_type"; "version_name"].

(** A listing that [normalize_product] cannot take: its [title] is there
    and is no string, or its [tags], [variants] or [published_at] is JSON
    [null]. *)
Inductive unusable (d : list (string * Py.value)) : Prop :=
  | title_no_str v :
      dict_get d "title" = Some v -> (forall s, v <> Py.VStr s) -> unusable d
  | tags_null :
      dict_get d "tags" = Some Py.VNone -> unusable d
  | variants_null :
      dict_get d "variants" = Some Py.VNone -> unusable d
  | published_at_null :
      dict_get d "published_at" = Some Py.VNone -> unusable d.

(** Two JSON objects that differ in one key only: [null] in the first,
    absent from the second. *)
Definition null_for_absent (key : string) (d1 d2 : list (string * Py.value))
    : Prop :=
  dict_get d1 key = Some Py.VNone
  /\ dict_get d2 key = None
  /\ forall k, k <> key -> dict_get d1 k = dict_get d2 k.

End Shape.

(* ------------------------------------------------------------------ *)
(** ** Listings for the examples *)

(** The listing with another [product_type]. *)
Definition with_product_type (pt : option string) (prod : product) : product :=
  {| title := title prod; vendor := vendor prod; product_type := pt;
     tags := tags prod; body_html := body_html prod; images := images prod;
     variants := variants prod; published_at := published_at prod |}.

(** A listing with a title only. *)
Definition titled (t : string) : product :=
  {| title := Some t; vendor := None; product_type := None; tags := None;
     body_html := None; images := None; variants := None;
     published_at := None |}.

(** Stand-ins for the library functions in the closed examples; the
    fields that the counterexamples evaluate do not depend on them. *)
Definition slugify_id (s : string) : string := s.
Definition charref_id (s : string) : string := s.

Definition black_variant : variant :=
  {| v_title := Some "Black"; v_grams := Some 75%Z;
     v_available := Some false;
     v_featured_image := Some {| src := Some "https://cdn.example/black.png" |} |}.

Definition bare_variant : variant :=
  {| v_title := None; v_grams := None; v_available := None;
     v_featured_image := None |}.

Definition smart_listing : product :=
  {| title := Some "GAN 356 i 3x3";
     vendor := Some "GAN";
     product_type := Some "Smart Cube";
     tags := Some ["smart"; "smart cube"];
     body_html := Some "56mm";
     images := None;
     variants := Some [black_variant; bare_variant];
     published_at := Some "2024-01-02T03:04:05Z" |}.

(** The rows of one listing scraped from two stores. *)
Definition scraped_twice : list row :=
  (normalize_product slugify_id charref_id smart_listing
   ++ normalize_product slugify_id charref_id smart_listing)%list.

(** A store of three pages: two with products, the third out of reach. *)
Definition small_store (page : nat) : Fetch.response nat :=
  match page with
  | 1 => Fetch.Products [11; 12]
  | 2 => Fetch.Products [21]
  | 3 => Fetch.RequestException
  | _ => Fetch.Products []
  end.

(** A store that answers every page with a product. *)
Definition endless_store (page : nat) : Fetch.response nat :=
  Fetch.Products [page].

(** JSON objects of listings: a null title, and a description that is
    null in the first and absent from the second. *)
Definition null_title : list (string * Py.value) :=
  [("title", Py.VNone); ("vendor", Py.VStr "GAN")].

Definition null_body : list (string * Py.value) :=
  [("title", Py.VStr "GAN 356 M 3x3"); ("body_html", Py.VNone)].

Definition no_body : list (string * Py.value) :=
  [("title", Py.VStr "GAN 356 M 3x3")].

(* ================================================================== *)
(** * Properties *)

(* ------------------------------------------------------------------ *)
(** ** The functions at the listings of the specification *)

Example series_of_gan_356 :
  extract_series_name "GAN 356 M Pro - Limited Edition" = "GAN 356".
Proof. reflexivity. Qed.

Example size_from_the_table :
  detect_size_mm charref_id (titled "Brand 3x3 Speed Cube") = Int 56.
Proof. reflexivity. Qed.

Example size_from_the_description :
  detect_size_mm charref_id
    {| title := Some "Brand 3x3 Speed Cube"; vendor := None;
       product_type := None; tags := None;
       body_html := Some "<p>Size: 56.5mm</p>"; images := None;
       variants := None; published_at := None |}
  = Float10 565.
Proof. reflexivity. Qed.

Example accessories_bundle_skipped :
  should_skip SKIP_PRODUCT_TYPES
    (with_product_type (Some "Accessories Bundle") (titled "Cube stand"))
  = true.
Proof. reflexivity. Qed.

(* ------------------------------------------------------------------ *)
(** ** Facts on strings *)

Module StrFacts.

Lemma append_nil_r s : s ++ "" = s.
Proof. induction s; simpl; congruence. Qed.

Lemma append_assoc s t u : (s ++ t) ++ u = s ++ (t ++ u).
Proof. induction s; simpl; congruence. Qed.

Lemma length_append s t :
  String.length (s ++ t) = (String.length s + String.length t)%nat.
Proof. induction s; simpl; congruence. Qed.

Lemma append_inv_head s t u : s ++ t = s ++ u -> t = u.
Proof. induction s; simpl; intro H; auto. inversion H; auto. Qed.

Lemma startswith_spec p : forall s,
  Str.startswith p s = true <-> exists r, s = p ++ r.
Proof.
  induction p as [|a p IH]; intro s; simpl.
  - split; eauto.
  - destruct s as [|b s].
    + split; [discriminate | intros (r & H); discriminate].
    + rewrite andb_true_iff, Ascii.eqb_eq, IH. split.
      * intros (-> & r & ->). eauto.
      * intros (r & H). inversion H. eauto.
Qed.

Lemma startswith_append p r : Str.startswith p (p ++ r) = true.
Proof. apply startswith_spec. eauto. Qed.

Lemma contains_spec sub : forall s,
  Str.contains sub s = true <-> exists pre post, s = pre ++ sub ++ post.
Proof.
  induction s as [|c s IH]; simpl.
  - rewrite orb_false_r, startswith_spec. split.
    + intros (r & H). exists "", r. exact H.
    + intros (pre & post & H). destruct pre; simpl in H; [eauto|discriminate].
  - rewrite orb_true_iff, startswith_spec, IH. split.
    + intros [(r & H) | (pre & post & H)].
      * exists "", r. exact H.
      * exists (String c pre), post. simpl. congruence.
    + intros (pre & post & H). destruct pre as [|a pre]; simpl in H.
      * left. eauto.
      * right. inversion H. eauto.
Qed.

Lemma mem_In x l : Str.mem x l = true <-> In x l.
Proof.
  unfold Str.mem. rewrite existsb_exists. split.
  - intros (y & Hy & E). apply String.eqb_eq in E. now subst.
  - intro H. exists x. split; auto. apply String.eqb_refl.
Qed.

Lemma mem_false x l : Str.mem x l = false <-> ~ In x l.
Proof.
  rewrite <- mem_In. destruct (Str.mem x l); split; intro H;
    try discriminate; auto. exfalso. auto.
Qed.

Lemma char_lower_idem c : Char.lower (Char.lower c) = Char.lower c.
Proof.
  destruct c as [[] [] [] [] [] [] [] []]; vm_compute; reflexivity.
Qed.

Lemma lower_idem s : Str.lower (Str.lower s) = Str.lower s.
Proof.
  induction s as [|c s IH]; simpl; auto. now rewrite char_lower_idem, IH.
Qed.

Lemma lower_append s t : Str.lower (s ++ t) = Str.lower s ++ Str.lower t.
Proof. induction s; simpl; congruence. Qed.

End StrFacts.

(* ------------------------------------------------------------------ *)
(** ** The deduplicator *)

Module DedupFacts.

Import Dedup.

Local Open Scope list_scope.

Lemma deduplicate_rows_fold rows :
  deduplicate_rows rows = map snd (fold_left step rows []).
Proof. reflexivity. Qed.

Lemma has_key_app {A} (d1 d2 : list (string * A)) k :
  has_key (d1 ++ d2) k = has_key d1 k || has_key d2 k.
Proof. unfold has_key. apply existsb_app. Qed.

Lemma filter_filter_comm {A} (p q : A -> bool) l :
  filter p (filter q l) = filter q (filter p l).
Proof.
  induction l as [|a l IH]; simpl; auto.
  destruct (q a) eqn:Q, (p a) eqn:P; simpl; rewrite ?Q, ?P, IH; auto.
Qed.

Lemma filter_idem {A} (p : A -> bool) l : filter p (filter p l) = filter p l.
Proof.
  induction l as [|a l IH]; simpl; auto.
  destruct (p a) eqn:P; simpl; rewrite ?P, IH; auto.
Qed.

Lemma filter_filter_and {A} (p q : A -> bool) l :
  filter p (filter q l) = filter (fun a => p a && q a) l.
Proof.
  induction l as [|a l IH]; simpl; auto.
  destruct (q a) eqn:Q; simpl; rewrite ?andb_false_r, ?andb_true_r; auto.
  destruct (p a); simpl; now rewrite IH.
Qed.

(** The loop from a dictionary [d]: [d] stays, and the rows whose slug is
    no key of [d] are added under the first-wins policy. *)
Lemma fold_step rows : forall d,
  map snd (fold_left step rows d) =
  map snd d ++ filter (fun r => negb (has_key d (slug r))) (first_wins rows).
Proof.
  induction rows as [|r rows IH]; intro d; simpl.
  - now rewrite app_nil_r.
  - rewrite IH. unfold step.
    destruct (has_key d (slug r)) eqn:K; simpl; rewrite ?K; simpl.
    + f_equal. rewrite filter_filter_and. apply filter_ext_in.
      intros a _. destruct (String.eqb (slug a) (slug r)) eqn:E; simpl.
      * apply String.eqb_eq in E. rewrite E, K. reflexivity.
      * now rewrite andb_true_r.
    + rewrite map_app, <- app_assoc. simpl. f_equal. f_equal.
      rewrite filter_filter_and. apply filter_ext.
      intro a. rewrite has_key_app. simpl. rewrite orb_false_r.
      rewrite (String.eqb_sym (slug r) (slug a)).
      now rewrite negb_orb.
Qed.

(** The code computes the policy. *)
Lemma deduplicate_rows_first_wins rows :
  deduplicate_rows rows = first_wins rows.
Proof.
  rewrite deduplicate_rows_fold, fold_step. simpl.
  induction (first_wins rows) as [|a l IH]; simpl; congruence.
Qed.

Lemma in_first_wins r rows : In r (first_wins rows) -> In r rows.
Proof.
  induction rows as [|a rows IH]; simpl; auto.
  intros [H|H]; auto. apply filter_In in H. tauto.
Qed.

Lemma first_wins_NoDup rows : NoDup (map slug (first_wins rows)).
Proof.
  induction rows as [|a rows IH]; simpl; constructor.
  - intro H. apply in_map_iff in H. destruct H as (r & E & H).
    apply filter_In in H. destruct H as [_ H].
    rewrite E, String.eqb_refl in H. discriminate.
  - clear - IH. induction (first_wins rows) as [|b l IHl]; simpl; auto.
    inversion IH; subst.
    destruct (negb (String.eqb (slug b) (slug a))); simpl; auto.
    constructor; auto.
    intro H. apply in_map_iff in H. destruct H as (r & E & H).
    apply filter_In in H. apply H1. rewrite <- E. apply in_map. tauto.
Qed.

Lemma find_slug_filter s t l :
  s <> t ->
  find_slug s (filter (fun r' => negb (String.eqb (slug r') t)) l) = find_slug s l.
Proof.
  intro N. induction l as [|a l IH]; simpl; auto.
  destruct (String.eqb (slug a) t) eqn:E; simpl.
  - apply String.eqb_eq in E.
    destruct (String.eqb (slug a) s) eqn:E'; auto.
    apply String.eqb_eq in E'. congruence.
  - destruct (String.eqb (slug a) s); auto.
Qed.

Lemma first_wins_find s rows : find_slug s (first_wins rows) = find_slug s rows.
Proof.
  induction rows as [|a rows IH]; simpl; auto.
  destruct (String.eqb (slug a) s) eqn:E; auto.
  rewrite find_slug_filter; auto.
  intro H. subst. now rewrite String.eqb_refl in E.
Qed.

Lemma filter_split {A} (p : A -> bool) l : forall a x b,
  filter p l = a ++ x :: b ->
  exists la lb, l = la ++ x :: lb /\ filter p la = a /\ filter p lb = b
                /\ p x = true.
Proof.
  induction l as [|y l IH]; simpl; intros a x b H.
  - destruct a; discriminate.
  - destruct (p y) eqn:P.
    + destruct a as [|z a]; simpl in H; inversion H; subst.
      * exists [], l. simpl. auto.
      * destruct (IH _ _ _ H2) as (la & lb & E1 & E2 & E3 & Px).
        exists (z :: la), lb. simpl. rewrite P. subst. auto.
    + destruct (IH _ _ _ H) as (la & lb & E1 & E2 & E3 & Px).
      exists (y :: la), lb. simpl. rewrite P. subst. auto.
Qed.

Lemma first_wins_filter t rows :
  first_wins (filter (fun r' => negb (String.eqb (slug r') t)) rows) =
  filter (fun r' => negb (String.eqb (slug r') t)) (first_wins rows).
Proof.
  induction rows as [|a rows IH]; simpl; auto.
  destruct (String.eqb (slug a) t) eqn:E; simpl.
  - rewrite IH. apply String.eqb_eq in E. subst t.
    now rewrite filter_idem.
  - rewrite IH. f_equal. apply filter_filter_comm.
Qed.

(** Order of first appearance: what the output holds before a row is the
    output for what the input holds before that row's first occurrence. *)
Lemma first_wins_prefix rows : forall o1 r o2,
  first_wins rows = o1 ++ r :: o2 ->
  exists pre post,
    rows = pre ++ r :: post /\ ~ In (slug r) (map slug pre)
    /\ o1 = first_wins pre.
Proof.
  induction rows as [|a rows IH]; simpl; intros o1 r o2 H.
  - destruct o1; discriminate.
  - destruct o1 as [|b o1]; simpl in H; inversion H; subst.
    + exists [], rows. simpl. auto.
    + apply filter_split in H2.
      destruct H2 as (la & lb & E & <- & _ & P).
      destruct (IH _ _ _ E) as (pre & post & -> & N & ->).
      exists (b :: pre), post. simpl. repeat split; auto.
      intros [F|F]; [|tauto].
      rewrite F, String.eqb_refl in P. discriminate.
Qed.

Lemma first_wins_fixpoint rows : first_wins (first_wins rows) = first_wins rows.
Proof.
  induction rows as [|a rows IH]; simpl; auto.
  f_equal. rewrite first_wins_filter, IH. apply filter_idem.
Qed.

End DedupFacts.

(** C1.  [deduplicate_rows] keeps exactly one row per slug: no two rows of
    its output share a slug; for every slug the output holds the row that
    comes first with that slug in the input (and none when the slug does
    not occur); and the rows come in order of first appearance, the part
    of the output before a row being the output for the part of the input
    before that row's first occurrence. *)
Theorem C1_deduplicate_first_wins (rows : list row) :
  NoDup (map slug (deduplicate_rows rows))
  /\ (forall s, Dedup.find_slug s (deduplicate_rows rows) = Dedup.find_slug s rows)
  /\ (forall o1 r o2,
         deduplicate_rows rows = (o1 ++ r :: o2)%list ->
         exists pre post,
           rows = (pre ++ r :: post)%list
           /\ ~ In (slug r) (map slug pre)
           /\ o1 = deduplicate_rows pre).
Proof.
  rewrite DedupFacts.deduplicate_rows_first_wins. split; [|split].
  - apply DedupFacts.first_wins_NoDup.
  - intro s. apply DedupFacts.first_wins_find.
  - intros o1 r o2 H.
    destruct (DedupFacts.first_wins_prefix _ _ _ _ H) as (pre & post & E & N & F).
    exists pre, post. now rewrite DedupFacts.deduplicate_rows_first_wins.
Qed.

(** C5.  Two runs of the pipeline over the same listings, in the same
    order, give identical rows, whatever the order in which each run
    iterates the set of skipped types; the deduplicator applied to its own
    output returns it unchanged, and so do the rows a run produces. *)
Theorem C5_pipeline_idempotent
    (slugify charref_sub : string -> string) (order1 order2 : list string)
    (files : list (list product))
    (H1 : Permutation SKIP_PRODUCT_TYPES order1)
    (H2 : Permutation SKIP_PRODUCT_TYPES order2) :
  main slugify charref_sub order1 files = main slugify charref_sub order2 files
  /\ (forall rows, deduplicate_rows (deduplicate_rows rows) = deduplicate_rows rows)
  /\ (forall rows, main slugify charref_sub order1 files = Some rows ->
                   deduplicate_rows rows = rows).
Proof.
  assert (I : forall rows, deduplicate_rows (deduplicate_rows rows)
                           = deduplicate_rows rows).
  { intro rows. rewrite !DedupFacts.deduplicate_rows_first_wins.
    apply DedupFacts.first_wins_fixpoint. }
  assert (P : Permutation order1 order2)
    by (eapply Permutation_trans; [apply Permutation_sym; exact H1 | exact H2]).
  split; [|split]; auto.
  - unfold main, candidate_rows.
    assert (E : forall prod, should_skip order1 prod = should_skip order2 prod).
    { intro prod. unfold should_skip.
      apply eq_true_iff_eq. rewrite !existsb_exists.
      split; intros (x & Hx & Hc); exists x; split; auto.
      - eapply Permutation_in; eauto.
      - eapply Permutation_in; [apply Permutation_sym|]; eauto. }
    replace (flat_map
      (fun products => flat_map
         (fun prod => if should_skip order1 prod then []
                      else normalize_product slugify charref_sub prod) products) files)
      with (flat_map
      (fun products => flat_map
         (fun prod => if should_skip order2 prod then []
                      else normalize_product slugify charref_sub prod) products) files).
    + reflexivity.
    + apply flat_map_ext. intro products. apply flat_map_ext. intro prod.
      now rewrite E.
  - intros rows M. unfold main in M.
    destruct (candidate_rows slugify charref_sub order1 files); [discriminate|].
    inversion M. apply I.
Qed.

(* ------------------------------------------------------------------ *)
(** ** The row expander *)

Module Rows.

Local Open Scope list_scope.

(** What the loop body changes and what it copies from the Base row. *)
Lemma trim_row_changed slugify base v :
  version_type (trim_row slugify base v) = "Trim"
  /\ related_to (trim_row slugify base v) = Some (slug base)
  /\ version_name (trim_row slugify base v) = get (v_title v) ""
  /\ weight (trim_row slugify base v) = get (v_grams v) 0%Z
  /\ slug (trim_row slugify base v)
     = slugify (slug base ++ " " ++ get (v_title v) "")%string.
Proof. unfold trim_row. destruct (v_featured_image v); simpl; auto. Qed.

Lemma trim_row_copied slugify base v :
  wca_legal (trim_row slugify base v) = wca_legal base
  /\ smart (trim_row slugify base v) = smart base
  /\ magnetic (trim_row slugify base v) = magnetic base
  /\ maglev (trim_row slugify base v) = maglev base
  /\ discontinued (trim_row slugify base v) = discontinued base
  /\ model (trim_row slugify base v) = model base
  /\ series (trim_row slugify base v) = series base
  /\ size (trim_row slugify base v) = size base.
Proof. unfold trim_row. destruct (v_featured_image v); simpl; repeat split. Qed.

Lemma normalize_product_rows slugify charref_sub prod :
  normalize_product slugify charref_sub prod =
  base_row slugify charref_sub prod
  :: map (trim_row slugify (base_row slugify charref_sub prod))
         (get_or_list (variants prod) []).
Proof. reflexivity. Qed.

Lemma get_or_list_some {A} (l : list A) : get_or_list (Some l) [] = l.
Proof. destruct l; reflexivity. Qed.

Lemma get_or_list_get {A} (o : option (list A)) : get_or_list o [] = get o [].
Proof. destruct o as [[|]|]; reflexivity. Qed.

(** A flag that the loop body copies is the same on every row. *)
Lemma in_normalize_product slugify charref_sub prod r :
  In r (normalize_product slugify charref_sub prod) ->
  r = base_row slugify charref_sub prod
  \/ exists v, In v (get (variants prod) [])
               /\ r = trim_row slugify (base_row slugify charref_sub prod) v.
Proof.
  rewrite normalize_product_rows, get_or_list_get. intros [H|H]; auto.
  apply in_map_iff in H. destruct H as (v & E & H). eauto.
Qed.

End Rows.

(** C2.  For a listing with n >= 1 variants [normalize_product] returns
    1+n rows: the first has [version_type = "Base"] and an empty
    [version_name]; the others, one per variant and in the variants'
    order, have [version_type = "Trim"], [related_to] equal to the Base
    row's slug and the variant's title as [version_name]; no row but the
    first is a Base row. *)
Theorem C2_base_then_trims
    (slugify charref_sub : string -> string) (prod : product)
    (vs : list variant)
    (Hv : variants prod = Some vs) (Hn : 1 <= List.length vs) :
  exists base trims,
    normalize_product slugify charref_sub prod = base :: trims
    /\ List.length (normalize_product slugify charref_sub prod)
       = 1 + List.length vs
    /\ version_type base = "Base" /\ version_name base = ""
    /\ Forall2 (fun v r => version_type r = "Trim"
                           /\ related_to r = Some (slug base)
                           /\ version_name r = get (v_title v) "")
               vs trims
    /\ Forall (fun r => version_type r <> "Base") trims.
Proof.
  exists (base_row slugify charref_sub prod),
         (map (trim_row slugify (base_row slugify charref_sub prod)) vs).
  rewrite Rows.normalize_product_rows, Hv, Rows.get_or_list_some.
  split; [reflexivity|]. split; [simpl; now rewrite length_map|].
  split; [reflexivity|]. split; [reflexivity|]. split.
  - clear. induction vs as [|v vs IH]; simpl; constructor; auto.
    destruct (Rows.trim_row_changed slugify
                (base_row slugify charref_sub prod) v) as (A & B & C & _).
    auto.
  - apply Forall_forall. intros r H. apply in_map_iff in H.
    destruct H as (v & <- & _).
    destruct (Rows.trim_row_changed slugify
                (base_row slugify charref_sub prod) v) as (A & _).
    rewrite A. discriminate.
Qed.

(* ------------------------------------------------------------------ *)
(** ** The flags of the Base row *)

Module Flags.

Local Open Scope list_scope.

Lemma illegal_tags_lower e : In e ILLEGAL_TAGS -> Str.lower e = e.
Proof.
  assert (F : forallb (fun e => String.eqb (Str.lower e) e) ILLEGAL_TAGS = true)
    by (vm_compute; reflexivity).
  rewrite forallb_forall in F. intro H. apply String.eqb_eq. auto.
Qed.

Lemma wca_legal_base slugify charref_sub prod :
  wca_legal (base_row slugify charref_sub prod) =
  negb (existsb (fun t => Str.mem (Str.lower t) ILLEGAL_TAGS)
                (map Str.lower (get (tags prod) [])))
  && negb (Str.mem (get (product_type prod) "") ILLEGAL_CUBE_TYPES).
Proof. reflexivity. Qed.

Lemma smart_base slugify charref_sub prod :
  smart (base_row slugify charref_sub prod) =
  Str.mem "bluetooth" (map Str.lower (get (tags prod) [])).
Proof. reflexivity. Qed.

Lemma magnetic_base slugify charref_sub prod :
  magnetic (base_row slugify charref_sub prod) =
  Str.mem "magnetic" (map Str.lower (get (tags prod) [])).
Proof. reflexivity. Qed.

Lemma maglev_base slugify charref_sub prod :
  maglev (base_row slugify charref_sub prod) =
  existsb (fun t => Str.contains "maglev" t) (map Str.lower (get (tags prod) [])).
Proof. reflexivity. Qed.

Lemma discontinued_base slugify charref_sub prod :
  discontinued (base_row slugify charref_sub prod) =
  negb (existsb (fun v => get (v_available v) true) (get (variants prod) [])).
Proof. reflexivity. Qed.

Lemma illegal_tag_existsb tags :
  existsb (fun t => Str.mem (Str.lower t) ILLEGAL_TAGS) (map Str.lower tags) = true
  <-> illegal_tag tags.
Proof.
  rewrite existsb_exists. split.
  - intros (t' & Ht & M). apply in_map_iff in Ht. destruct Ht as (t & <- & Ht).
    rewrite StrFacts.lower_idem in M. apply StrFacts.mem_In in M.
    exists t, (Str.lower t). now rewrite StrFacts.lower_idem.
  - intros (t & e & Ht & He & E). exists (Str.lower t). split.
    + now apply in_map.
    + rewrite StrFacts.lower_idem, E, (illegal_tags_lower e He).
      now apply StrFacts.mem_In.
Qed.

Lemma wca_legal_false slugify charref_sub prod :
  wca_legal (base_row slugify charref_sub prod) = false
  <-> In (get (product_type prod) "") ILLEGAL_CUBE_TYPES
      \/ illegal_tag (get (tags prod) []).
Proof.
  rewrite wca_legal_base, andb_false_iff, !negb_false_iff.
  rewrite illegal_tag_existsb, StrFacts.mem_In. tauto.
Qed.

End Flags.

(** C3.  On every row that [normalize_product] returns for a listing,
    [wca_legal] is false if and only if the listing's [product_type] is an
    entry of [ILLEGAL_CUBE_TYPES] or one of its tags, case apart, is an
    entry of [ILLEGAL_TAGS]; a [product_type] "Smart Cube" gives false
    whatever the tags, and a tag "bluetooth" gives false whatever the
    type. *)
Theorem C3_wca_legal
    (slugify charref_sub : string -> string) (prod : product) (r : row)
    (H : In r (normalize_product slugify charref_sub prod)) :
  (wca_legal r = false
   <-> In (get (product_type prod) "") ILLEGAL_CUBE_TYPES
       \/ exists t e, In t (get (tags prod) []) /\ In e ILLEGAL_TAGS
                      /\ Str.lower t = Str.lower e)
  /\ (product_type prod = Some "Smart Cube" -> wca_legal r = false)
  /\ (In "bluetooth" (get (tags prod) []) -> wca_legal r = false).
Proof.
  assert (E : wca_legal r = wca_legal (base_row slugify charref_sub prod)).
  { apply Rows.in_normalize_product in H. destruct H as [->|(v & _ & ->)]; auto.
    apply Rows.trim_row_copied. }
  rewrite E. pose proof (Flags.wca_legal_false slugify charref_sub prod) as W.
  split; [exact W|]. split.
  - intro T. apply W. left. rewrite T. simpl. auto.
  - intro T. apply W. right. exists "bluetooth", "bluetooth".
    repeat split; auto. apply StrFacts.mem_In. vm_compute. reflexivity.
Qed.

(** C10.  On the Base row (the first row of [normalize_product]) the
    [smart] flag is true if and only if "bluetooth"
    is an element of the lower-cased tag list: the tags "smart" and
    "smart cube" do not set it, and it does not depend on the
    [product_type] ("Smart Cube" or any other).  [magnetic] is true if and
    only if "magnetic" is an element of that list, and [maglev] if and
    only if "maglev" is a substring of one of its elements. *)
Theorem C10_smart_flag
    (slugify charref_sub : string -> string) (prod : product) :
  (smart (base_row slugify charref_sub prod) = true
   <-> In "bluetooth" (map Str.lower (get (tags prod) [])))
  /\ (incl (get (tags prod) []) ["smart"; "smart cube"; "Smart"; "Smart Cube"] ->
      smart (base_row slugify charref_sub prod) = false)
  /\ (forall pt,
        smart (base_row slugify charref_sub (with_product_type pt prod))
        = smart (base_row slugify charref_sub prod))
  /\ (magnetic (base_row slugify charref_sub prod) = true
      <-> In "magnetic" (map Str.lower (get (tags prod) [])))
  /\ (maglev (base_row slugify charref_sub prod) = true
      <-> exists t pre post,
            In t (map Str.lower (get (tags prod) []))
            /\ t = pre ++ "maglev" ++ post)
  /\ hd_error (normalize_product slugify charref_sub prod)
     = Some (base_row slugify charref_sub prod).
Proof.
  rewrite Flags.smart_base, Flags.magnetic_base, Flags.maglev_base.
  rewrite !StrFacts.mem_In. split; [tauto|].
  split; [|split; [|split; [|split; [|reflexivity]]]].
  - intro I. apply StrFacts.mem_false. intro B.
    apply in_map_iff in B. destruct B as (t & E & Ht). apply I in Ht.
    simpl in Ht.
    destruct Ht as [<-|[<-|[<-|[<-|[]]]]]; vm_compute in E; discriminate.
  - reflexivity.
  - tauto.
  - rewrite existsb_exists. split.
    + intros (t & Ht & C). apply StrFacts.contains_spec in C.
      destruct C as (pre & post & C). eauto.
    + intros (t & pre & post & Ht & C). exists t. split; auto.
      apply StrFacts.contains_spec. eauto.
Qed.

(** C8, as stated, fails: a listing with zero variants is marked
    discontinued. *)
Lemma C8_zero_variants_discontinued :
  get (variants (titled "GAN 356")) [] = []
  /\ discontinued (base_row slugify_id charref_id (titled "GAN 356")) = true.
Proof. split; reflexivity. Qed.

(** C8, amended.  The Base row (the first row of [normalize_product]) has
    its [discontinued] flag true if and only if every variant of the
    listing reports [available] false; a variant without the field counts
    as available. *)
Theorem C8_discontinued
    (slugify charref_sub : string -> string) (prod : product) :
  hd_error (normalize_product slugify charref_sub prod)
  = Some (base_row slugify charref_sub prod)
  /\ (discontinued (base_row slugify charref_sub prod) = true
      <-> Forall (fun v => v_available v = Some false)
                 (get (variants prod) [])).
Proof.
  split; [reflexivity|].
  rewrite Flags.discontinued_base, negb_true_iff.
  induction (get (variants prod) []) as [|v vs IH]; simpl.
  - split; auto.
  - rewrite orb_false_iff, IH. split.
    + intros [A F]. constructor; auto.
      destruct (v_available v) as [[]|]; simpl in A; congruence.
    + intro F. inversion F as [|? ? A F']; subst. rewrite A. auto.
Qed.

(* ------------------------------------------------------------------ *)
(** ** The surface finish *)

Module SurfaceFacts.

Import Surface.

Local Open Scope list_scope.

Lemma replace_char a new c s :
  Str.replace (Str.of_char a) new (String c s) =
  if Ascii.eqb a c then (new ++ Str.replace (Str.of_char a) new s)%string
  else String c (Str.replace (Str.of_char a) new s).
Proof.
  unfold Str.replace. simpl. destruct (Ascii.eqb a c); reflexivity.
Qed.

Lemma replace_char_nil a new : Str.replace (Str.of_char a) new "" = "".
Proof. reflexivity. Qed.

Lemma key_correct tag :
  Str.replace " " "" (Str.replace "_" "-" (Str.lower tag)) = key tag.
Proof.
  change " "%string with (Str.of_char " ").
  change "_"%string with (Str.of_char "_").
  induction tag as [|c tag IH]; [reflexivity|].
  simpl Str.lower. simpl key. rewrite replace_char.
  destruct (Ascii.eqb (Char.lower c) " ") eqn:S.
  - apply Ascii.eqb_eq in S. rewrite S. simpl (Ascii.eqb "_" " ").
    cbv iota. rewrite replace_char. simpl (Ascii.eqb " " " "). cbv iota.
    simpl. exact IH.
  - rewrite (Ascii.eqb_sym "_" (Char.lower c)).
    destruct (Ascii.eqb (Char.lower c) "_") eqn:U.
    + change ("-" ++ ?x)%string with (String "-" x).
      simpl append. rewrite replace_char. simpl (Ascii.eqb " " "-").
      cbv iota. now rewrite IH.
    + rewrite replace_char, (Ascii.eqb_sym " " (Char.lower c)), S.
      now rewrite IH.
Qed.

Lemma first_keyword_spec key0 : forall m,
  match first_keyword m key0 with
  | Some name =>
      exists m1 kw m2,
        m = m1 ++ (kw, name) :: m2
        /\ (forall kw' n', In (kw', n') m1 -> Str.contains kw' key0 = false)
        /\ Str.contains kw key0 = true
  | None => forall kw' n', In (kw', n') m -> Str.contains kw' key0 = false
  end.
Proof.
  induction m as [|[kw name] m IH]; simpl.
  - intros ? ? [].
  - destruct (Str.contains kw key0) eqn:C.
    + exists [], kw, m. simpl. repeat split; auto. intros ? ? [].
    + destruct (first_keyword m key0) as [n|].
      * destruct IH as (m1 & kw1 & m2 & -> & N & C1).
        exists ((kw, name) :: m1), kw1, m2. simpl. repeat split; auto.
        intros kw' n' [E|I]; [inversion E; subst; auto | eauto].
      * intros kw' n' [E|I]; [inversion E; subst; auto | eauto].
Qed.

Lemma detect_cons tag tags :
  detect_surface_finish (tag :: tags) =
  match first_keyword SURFACE_MAP (key tag) with
  | Some name => Some name
  | None => detect_surface_finish tags
  end.
Proof. rewrite <- key_correct. reflexivity. Qed.

End SurfaceFacts.

(** C9, as stated, fails: with "_" removed the tag "soft_touch" would
    hold no keyword, and the code returns "Soft Touch" for it. *)
Lemma C9_underscore_not_removed :
  detect_surface_finish ["soft_touch"] = Some "Soft Touch"
  /\ Surface.detect_as_specified ["soft_touch"] = None.
Proof. split; reflexivity. Qed.

(** C9, amended.  [detect_surface_finish] normalises each tag by
    lower-casing, replacing "_" by "-" and removing " ", and returns the
    display name of the first keyword of [SURFACE_MAP], in the map's
    order, contained in the first normalised tag, in tag order, that
    contains one; it returns [None] when no tag contains a keyword. *)
Theorem C9_surface_finish (tags : list string) :
  Surface.finish_of tags (detect_surface_finish tags).
Proof.
  induction tags as [|tag tags IH].
  - apply Surface.finish_none. constructor.
  - rewrite SurfaceFacts.detect_cons.
    pose proof (SurfaceFacts.first_keyword_spec (Surface.key tag) SURFACE_MAP) as K.
    destruct (first_keyword SURFACE_MAP (Surface.key tag)) as [name|].
    + destruct K as (m1 & kw & m2 & E & N & C).
      apply (Surface.finish_found _ [] tag tags m1 kw name m2); auto.
    + inversion IH as [pre t post m1 kw name m2 E F M N C|F].
      * apply (Surface.finish_found _ (tag :: pre) t post m1 kw name m2);
          auto; try (simpl; congruence); constructor; auto.
      * apply Surface.finish_none. constructor; auto.
Qed.

(* ------------------------------------------------------------------ *)
(** ** Series and model *)

Module ModelFacts.

Import Model.

Lemma replace_from_skip old new post : forall x,
  Str.replace_from old new (String.length x) (x ++ post) =
  Str.replace_from old new 0 post.
Proof. induction x as [|c x IH]; simpl; auto. Qed.

Lemma replace_from_occurrence old new post :
  old <> "" ->
  Str.replace_from old new 0 (old ++ post) =
  new ++ Str.replace_from old new 0 post.
Proof.
  destruct old as [|a o]; [congruence|]. intros _.
  change (String a o ++ post) with (String a (o ++ post)).
  cbn [Str.replace_from].
  change (String a (o ++ post)) with (String a o ++ post).
  rewrite StrFacts.startswith_append. f_equal.
  replace (String.length (String a o) - 1) with (String.length o)
    by (simpl; lia).
  apply replace_from_skip.
Qed.

Lemma replace_from_other old new c s :
  Str.startswith old (String c s) = false ->
  Str.replace_from old new 0 (String c s) =
  String c (Str.replace_from old new 0 s).
Proof. intro H. cbn [Str.replace_from]. now rewrite H. Qed.

Lemma replace_from_absent old new : forall s,
  Str.contains old s = false -> Str.replace_from old new 0 s = s.
Proof.
  induction s as [|c s IH]; simpl Str.contains; intro H; auto.
  apply orb_false_iff in H. destruct H as [H1 H2].
  rewrite replace_from_other, IH; auto.
Qed.

Lemma contains_nil old : old <> "" -> Str.contains old "" = false.
Proof. destruct old; [congruence|reflexivity]. Qed.

(** The leftmost occurrence. *)
Lemma replace_from_leftmost old new : old <> "" -> forall s,
  Str.contains old s = true ->
  exists pre post,
    s = pre ++ old ++ post
    /\ (forall p1 p2, s = p1 ++ old ++ p2 ->
                      String.length pre <= String.length p1)
    /\ Str.replace_from old new 0 s =
       pre ++ new ++ Str.replace_from old new 0 post.
Proof.
  intros N. induction s as [|c s IH]; intro H.
  - rewrite contains_nil in H; [discriminate|auto].
  - simpl Str.contains in H.
    destruct (Str.startswith old (String c s)) eqn:P.
    + apply StrFacts.startswith_spec in P. destruct P as (post & P).
      exists "", post. rewrite P. split; [reflexivity|]. split.
      * intros; simpl; lia.
      * now rewrite replace_from_occurrence.
    + simpl in H. destruct (IH H) as (pre & post & E & M & R).
      exists (String c pre), post. split; [simpl; congruence|]. split.
      * intros p1 p2 E'. destruct p1 as [|c' p1].
        -- simpl in E'. rewrite E' in P.
           rewrite StrFacts.startswith_append in P. discriminate.
        -- simpl in E'. inversion E'. subst c'. simpl.
           apply le_n_S. apply M with p2. congruence.
      * rewrite replace_from_other, R; auto.
Qed.

Lemma replace_from_removed_all old : old <> "" -> forall n s,
  String.length s <= n ->
  removed_all old s (Str.replace_from old "" 0 s).
Proof.
  intros N. induction n as [|n IH]; intros s L.
  - destruct s; [|simpl in L; lia]. apply removed_none.
    now apply contains_nil.
  - destruct (Str.contains old s) eqn:C.
    + destruct (replace_from_leftmost old "" N s C) as (pre & post & E & M & R).
      rewrite R. simpl. rewrite E. apply removed_first; auto.
      * now rewrite <- E.
      * apply IH. rewrite E, !StrFacts.length_append in L.
        destruct old; [congruence|]. simpl in L. lia.
    + rewrite replace_from_absent; auto. now apply removed_none.
Qed.

Lemma interleave_nil s : Str.interleave "" s = s.
Proof. induction s; simpl; congruence. Qed.

Lemma replace_removed_all old s : removed_all old s (Str.replace old "" s).
Proof.
  unfold Str.replace. destruct old as [|a o]; simpl.
  - rewrite interleave_nil. now apply removed_empty.
  - apply replace_from_removed_all with (n := String.length s); auto.
    discriminate.
Qed.

Lemma replace_self s : Str.replace s "" s = "".
Proof.
  unfold Str.replace. destruct s as [|a o]; [reflexivity|].
  simpl Str.is_empty. cbv iota.
  rewrite <- (StrFacts.append_nil_r (String a o)) at 2.
  rewrite replace_from_occurrence; [reflexivity|discriminate].
Qed.

Lemma model_base slugify charref_sub prod :
  model (base_row slugify charref_sub prod) =
  Str.strip (Str.replace (extract_series_name (get (title prod) "")) ""
                         (get (title prod) "")).
Proof. reflexivity. Qed.

End ModelFacts.

(** C7, as stated, fails: the series is removed wherever it occurs in the
    title, not once. *)
Lemma C7_series_removed_twice :
  extract_series_name "GAN 3x3 GAN" = "GAN"
  /\ model (base_row slugify_id charref_id (titled "GAN 3x3 GAN")) = "3x3"
  /\ Str.strip (Model.remove_once "GAN" "GAN 3x3 GAN") = "3x3 GAN".
Proof. repeat split; reflexivity. Qed.

(** C7, amended.  The Base row's [series] is the extracted series, and its
    [model] is the title with every occurrence of the extracted series
    removed (from left to right, without overlap), trimmed; when the
    extracted series is the whole title the model is the empty string.
    The Base row is the first row that [normalize_product], a total
    function of the listing, returns. *)
Theorem C7_model
    (slugify charref_sub : string -> string) (prod : product) :
  series (base_row slugify charref_sub prod)
  = extract_series_name (get (title prod) "")
  /\ (exists rest,
        Model.removed_all (extract_series_name (get (title prod) ""))
                          (get (title prod) "") rest
        /\ model (base_row slugify charref_sub prod) = Str.strip rest)
  /\ (extract_series_name (get (title prod) "") = get (title prod) "" ->
      model (base_row slugify charref_sub prod) = "")
  /\ hd_error (normalize_product slugify charref_sub prod)
     = Some (base_row slugify charref_sub prod).
Proof.
  split; [reflexivity|]. rewrite ModelFacts.model_base. split; [|split].
  - eexists. split; [apply ModelFacts.replace_removed_all | reflexivity].
  - intro E. rewrite E, ModelFacts.replace_self. reflexivity.
  - reflexivity.
Qed.

(* ------------------------------------------------------------------ *)
(** ** The size *)

Module SizeFacts.

Import Size.

Lemma last_char_snoc pre c : last_char (pre ++ String c "") = Some c.
Proof.
  induction pre as [|a pre IH]; simpl; auto.
  rewrite IH. destruct pre; reflexivity.
Qed.

(** The search finds the leftmost position of a pattern that its matcher
    decides. *)
Lemma search_after_spec {A B : Type}
    (m : option ascii -> string -> option A) (f : A -> B) (P : pattern B)
    (Hm : forall pre s,
        match m (last_char pre) s with
        | Some a => P pre s (f a)
        | None => forall b, ~ P pre s b
        end) :
  forall s pre0,
    match Re.search_after m (last_char pre0) s with
    | Some a =>
        exists pre suf,
          s = pre ++ suf /\ P (pre0 ++ pre) suf (f a)
          /\ forall pre' suf' b',
               s = pre' ++ suf' -> String.length pre' < String.length pre ->
               ~ P (pre0 ++ pre') suf' b'
    | None => forall pre suf b, s = pre ++ suf -> ~ P (pre0 ++ pre) suf b
    end.
Proof.
  induction s as [|c s IH]; intro pre0.
  - simpl. specialize (Hm pre0 ""). destruct (m (last_char pre0) "") as [a|].
    + exists "", "". rewrite (StrFacts.append_nil_r pre0).
      split; [reflexivity|]. split; [exact Hm|].
      intros pre' suf' b' _ L. simpl in L. lia.
    + intros pre suf b E. destruct pre; [|discriminate]. simpl in E. subst suf.
      rewrite StrFacts.append_nil_r. apply Hm.
  - simpl. pose proof (Hm pre0 (String c s)) as H0.
    destruct (m (last_char pre0) (String c s)) as [a|].
    + exists "", (String c s). rewrite (StrFacts.append_nil_r pre0).
      split; [reflexivity|]. split; [exact H0|].
      intros pre' suf' b' _ L. simpl in L. lia.
    + specialize (IH (pre0 ++ String c "")).
      rewrite last_char_snoc in IH.
      destruct (Re.search_after m (Some c) s) as [a|].
      * destruct IH as (pre & suf & E & Q & L).
        exists (String c pre), suf. split; [simpl; congruence|]. split.
        -- rewrite StrFacts.append_assoc in Q. exact Q.
        -- intros pre' suf' b' E' L'. destruct pre' as [|c' pre'].
           ++ simpl in E'. subst suf'. rewrite StrFacts.append_nil_r. apply H0.
           ++ simpl in E'. inversion E'. subst c'.
              specialize (L pre' suf' b').
              rewrite StrFacts.append_assoc in L. apply L; auto.
              simpl in L'. lia.
      * intros pre suf b E. destruct pre as [|c' pre].
        -- simpl in E. subst suf. rewrite StrFacts.append_nil_r. apply H0.
        -- simpl in E. inversion E. subst c'.
           specialize (IH pre suf b).
           rewrite StrFacts.append_assoc in IH. apply IH; auto.
Qed.

Lemma search_as_search_after {A : Type} (m : string -> option A) s : forall prev,
  Re.search m s = Re.search_after (fun _ => m) prev s.
Proof.
  induction s as [|c s IH]; intro prev; simpl.
  - reflexivity.
  - destruct (m (String c s)); auto.
Qed.

Lemma search_leftmost {A B : Type}
    (m : option ascii -> string -> option A) (f : A -> B) (P : pattern B)
    (Hm : forall pre s,
        match m (last_char pre) s with
        | Some a => P pre s (f a)
        | None => forall b, ~ P pre s b
        end) (s : string) :
  match Re.search_after m None s with
  | Some a => leftmost P s (f a)
  | None => nowhere P s
  end.
Proof.
  pose proof (search_after_spec m f P Hm s "") as H. simpl in H. exact H.
Qed.

Lemma lstrip_split s : exists ws, s = ws ++ Str.lstrip s /\ all_space ws = true.
Proof.
  induction s as [|c s (ws & E & W)]; simpl.
  - exists "". auto.
  - destruct (Char.is_space c) eqn:C.
    + exists (String c ws). simpl. rewrite C, W. split; [f_equal; exact E|auto].
    + exists "". auto.
Qed.

Lemma lstrip_spaces ws c r :
  all_space ws = true -> Char.is_space c = false ->
  Str.lstrip (ws ++ String c r) = String c r.
Proof.
  intros W C. induction ws as [|a ws IH]; simpl in *.
  - now rewrite C.
  - apply andb_true_iff in W. destruct W as [W1 W2]. rewrite W1. auto.
Qed.

Lemma lower_m_not_space c : Char.lower c = "m"%char -> Char.is_space c = false.
Proof.
  destruct c as [[] [] [] [] [] [] [] []]; vm_compute; intro H;
    solve [reflexivity | discriminate H].
Qed.

Lemma digit_is_word c : Char.is_digit c = true -> Char.is_word c = true.
Proof.
  destruct c as [[] [] [] [] [] [] [] []]; vm_compute; intro H;
    solve [reflexivity | discriminate H].
Qed.

Lemma spaces_mm_spec s :
  Re.spaces_mm s = true <->
  exists ws m1 m2 rest,
    s = ws ++ String m1 (String m2 rest) /\ all_space ws = true
    /\ Char.lower m1 = "m"%char /\ Char.lower m2 = "m"%char.
Proof.
  unfold Re.spaces_mm, Re.literal_i.
  change (Str.lower "mm") with "mm". split.
  - destruct (lstrip_split s) as (ws & E & W).
    destruct (Str.lstrip s) as [|m1 [|m2 rest]];
      cbn [Str.startswith Str.lower]; try discriminate.
    + rewrite andb_false_r. discriminate.
    + rewrite andb_true_r, andb_true_iff, !Ascii.eqb_eq. intros [A B].
      exists ws, m1, m2, rest. auto.
  - intros (ws & m1 & m2 & rest & -> & W & A & B).
    rewrite lstrip_spaces; auto using lower_m_not_space.
    cbn [Str.startswith Str.lower]. rewrite A, B. reflexivity.
Qed.

Lemma float_tenths_whole d1 d2 :
  float_tenths (String d1 (String d2 "")) =
  (100 * Char.digit_value d1 + 10 * Char.digit_value d2)%Z.
Proof. unfold float_tenths. cbn [Str.take Str.drop int_of_digits]. lia. Qed.

Lemma float_tenths_decimal d1 d2 dot d3 :
  float_tenths (String d1 (String d2 (String dot (String d3 "")))) =
  (100 * Char.digit_value d1 + 10 * Char.digit_value d2
   + Char.digit_value d3)%Z.
Proof. unfold float_tenths. cbn [Str.take Str.drop int_of_digits]. lia. Qed.

(** [MM_PATTERN] decides [mm_at]. *)
Lemma MM_PATTERN_decides pre s :
  match Re.MM_PATTERN s with
  | Some g => mm_at pre s (float_tenths g)
  | None => forall t, ~ mm_at pre s t
  end.
Proof.
  destruct s as [|d1 [|d2 rest]]; simpl;
    try (intros t H; inversion H; fail).
  destruct (Char.is_digit d1) eqn:D1;
    [|simpl; intros t H; inversion H; congruence].
  destruct (Char.is_digit d2) eqn:D2;
    [|simpl; intros t H; inversion H; congruence].
  simpl.
  assert (Whole : match (if Re.spaces_mm rest
                         then Some (String d1 (String d2 "")) else None) with
                  | Some g => mm_at pre (String d1 (String d2 rest)) (float_tenths g)
                  | None => forall ws m1 m2 r, all_space ws = true ->
                      Char.lower m1 = "m"%char -> Char.lower m2 = "m"%char ->
                      rest <> ws ++ String m1 (String m2 r)
                  end).
  { destruct (Re.spaces_mm rest) eqn:S.
    - apply spaces_mm_spec in S.
      destruct S as (ws & m1 & m2 & r & -> & W & A & B).
      rewrite float_tenths_whole. now constructor.
    - intros ws m1 m2 r W A B E.
      assert (T : Re.spaces_mm rest = true)
        by (apply spaces_mm_spec; exists ws, m1, m2, r; auto).
      congruence. }
  assert (Finish : forall o : option string,
    o = (if Re.spaces_mm rest then Some (String d1 (String d2 "")) else None) ->
    (forall d3 ws m1 m2 r, Char.is_digit d3 = true -> all_space ws = true ->
        Char.lower m1 = "m"%char -> Char.lower m2 = "m"%char ->
        rest <> String "." (String d3 (ws ++ String m1 (String m2 r)))) ->
    match o with
    | Some g => mm_at pre (String d1 (String d2 rest)) (float_tenths g)
    | None => forall t, ~ mm_at pre (String d1 (String d2 rest)) t
    end).
  { intros o -> ND.
    destruct (if Re.spaces_mm rest then Some (String d1 (String d2 "")) else None).
    - exact Whole.
    - intros t H. inversion H; subst.
      + eapply Whole; cycle 3; [reflexivity | eassumption..].
      + eapply ND; cycle 4; [reflexivity | eassumption..]. }
  destruct rest as [|dot [|d3 rest']];
    try (apply Finish; [reflexivity | intros; discriminate]).
  destruct (Ascii.eqb dot ".") eqn:Dot; simpl.
  - apply Ascii.eqb_eq in Dot. subst dot.
    destruct (Char.is_digit d3) eqn:D3.
    + destruct (Re.spaces_mm rest') eqn:S.
      * apply spaces_mm_spec in S.
        destruct S as (ws & m1 & m2 & r & -> & W & A & B).
        rewrite float_tenths_decimal. now constructor.
      * apply Finish; [reflexivity|].
        intros d3' ws m1 m2 r D W A B E. inversion E; subst.
        assert (T : Re.spaces_mm (ws ++ String m1 (String m2 r)) = true)
          by (apply spaces_mm_spec; exists ws, m1, m2, r; auto).
        congruence.
    + apply Finish; [reflexivity|].
      intros d3' ws m1 m2 r D W A B E. inversion E; subst. congruence.
  - apply Finish; [reflexivity|].
    intros d3' ws m1 m2 r D W A B E. inversion E; subst.
    rewrite Ascii.eqb_refl in Dot. discriminate.
Qed.

Lemma is_x_spec x :
  Re.is_x x = true <-> x = "x"%char \/ x = "X"%char \/ x = Char.times.
Proof.
  unfold Re.is_x. rewrite !orb_true_iff, !Ascii.eqb_eq. tauto.
Qed.

(** [NXN_PATTERN] decides [nxn_at]. *)
Lemma NXN_PATTERN_decides pre s :
  match Re.NXN_PATTERN (last_char pre) s with
  | Some ab => nxn_at pre s ab
  | None => forall ab, ~ nxn_at pre s ab
  end.
Proof.
  destruct s as [|a [|x [|b rest]]]; simpl;
    try (intros ab H; inversion H; fail).
  unfold Re.word_boundary. cbn [Re.is_word_opt].
  destruct (Char.is_digit a) eqn:A.
  2:{ rewrite andb_false_r. simpl. intros ab H. inversion H. congruence. }
  destruct (Char.is_digit b) eqn:B.
  2:{ rewrite andb_false_r. simpl. intros ab H. inversion H. congruence. }
  rewrite (digit_is_word a A), (digit_is_word b B).
  destruct (Re.is_word_opt (last_char pre)) eqn:W1;
    destruct (Re.is_x x) eqn:X;
    destruct (Re.is_word_opt (Re.head rest)) eqn:W2; simpl;
    try (intros ab H; inversion H; subst;
         try congruence;
         assert (T : Re.is_x x = true) by (now apply is_x_spec);
         congruence).
  constructor; auto. now apply is_x_spec.
Qed.

Lemma detect_size_mm_unfold charref_sub prod :
  detect_size_mm charref_sub prod =
  match Re.search Re.MM_PATTERN (text charref_sub prod) with
  | Some g => Float10 (float_tenths g)
  | None =>
      match Re.search_after Re.NXN_PATTERN None (get (title prod) "") with
      | Some (a, b) =>
          get (dict_get DEFAULT_SIZE_MM (String a (String "x" (String b ""))))
              (Float10 560)
      | None => Float10 560
      end
  end.
Proof. reflexivity. Qed.

End SizeFacts.

(** C4, as stated, fails on a one-digit measurement: for the title "5mm"
    the text holds a one-digit number followed by "mm" at its first
    position, and the code returns the default 56.0, not 5.0. *)
Lemma C4_one_digit_not_measured :
  Size.leftmost Size.mm_as_specified (Size.text charref_id (titled "5mm")) 50%Z
  /\ detect_size_mm charref_id (titled "5mm") = Float10 560.
Proof.
  split; [|reflexivity].
  exists "", "5mm ". split; [reflexivity|]. split.
  - apply (Size.mm_one_whole "" "5" "" "m" "m" " "); reflexivity.
  - intros pre' suf' a' _ L. simpl in L. lia.
Qed.

(** C4, amended.  [detect_size_mm] always returns a number: (1) when the
    lower-cased text (title, unescaped description, tags and variant
    titles, joined by spaces) holds exactly two digits, possibly a point
    and one digit, any white space and "mm", the float of the number at
    the leftmost such position; (2) else, when the title holds a digit, an
    x (or X, or the multiplication sign) and a digit, with no word
    character before or after, the value that [DEFAULT_SIZE_MM] gives to
    the leftmost such pair, and 56.0 when the table has no entry for it;
    (3) else 56.0. *)
Theorem C4_detect_size_mm (charref_sub : string -> string) (prod : product) :
  Size.size_of (Size.text charref_sub prod) (get (title prod) "")
               (detect_size_mm charref_sub prod).
Proof.
  rewrite SizeFacts.detect_size_mm_unfold.
  rewrite (SizeFacts.search_as_search_after Re.MM_PATTERN _ None).
  pose proof (SizeFacts.search_leftmost (fun _ => Re.MM_PATTERN) float_tenths
                Size.mm_at
                (fun pre s => SizeFacts.MM_PATTERN_decides pre s)
                (Size.text charref_sub prod)) as M.
  destruct (Re.search_after (fun _ => Re.MM_PATTERN) None
                            (Size.text charref_sub prod)) as [g|].
  - now apply Size.size_measured.
  - pose proof (SizeFacts.search_leftmost Re.NXN_PATTERN (fun ab => ab)
                  Size.nxn_at SizeFacts.NXN_PATTERN_decides
                  (get (title prod) "")) as N.
    destruct (Re.search_after Re.NXN_PATTERN None (get (title prod) ""))
      as [[a b]|].
    + destruct (dict_get DEFAULT_SIZE_MM (String a (String "x" (String b ""))))
        as [v|] eqn:D.
      * simpl. eapply Size.size_table; eauto.
      * simpl. eapply Size.size_unlisted; eauto.
    + now apply Size.size_default.
Qed.

(* ------------------------------------------------------------------ *)
(** ** The untyped program on typed listings *)

Module PyFacts.

Local Open Scope list_scope.

Ltac cases_of_product p :=
  destruct p as [t_ v_ pt_ tg_ b_ im_ vs_ pa_];
  destruct t_, v_, pt_, tg_, b_, im_, vs_, pa_; reflexivity.

Lemma get_title p d :
  Py.get (Py.of_product p) "title" d
  = Py.Ok (match title p with Some s => Py.VStr s | None => d end).
Proof. cases_of_product p. Qed.








Ltac cases_of_variant v :=
  destruct v as [t_ g_ a_ f_]; destruct t_, g_, a_, f_; reflexivity.


Lemma get_v_grams v d :
  Py.get (Py.of_variant v) "grams" d
  = Py.Ok (match v_grams v with Some n => Py.VInt n | None => d end).
Proof. cases_of_variant v. Qed.


Lemma get_v_featured_image v d :
  Py.get (Py.of_variant v) "featured_image" d
  = Py.Ok (match v_featured_image v with
           | Some i => Py.of_image i
           | None => d
           end).
Proof. cases_of_variant v. Qed.








Lemma title_str p :
  Py.bind (Py.get (Py.of_product p) "title" (Py.VStr "")) Py.as_str
  = Py.Ok (get (title p) "").
Proof. rewrite get_title. destruct (title p); reflexivity. Qed.












End PyFacts.



(* ------------------------------------------------------------------ *)
(** ** The theorems at concrete listings *)

Lemma C1_witness :
  deduplicate_rows scraped_twice
  = ([base_row slugify_id charref_id smart_listing]
     ++ trim_row slugify_id (base_row slugify_id charref_id smart_listing)
                 black_variant
     :: [trim_row slugify_id (base_row slugify_id charref_id smart_listing)
                  bare_variant])%list
  /\ exists pre post,
       scraped_twice
       = (pre
          ++ trim_row slugify_id (base_row slugify_id charref_id smart_listing)
                      black_variant
          :: post)%list
       /\ ~ In (slug (trim_row slugify_id
                        (base_row slugify_id charref_id smart_listing)
                        black_variant))
               (map slug pre)
       /\ [base_row slugify_id charref_id smart_listing] = deduplicate_rows pre.
Proof.
  assert (E : deduplicate_rows scraped_twice
              = ([base_row slugify_id charref_id smart_listing]
                 ++ trim_row slugify_id
                      (base_row slugify_id charref_id smart_listing)
                      black_variant
                 :: [trim_row slugify_id
                       (base_row slugify_id charref_id smart_listing)
                       bare_variant])%list)
    by (vm_compute; reflexivity).
  split; [exact E|].
  exact (proj2 (proj2 (C1_deduplicate_first_wins scraped_twice)) _ _ _ E).
Defined.

Lemma C2_witness :
  variants smart_listing = Some [black_variant; bare_variant]
  /\ 1 <= List.length [black_variant; bare_variant]
  /\ exists base trims,
       normalize_product slugify_id charref_id smart_listing = base :: trims
       /\ List.length (normalize_product slugify_id charref_id smart_listing)
          = 1 + List.length [black_variant; bare_variant]
       /\ version_type base = "Base" /\ version_name base = ""
       /\ Forall2 (fun v r => version_type r = "Trim"
                              /\ related_to r = Some (slug base)
                              /\ version_name r = get (v_title v) "")
                  [black_variant; bare_variant] trims
       /\ Forall (fun r => version_type r <> "Base") trims.
Proof.
  split; [reflexivity|]. split; [repeat constructor|].
  apply (C2_base_then_trims slugify_id charref_id smart_listing
           [black_variant; bare_variant]).
  - reflexivity.
  - repeat constructor.
Defined.

Lemma C3_witness :
  In (base_row slugify_id charref_id smart_listing)
     (normalize_product slugify_id charref_id smart_listing)
  /\ product_type smart_listing = Some "Smart Cube"
  /\ wca_legal (base_row slugify_id charref_id smart_listing) = false.
Proof.
  assert (H : In (base_row slugify_id charref_id smart_listing)
                 (normalize_product slugify_id charref_id smart_listing))
    by (left; reflexivity).
  split; [exact H|]. split; [reflexivity|].
  apply (proj1 (proj2 (C3_wca_legal slugify_id charref_id smart_listing
                         (base_row slugify_id charref_id smart_listing) H))).
  reflexivity.
Defined.

Lemma C5_witness :
  Permutation SKIP_PRODUCT_TYPES SKIP_PRODUCT_TYPES
  /\ Permutation SKIP_PRODUCT_TYPES (rev SKIP_PRODUCT_TYPES)
  /\ main slugify_id charref_id SKIP_PRODUCT_TYPES [[smart_listing]]
     = main slugify_id charref_id (rev SKIP_PRODUCT_TYPES) [[smart_listing]].
Proof.
  split; [apply Permutation_refl|]. split; [apply Permutation_rev|].
  apply (proj1 (C5_pipeline_idempotent slugify_id charref_id
                  SKIP_PRODUCT_TYPES (rev SKIP_PRODUCT_TYPES)
                  [[smart_listing]]
                  (Permutation_refl _) (Permutation_rev _))).
Defined.

Lemma C7_witness :
  extract_series_name (get (title (titled "GAN")) "") = get (title (titled "GAN")) ""
  /\ model (base_row slugify_id charref_id (titled "GAN")) = "".
Proof.
  split; [reflexivity|].
  apply (proj1 (proj2 (proj2 (C7_model slugify_id charref_id (titled "GAN"))))).
  reflexivity.
Defined.

Lemma C10_witness :
  incl (get (tags smart_listing) []) ["smart"; "smart cube"; "Smart"; "Smart Cube"]
  /\ smart (base_row slugify_id charref_id smart_listing) = false.
Proof.
  assert (I : incl (get (tags smart_listing) [])
                   ["smart"; "smart cube"; "Smart"; "Smart Cube"]).
  { intros t H. simpl in H. simpl. tauto. }
  split; [exact I|].
  apply (proj1 (proj2 (C10_smart_flag slugify_id charref_id smart_listing))).
  exact I.
Defined.

(* ================================================================== *)
(** * Further properties of the program *)

(* ------------------------------------------------------------------ *)
(** ** The upsert in batches *)

Module UpsertFacts.

Local Open Scope list_scope.

Lemma range_length_covers stop step :
  0 < step -> stop <= Upsert.range_length stop step * step.
Proof.
  intro P. unfold Upsert.range_length.
  pose proof (Nat.div_mod_eq (stop + step - 1) step) as D.
  pose proof (Nat.mod_upper_bound (stop + step - 1) step) as M.
  nia.
Qed.

Lemma range_length_tight stop step i :
  0 < step -> i < Upsert.range_length stop step -> i * step < stop.
Proof.
  intros P L. unfold Upsert.range_length in L.
  pose proof (Nat.div_mod_eq (stop + step - 1) step) as D.
  pose proof (Nat.mod_upper_bound (stop + step - 1) step) as M.
  nia.
Qed.

Lemma skipn_skipn {A : Type} (l : list A) : forall a b,
  skipn a (skipn b l) = skipn (b + a) l.
Proof.
  intros a b. revert l. induction b as [|b IH]; intro l; simpl; auto.
  destruct l; simpl; auto. now destruct a.
Qed.

(** The slices at the multiples of [k] put together give the list back. *)
Lemma slices_concat {A : Type} k : 0 < k -> forall m (rows : list A),
  List.length rows <= m * k ->
  List.concat (map (fun i => Upsert.slice rows (i * k) k) (seq 0 m)) = rows.
Proof.
  intros P. induction m as [|m IH]; intros rows L.
  - destruct rows; [reflexivity|simpl in L; lia].
  - rewrite <- cons_seq, <- seq_shift. cbn [map List.concat]. rewrite map_map.
    unfold Upsert.slice at 1. simpl skipn.
    transitivity (firstn k rows ++ skipn k rows); [|apply firstn_skipn].
    f_equal.
    transitivity (List.concat
                    (map (fun i => Upsert.slice (skipn k rows) (i * k) k)
                         (seq 0 m))).
    + f_equal. apply map_ext. intro i. unfold Upsert.slice.
      now rewrite skipn_skipn.
    + apply IH. rewrite length_skipn. simpl in L. lia.
Qed.

Lemma slice_length {A : Type} (rows : list A) start k :
  List.length (Upsert.slice rows start k) = Nat.min k (List.length rows - start).
Proof. unfold Upsert.slice. now rewrite length_firstn, length_skipn. Qed.

Lemma range_positive stop step :
  (0 < step)%Z ->
  Upsert.range stop step
  = Py.Ok (map (fun i => i * Z.to_nat step)
               (seq 0 (Upsert.range_length stop (Z.to_nat step)))).
Proof.
  intro P. unfold Upsert.range.
  destruct (Z.eqb_spec step 0); [lia|].
  destruct (Z.ltb_spec step 0); [lia|reflexivity].
Qed.

Lemma write_rows_positive rows chunk :
  (0 < chunk)%Z ->
  Upsert.write_rows_to_supabase rows chunk
  = Py.Ok (map (fun i => Upsert.slice rows (i * Z.to_nat chunk) (Z.to_nat chunk))
               (seq 0 (Upsert.range_length (List.length rows) (Z.to_nat chunk)))).
Proof.
  intro P. unfold Upsert.write_rows_to_supabase.
  rewrite range_positive by exact P. cbn [Py.bind]. now rewrite map_map.
Qed.

Lemma batches_concat {A : Type} (rows : list A) k :
  0 < k ->
  List.concat (map (fun i => Upsert.slice rows (i * k) k)
                   (seq 0 (Upsert.range_length (List.length rows) k)))
  = rows.
Proof.
  intro K. apply slices_concat; auto. now apply range_length_covers.
Qed.

Lemma batches_bounds {A : Type} (rows : list A) k :
  0 < k ->
  Forall (fun b => 1 <= List.length b <= k)
         (map (fun i => Upsert.slice rows (i * k) k)
              (seq 0 (Upsert.range_length (List.length rows) k))).
Proof.
  intro K. apply Forall_forall. intros b H. apply in_map_iff in H.
  destruct H as (i & <- & H). apply in_seq in H. rewrite slice_length.
  assert (i * k < List.length rows) by (apply range_length_tight; auto; lia).
  lia.
Qed.

End UpsertFacts.

(** X16.  With a positive [chunk], [write_rows_to_supabase] hands every row
    to [upsert] exactly once and in order: the batches put together are
    the rows; no batch is empty and none is longer than [chunk]; every
    batch but the last holds exactly [chunk] rows; and the number of
    calls is the number of rows divided by [chunk], rounded up. *)
Theorem X16_write_rows_batches (rows : list row) (chunk : Z) (P : (0 < chunk)%Z) :
  exists batches,
    Upsert.write_rows_to_supabase rows chunk = Py.Ok batches
    /\ List.concat batches = rows
    /\ Forall (fun b => 1 <= List.length b <= Z.to_nat chunk) batches
    /\ (forall i, S i < List.length batches ->
                  List.length (nth i batches []) = Z.to_nat chunk)
    /\ List.length batches
       = (List.length rows + Z.to_nat chunk - 1) / Z.to_nat chunk.
Proof.
  rewrite UpsertFacts.write_rows_positive by exact P.
  set (k := Z.to_nat chunk). assert (K : 0 < k) by (unfold k; lia).
  eexists. split; [reflexivity|]. split; [|split; [|split]].
  - now apply UpsertFacts.batches_concat.
  - now apply UpsertFacts.batches_bounds.
  - intros i H. rewrite length_map, length_seq in H.
    rewrite nth_indep with (d' := Upsert.slice rows (0 * k) k)
      by (rewrite length_map, length_seq; lia).
    rewrite (map_nth (fun i => Upsert.slice rows (i * k) k)).
    rewrite seq_nth by lia. rewrite UpsertFacts.slice_length. simpl.
    assert (S i * k < List.length rows)
      by (apply UpsertFacts.range_length_tight; auto).
    simpl in *. lia.
  - now rewrite length_map, length_seq.
Qed.

(* ------------------------------------------------------------------ *)
(** ** The download of a catalogue *)

Module FetchFacts.

Local Open Scope list_scope.

Import Catalogue.

Section Store.

Context {A : Type}.
Variable store : nat -> Fetch.response A.

Lemma pages_succ first n :
  pages store first (S n) = chunk_of store first ++ pages store (S first) n.
Proof. reflexivity. Qed.

(** From a state, over [n] full pages to a page that ends the loop. *)
Lemma loop_runs n : forall fuel products page,
  (forall i, page <= i < page + n -> full store i) ->
  last store (page + n) ->
  n < fuel ->
  Fetch.loop store fuel products page
  = Some (products ++ pages store page n, page + n).
Proof.
  induction n as [|n IH]; intros fuel products page F L B.
  - destruct fuel as [|fuel]; [lia|]. rewrite Nat.add_0_r in *.
    unfold pages. simpl. rewrite app_nil_r.
    destruct L as [L|L]; rewrite L; reflexivity.
  - destruct fuel as [|fuel]; [lia|].
    destruct (F page) as (p & chunk & E); [lia|].
    simpl. rewrite E. replace (page + 1) with (S page) by lia.
    rewrite (IH fuel (products ++ p :: chunk) (S page)).
    + rewrite pages_succ. unfold chunk_of at 1. rewrite E.
      rewrite <- app_assoc. replace (S page + n) with (page + S n) by lia.
      reflexivity.
    + intros i H. apply F. lia.
    + replace (S page + n) with (page + S n) by lia. exact L.
    + lia.
Qed.

(** A loop that has ended went over full pages to a page that ends it. *)
Lemma loop_ended : forall fuel products page products' page',
  Fetch.loop store fuel products page = Some (products', page') ->
  exists n,
    page' = page + n
    /\ products' = products ++ pages store page n
    /\ (forall i, page <= i < page + n -> full store i)
    /\ last store page'.
Proof.
  induction fuel as [|fuel IH]; intros products page products' page' H;
    [discriminate|].
  simpl in H. destruct (store page) as [|[|p chunk]] eqn:E.
  - inversion H; subst. exists 0. rewrite Nat.add_0_r.
    unfold pages. simpl. rewrite app_nil_r.
    repeat split; [intros; lia | now left].
  - inversion H; subst. exists 0. rewrite Nat.add_0_r.
    unfold pages. simpl. rewrite app_nil_r.
    repeat split; [intros; lia | now right].
  - replace (page + 1) with (S page) in H by lia.
    apply IH in H. destruct H as (n & -> & -> & F & L).
    exists (S n). split; [lia|]. split; [|split].
    + rewrite pages_succ. unfold chunk_of at 1. rewrite E.
      now rewrite <- app_assoc.
    + intros i H. destruct (Nat.eq_dec i page) as [->|N].
      * exists p, chunk. exact E.
      * apply F. lia.
    + exact L.
Qed.

(** Over full pages only, the loop does not end. *)
Lemma loop_goes_on : forall fuel products page,
  (forall i, page <= i -> full store i) ->
  Fetch.loop store fuel products page = None.
Proof.
  induction fuel as [|fuel IH]; intros products page F; [reflexivity|].
  destruct (F page) as (p & chunk & E); [lia|].
  simpl. rewrite E. apply IH. intros i H. apply F. lia.
Qed.

End Store.

End FetchFacts.

(** X20.  When the pages 1 to n of a store hold products and the request
    for page n+1 fails or gives an empty page, [fetch_all_products] ends
    after n+1 requests, returns the products of the pages 1 to n in
    order, and reports n pages: a request that fails ends the download
    as the end of the catalogue does, with what was collected so far. *)
Theorem X20_fetch_all_products_collects
    {A : Type} (store : nat -> Fetch.response A) (n fuel : nat)
    (F : forall i, 1 <= i <= n -> Catalogue.full store i)
    (L : Catalogue.last store (S n))
    (B : n < fuel) :
  Fetch.fetch_all_products store fuel = Some (Catalogue.pages store 1 n)
  /\ Fetch.pages_collected store fuel = Some n.
Proof.
  unfold Fetch.fetch_all_products, Fetch.pages_collected.
  rewrite (FetchFacts.loop_runs store n fuel [] 1); auto.
  - simpl. split; [reflexivity|]. f_equal. lia.
  - intros i H. apply F. lia.
Qed.

(** X21.  Whatever the store answers, a list that [fetch_all_products]
    returns is the products of the pages 1 to n, in order, for the n it
    reports: those pages hold products, and the request for page n+1
    failed or gave an empty page.  No page is skipped or asked twice, and
    the list does not tell a failure from the end of the catalogue. *)
Theorem X21_fetch_all_products_returns
    {A : Type} (store : nat -> Fetch.response A) (fuel : nat)
    (products : list A)
    (H : Fetch.fetch_all_products store fuel = Some products) :
  exists n,
    Fetch.pages_collected store fuel = Some n
    /\ products = Catalogue.pages store 1 n
    /\ (forall i, 1 <= i <= n -> Catalogue.full store i)
    /\ Catalogue.last store (S n).
Proof.
  unfold Fetch.fetch_all_products, Fetch.pages_collected in *.
  destruct (Fetch.loop store fuel [] 1) as [[ps page]|] eqn:E; [|discriminate].
  simpl in H. inversion H; subst ps.
  apply FetchFacts.loop_ended in E. destruct E as (n & -> & -> & F & L).
  exists n. simpl. split; [f_equal; lia|]. split; [reflexivity|]. split.
  - intros i I. apply F. lia.
  - exact L.
Qed.

(** X22.  When every page of a store holds products, the loop of
    [fetch_all_products] does not end: no number of requests gives a
    result. *)
Theorem X22_fetch_all_products_goes_on
    {A : Type} (store : nat -> Fetch.response A)
    (F : forall i, 1 <= i -> Catalogue.full store i) (fuel : nat) :
  Fetch.fetch_all_products store fuel = None.
Proof.
  unfold Fetch.fetch_all_products.
  now rewrite FetchFacts.loop_goes_on.
Qed.

(* ------------------------------------------------------------------ *)
(** ** The deduplicator over several stores *)

Module MergeFacts.

Import Dedup.

Local Open Scope list_scope.

Lemma filter_all {A : Type} (p : A -> bool) l :
  (forall a, In a l -> p a = true) -> filter p l = l.
Proof.
  induction l as [|a l IH]; intro H; simpl; auto.
  rewrite (H a) by now left. f_equal. apply IH. intros b I. apply H. now right.
Qed.

Lemma first_wins_distinct rows :
  NoDup (map slug rows) -> first_wins rows = rows.
Proof.
  induction rows as [|a rows IH]; intro N; simpl; auto.
  inversion N as [|? ? Na N']; subst. f_equal. rewrite IH by exact N'.
  apply filter_all. intros b I. apply negb_true_iff, String.eqb_neq.
  intro E. apply Na. rewrite <- E. now apply in_map.
Qed.

Lemma first_wins_app a : forall b,
  first_wins (a ++ b)
  = first_wins a
    ++ filter (fun r => negb (Str.mem (slug r) (map slug a))) (first_wins b).
Proof.
  induction a as [|x a IH]; intro b; simpl.
  - symmetry. apply filter_all. reflexivity.
  - f_equal. rewrite IH, filter_app. f_equal.
    rewrite DedupFacts.filter_filter_and. apply filter_ext. intro r.
    unfold Str.mem. simpl. rewrite negb_orb, andb_comm.
    now rewrite (String.eqb_sym (slug r) (slug x)).
Qed.

Lemma first_wins_slugs s rows :
  In s (map slug (first_wins rows)) <-> In s (map slug rows).
Proof.
  split.
  - intro H. apply in_map_iff in H. destruct H as (r & <- & H).
    apply in_map. now apply DedupFacts.in_first_wins.
  - intro H. apply in_map_iff in H. destruct H as (r & <- & H).
    pose proof (DedupFacts.first_wins_find (slug r) rows) as F.
    unfold find_slug in F.
    destruct (find (fun r0 => String.eqb (slug r0) (slug r)) rows) as [r'|] eqn:E.
    + apply find_some in F. destruct F as [I S]. apply String.eqb_eq in S.
      rewrite <- S. now apply in_map.
    + exfalso. eapply find_none in E; eauto.
      now rewrite String.eqb_refl in E.
Qed.

Lemma candidate_rows_nil slugify charref_sub skip_types files :
  candidate_rows slugify charref_sub skip_types files = []
  <-> forall products prod,
        In products files -> In prod products ->
        should_skip skip_types prod = true.
Proof.
  unfold candidate_rows. split.
  - intros H products prod I J.
    destruct (should_skip skip_types prod) eqn:S; auto. exfalso.
    assert (K : In (base_row slugify charref_sub prod) (@nil row)).
    { rewrite <- H. apply in_flat_map. exists products. split; auto.
      apply in_flat_map. exists prod. split; auto. rewrite S.
      rewrite Rows.normalize_product_rows. now left. }
    destruct K.
  - intro H. destruct (flat_map _ files) as [|r l] eqn:E; auto. exfalso.
    assert (K : In r (r :: l)) by now left. rewrite <- E in K.
    apply in_flat_map in K. destruct K as (products & I & K).
    apply in_flat_map in K. destruct K as (prod & J & K).
    rewrite (H products prod I J) in K. destruct K.
Qed.

Lemma in_candidate_rows slugify charref_sub skip_types files r :
  In r (candidate_rows slugify charref_sub skip_types files)
  <-> exists products prod,
        In products files /\ In prod products
        /\ should_skip skip_types prod = false
        /\ In r (normalize_product slugify charref_sub prod).
Proof.
  unfold candidate_rows. rewrite in_flat_map. split.
  - intros (products & I & K). apply in_flat_map in K.
    destruct K as (prod & J & K).
    destruct (should_skip skip_types prod) eqn:S; [destruct K|].
    exists products, prod. auto.
  - intros (products & prod & I & J & S & K). exists products. split; auto.
    apply in_flat_map. exists prod. split; auto. now rewrite S.
Qed.

Lemma main_some slugify charref_sub skip_types files rows :
  main slugify charref_sub skip_types files = Some rows ->
  rows = first_wins (candidate_rows slugify charref_sub skip_types files).
Proof.
  unfold main. destruct (candidate_rows _ _ _ files) eqn:E; [discriminate|].
  intro H. inversion H. apply DedupFacts.deduplicate_rows_first_wins.
Qed.

End MergeFacts.

(** X7.  On rows whose slugs are pairwise distinct [deduplicate_rows]
    changes nothing. *)
Theorem X7_deduplicate_rows_distinct (rows : list row)
    (N : NoDup (map slug rows)) :
  deduplicate_rows rows = rows.
Proof.
  rewrite DedupFacts.deduplicate_rows_first_wins.
  now apply MergeFacts.first_wins_distinct.
Qed.

(** X8.  Rows that come after others are deduplicated behind them: the
    result for [earlier ++ later] is the result for [earlier], unchanged,
    followed by the rows of the result for [later] whose slug no row of
    [earlier] has. *)
Theorem X8_deduplicate_rows_app (earlier later : list row) :
  deduplicate_rows (earlier ++ later)%list
  = (deduplicate_rows earlier
     ++ filter (fun r => negb (Str.mem (slug r) (map slug earlier)))
               (deduplicate_rows later))%list.
Proof.
  rewrite !DedupFacts.deduplicate_rows_first_wins.
  apply MergeFacts.first_wins_app.
Qed.

(** X9.  The order of the rows decides which row is kept for a slug, not
    which slugs are kept: on two orders of the same rows
    [deduplicate_rows] returns the same slugs, each exactly once, and
    they are the slugs of the rows it was given. *)
Theorem X9_deduplicate_rows_order (rows rows' : list row)
    (P : Permutation rows rows') :
  NoDup (map slug (deduplicate_rows rows))
  /\ NoDup (map slug (deduplicate_rows rows'))
  /\ (forall s, In s (map slug (deduplicate_rows rows))
                <-> In s (map slug rows))
  /\ Permutation (map slug (deduplicate_rows rows))
                 (map slug (deduplicate_rows rows')).
Proof.
  rewrite !DedupFacts.deduplicate_rows_first_wins.
  split; [apply DedupFacts.first_wins_NoDup|].
  split; [apply DedupFacts.first_wins_NoDup|].
  split; [intro s; apply MergeFacts.first_wins_slugs|].
  apply NoDup_Permutation; try apply DedupFacts.first_wins_NoDup.
  intro s. rewrite !MergeFacts.first_wins_slugs. split; intro H.
  - eapply Permutation_in; [apply Permutation_map; exact P | exact H].
  - eapply Permutation_in;
      [apply Permutation_map, Permutation_sym; exact P | exact H].
Qed.

(** X17.  [main] stops at "Nothing suitable found" exactly when
    [should_skip] holds of every listing of every file: a listing that is
    not skipped always gives a row. *)
Theorem X17_main_nothing_suitable
    (slugify charref_sub : string -> string) (skip_types : list string)
    (files : list (list product)) :
  main slugify charref_sub skip_types files = None
  <-> forall products prod,
        In products files -> In prod products ->
        should_skip skip_types prod = true.
Proof.
  rewrite <- (MergeFacts.candidate_rows_nil slugify charref_sub).
  unfold main.
  destruct (candidate_rows slugify charref_sub skip_types files);
    split; intro H; try reflexivity; discriminate.
Qed.

(** X18.  The rows that [main] hands on have pairwise distinct slugs; each
    is a row of [normalize_product] for a listing that [should_skip]
    lets through; and every slug of such a row is the slug of one of
    them. *)
Theorem X18_main_rows
    (slugify charref_sub : string -> string) (skip_types : list string)
    (files : list (list product)) (rows : list row)
    (H : main slugify charref_sub skip_types files = Some rows) :
  NoDup (map slug rows)
  /\ (forall r, In r rows ->
        exists products prod,
          In products files /\ In prod products
          /\ should_skip skip_types prod = false
          /\ In r (normalize_product slugify charref_sub prod))
  /\ (forall products prod r,
        In products files -> In prod products ->
        should_skip skip_types prod = false ->
        In r (normalize_product slugify charref_sub prod) ->
        In (slug r) (map slug rows)).
Proof.
  apply MergeFacts.main_some in H. subst rows. split; [|split].
  - apply DedupFacts.first_wins_NoDup.
  - intros r I. apply DedupFacts.in_first_wins in I.
    now apply MergeFacts.in_candidate_rows in I.
  - intros products prod r I J S K. apply MergeFacts.first_wins_slugs.
    apply in_map. apply MergeFacts.in_candidate_rows. eauto 6.
Qed.

(** X19.  A run uploads every slug once: the rows of [main], written with
    the default [chunk], go to [upsert] in batches of at most 500 rows
    that together are those rows, in order, and no slug occurs twice,
    within a batch or in two batches. *)
Theorem X19_main_upload
    (slugify charref_sub : string -> string) (skip_types : list string)
    (files : list (list product)) (rows : list row)
    (H : main slugify charref_sub skip_types files = Some rows) :
  exists batches,
    Upsert.write_rows_to_supabase rows Upsert.default_chunk = Py.Ok batches
    /\ List.concat batches = rows
    /\ NoDup (map slug (List.concat batches))
    /\ Forall (fun b => 1 <= List.length b <= 500) batches.
Proof.
  rewrite UpsertFacts.write_rows_positive by reflexivity.
  eexists. split; [reflexivity|].
  change (Z.to_nat Upsert.default_chunk) with 500.
  rewrite UpsertFacts.batches_concat by lia.
  split; [reflexivity|]. split.
  - apply MergeFacts.main_some in H. subst rows.
    apply DedupFacts.first_wins_NoDup.
  - apply UpsertFacts.batches_bounds. lia.
Qed.

(* ------------------------------------------------------------------ *)
(** ** The filter *)

Module FilterFacts.

Local Open Scope list_scope.

Lemma lower_not_empty s : Str.is_empty (Str.lower s) = Str.is_empty s.
Proof. destruct s; reflexivity. Qed.

Lemma contains_in_empty sub : Str.contains sub "" = Str.is_empty sub.
Proof. destruct sub; reflexivity. Qed.

Lemma skip_types_not_empty skip :
  In skip SKIP_PRODUCT_TYPES -> Str.is_empty skip = false.
Proof.
  assert (F : forallb (fun s => negb (Str.is_empty s)) SKIP_PRODUCT_TYPES = true)
    by (vm_compute; reflexivity).
  rewrite forallb_forall in F. intro H. apply negb_true_iff. auto.
Qed.

Lemma should_skip_iff skip_types prod :
  should_skip skip_types prod = true
  <-> exists skip pre post,
        In skip skip_types
        /\ Str.lower (get (product_type prod) "")
           = (pre ++ Str.lower skip ++ post)%string.
Proof.
  unfold should_skip. rewrite existsb_exists. split.
  - intros (skip & I & C). apply StrFacts.contains_spec in C.
    destruct C as (pre & post & C). eauto.
  - intros (skip & pre & post & I & C). exists skip. split; auto.
    apply StrFacts.contains_spec. eauto.
Qed.

End FilterFacts.

(** X1.  [should_skip] matches by substring and without regard to case:
    in whatever order the run iterates [SKIP_PRODUCT_TYPES], a listing
    whose [product_type] holds an entry of the set, in any letter case
    and with any text before and after it, is skipped; a listing whose
    [product_type] is absent or empty is not. *)
Theorem X1_should_skip_substring
    (order : list string) (prod : product)
    (P : Permutation SKIP_PRODUCT_TYPES order) :
  (forall skip pre x post,
     In skip SKIP_PRODUCT_TYPES -> Str.lower x = Str.lower skip ->
     should_skip order
       (with_product_type (Some (pre ++ x ++ post)) prod) = true)
  /\ should_skip order (with_product_type None prod) = false
  /\ should_skip order (with_product_type (Some "") prod) = false.
Proof.
  split.
  - intros skip pre x post I E. apply FilterFacts.should_skip_iff.
    exists skip, (Str.lower pre), (Str.lower post). split.
    + eapply Permutation_in; eauto.
    + simpl. now rewrite !StrFacts.lower_append, E.
  - assert (N : forall pt, Str.lower (get pt "") = "" ->
                  should_skip order (with_product_type pt prod) = false).
    { intros pt E. unfold should_skip. simpl. rewrite E.
      apply not_true_is_false. intro H. apply existsb_exists in H.
      destruct H as (skip & I & C).
      rewrite FilterFacts.contains_in_empty, FilterFacts.lower_not_empty in C.
      apply Permutation_sym in P. apply (Permutation_in _ P) in I.
      rewrite (FilterFacts.skip_types_not_empty skip I) in C. discriminate. }
    split; apply N; reflexivity.
Qed.

(* ------------------------------------------------------------------ *)
(** ** The image and the size of the Base row *)

Module BaseFacts.

Local Open Scope list_scope.

Lemma before_first_char c s :
  Str.contains (Str.of_char c) (Str.before_first (Str.of_char c) s) = false.
Proof.
  induction s as [|a s IH]; [reflexivity|].
  cbn [Str.before_first Str.of_char Str.startswith].
  destruct (Ascii.eqb c a) eqn:E; simpl; [reflexivity|].
  rewrite E. simpl. exact IH.
Qed.

Lemma before_first_prefix sep s :
  Str.startswith (Str.before_first sep s) s = true.
Proof.
  induction s as [|a s IH].
  - simpl. destruct (Str.startswith sep ""); reflexivity.
  - cbn [Str.before_first].
    destruct (Str.startswith sep (String a s)); [reflexivity|].
    simpl. rewrite Ascii.eqb_refl. exact IH.
Qed.

Lemma before_first_split sep s :
  exists rest,
    s = (Str.before_first sep s ++ rest)%string
    /\ (rest = EmptyString \/ Str.startswith sep rest = true).
Proof.
  induction s as [|a s IH].
  - exists EmptyString. split; [|left; reflexivity].
    simpl. destruct (Str.startswith sep ""); reflexivity.
  - cbn [Str.before_first].
    destruct (Str.startswith sep (String a s)) eqn:E.
    + exists (String a s). split; [reflexivity|right; exact E].
    + destruct IH as (rest & S & R). exists rest. split; [|exact R].
      simpl. f_equal. exact S.
Qed.

Lemma digit_value_bounds d :
  Char.is_digit d = true -> (0 <= Char.digit_value d <= 9)%Z.
Proof.
  destruct d as [[] [] [] [] [] [] [] []]; vm_compute; intro H;
    solve [discriminate H | split; discriminate].
Qed.

Lemma search_found {A : Type} (m : string -> option A) a : forall s,
  Re.search m s = Some a -> exists suf, m suf = Some a.
Proof.
  induction s as [|c s IH]; simpl.
  - destruct (m "") eqn:E; [|discriminate]. intro H. inversion H; subst. eauto.
  - destruct (m (String c s)) eqn:E.
    + intro H. inversion H; subst. eauto.
    + exact IH.
Qed.

Lemma mm_at_bounds pre suf t : Size.mm_at pre suf t -> (0 <= t <= 999)%Z.
Proof.
  intro H. inversion H; subst;
    repeat match goal with
           | D : Char.is_digit _ = true |- _ =>
               apply digit_value_bounds in D
           end; lia.
Qed.

Lemma table_values key v :
  dict_get DEFAULT_SIZE_MM key = Some v ->
  exists n, v = Int n /\ In n [50; 56; 60; 62; 65; 69]%Z.
Proof.
  unfold DEFAULT_SIZE_MM. cbn [dict_get].
  repeat match goal with
         | |- (if ?b then _ else _) = _ -> _ =>
             destruct b;
             [intro H; inversion H; eexists; split;
              [reflexivity | simpl; tauto] |]
         end.
  discriminate.
Qed.

End BaseFacts.

(** X6.  Of the rows [normalize_product] returns, the first has as
    [image_url] the [src] of the listing's first image cut at its first
    "?": the [src] is the [image_url] followed by nothing or by a rest
    that starts with "?", and the [image_url] holds no "?" (both are the
    empty string when the listing has no image, or the image no [src]).
    The rows after it, one per variant, are not cut: the row of a
    variant with a [featured_image] has that image's [src] as it is,
    query string included, and [None] when the image has no [src]; the
    row of a variant without one has the [image_url] of the first row. *)
Theorem X6_image_url_of_rows
    (slugify charref_sub : string -> string) (prod : product) :
  exists base trims url rest,
    normalize_product slugify charref_sub prod = base :: trims
    /\ image_url base = Some url
    /\ get (src (hd {| src := None |} (get (images prod) []))) ""
       = (url ++ rest)%string
    /\ Str.contains "?" url = false
    /\ (rest = EmptyString \/ Str.startswith "?" rest = true)
    /\ Forall2 (fun v r => image_url r
                           = match v_featured_image v with
                             | Some img => src img
                             | None => Some url
                             end)
               (get (variants prod) []) trims.
Proof.
  destruct (BaseFacts.before_first_split "?"
              (get (src (hd {| src := None |}
                            (get_or_list (images prod)
                                         [{| src := None |}]))) ""))
    as (rest & S & R).
  exists (base_row slugify charref_sub prod),
         (map (trim_row slugify (base_row slugify charref_sub prod))
              (get (variants prod) [])).
  eexists. exists rest.
  split; [rewrite Rows.normalize_product_rows, Rows.get_or_list_get;
          reflexivity|].
  split; [reflexivity|]. split.
  - replace (hd {| src := None |} (get (images prod) []))
      with (hd {| src := None |}
               (get_or_list (images prod) [{| src := None |}]))
      by (destruct (images prod) as [[|i l]|]; reflexivity).
    exact S.
  - split; [apply (BaseFacts.before_first_char "?")|]. split; [exact R|].
    induction (get (variants prod) []) as [|v vs IH]; simpl;
      constructor; auto.
    unfold trim_row. destruct (v_featured_image v); reflexivity.
Qed.

(** X4.  The [size] that [detect_size_mm] returns is a float between 0.0
    and 99.9, or one of the integers 50, 56, 60, 62, 65 and 69 of
    [DEFAULT_SIZE_MM]. *)
Theorem X4_detect_size_mm_bounds
    (charref_sub : string -> string) (prod : product) :
  match detect_size_mm charref_sub prod with
  | Float10 tenths => (0 <= tenths <= 999)%Z
  | Int n => In n [50; 56; 60; 62; 65; 69]%Z
  end.
Proof.
  rewrite SizeFacts.detect_size_mm_unfold.
  destruct (Re.search Re.MM_PATTERN (Size.text charref_sub prod)) as [g|] eqn:M.
  - apply BaseFacts.search_found in M. destruct M as (suf & M).
    pose proof (SizeFacts.MM_PATTERN_decides "" suf) as D. rewrite M in D.
    now apply BaseFacts.mm_at_bounds in D.
  - destruct (Re.search_after Re.NXN_PATTERN None (get (title prod) ""))
      as [[a b]|]; [|simpl; lia].
    destruct (dict_get DEFAULT_SIZE_MM (String a (String "x" (String b ""))))
      as [v|] eqn:T; [|simpl; lia].
    apply BaseFacts.table_values in T. destruct T as (n & -> & I). exact I.
Qed.

(* ------------------------------------------------------------------ *)
(** ** The sticker heuristic *)

Module StickerFacts.

Import Sticker.

(** A keyword without a space starts at a position of [x ++ " " ++ r]
    inside [x] only if it ends inside [x]. *)
Lemma startswith_before_space kw : forall x r,
  no_space kw = true ->
  Str.startswith kw (x ++ String " " r) = Str.startswith kw x.
Proof.
  induction kw as [|k kw IH]; intros x r N; [reflexivity|].
  simpl in N. apply andb_true_iff in N. destruct N as [K N].
  destruct x as [|c x]; simpl.
  - apply negb_true_iff in K. now rewrite K.
  - now rewrite IH.
Qed.

Lemma contains_across_space kw r : forall x,
  no_space kw = true -> Str.is_empty kw = false ->
  Str.contains kw (x ++ String " " r) = Str.contains kw x || Str.contains kw r.
Proof.
  intros x N E. induction x as [|c x IH].
  - destruct kw as [|k kw]; [discriminate|].
    simpl in N. apply andb_true_iff in N. destruct N as [K _].
    apply negb_true_iff in K. simpl. now rewrite K.
  - change (String c x ++ String " " r) with (String c (x ++ String " " r)).
    cbn [Str.contains].
    change (String c (x ++ String " " r)) with (String c x ++ String " " r).
    rewrite startswith_before_space by exact N.
    rewrite IH. now rewrite orb_assoc.
Qed.

(** A keyword without a space occurs in the joined text if and only if it
    occurs in one of the items. *)
Lemma contains_join kw items :
  no_space kw = true -> Str.is_empty kw = false ->
  Str.contains kw (Str.join " " items) = existsb (Str.contains kw) items.
Proof.
  intros N E. induction items as [|a items IH].
  - destruct kw; [discriminate|reflexivity].
  - destruct items as [|b items].
    + simpl. now rewrite orb_false_r.
    + change (Str.join " " (a :: b :: items))
        with (a ++ String " " (Str.join " " (b :: items))).
      rewrite contains_across_space by assumption.
      rewrite IH. reflexivity.
Qed.

Lemma lower_join items :
  Str.lower (Str.join " " items) = Str.join " " (map Str.lower items).
Proof.
  induction items as [|a items IH]; [reflexivity|].
  destruct items as [|b items]; [reflexivity|].
  change (Str.join " " (a :: b :: items))
    with (a ++ String " " (Str.join " " (b :: items))).
  rewrite StrFacts.lower_append. cbn [Str.lower]. rewrite IH. reflexivity.
Qed.

Lemma existsb_of_map {A B : Type} (f : B -> bool) (g : A -> B) l :
  existsb f (map g l) = existsb (fun x => f (g x)) l.
Proof. induction l as [|a l IH]; simpl; congruence. Qed.

Lemma is_stickered_items prod :
  is_stickered prod
  = negb (existsb (fun item => Str.contains "stickerless" (Str.lower item))
                  (get (tags prod) [] ++ variant_titles prod))
    && existsb (fun item =>
                  Str.contains "stickered" (Str.lower item)
                  || Str.contains "black" (Str.lower item)
                  || Str.contains "primary" (Str.lower item))
               (get (tags prod) [] ++ variant_titles prod)%list.
Proof.
  unfold is_stickered. rewrite lower_join.
  rewrite !contains_join by reflexivity. cbn [existsb].
  rewrite !contains_join by reflexivity. rewrite orb_false_r.
  rewrite !existsb_of_map.
  set (items := (get (tags prod) [] ++ variant_titles prod)%list).
  destruct (existsb (fun item => Str.contains "stickerless" (Str.lower item))
                    items); [reflexivity|].
  simpl.
  assert (E : existsb (fun item =>
                  Str.contains "stickered" (Str.lower item)
                  || Str.contains "black" (Str.lower item)
                  || Str.contains "primary" (Str.lower item)) items
              = existsb (fun x => Str.contains "stickered" (Str.lower x)) items
                || (existsb (fun x => Str.contains "black" (Str.lower x)) items
                    || existsb (fun x => Str.contains "primary" (Str.lower x)) items)).
  { clear. induction items as [|a items IH]; [reflexivity|].
    simpl. rewrite IH.
    destruct (Str.contains "stickered" (Str.lower a)),
             (Str.contains "black" (Str.lower a)),
             (Str.contains "primary" (Str.lower a)),
             (existsb (fun x => Str.contains "stickered" (Str.lower x)) items),
             (existsb (fun x => Str.contains "black" (Str.lower x)) items),
             (existsb (fun x => Str.contains "primary" (Str.lower x)) items);
      reflexivity. }
  rewrite E.
  destruct (existsb (fun x => Str.contains "stickered" (Str.lower x)) items
            || (existsb (fun x => Str.contains "black" (Str.lower x)) items
                || existsb (fun x => Str.contains "primary" (Str.lower x)) items));
    reflexivity.
Qed.

End StickerFacts.

(** X5.  [is_stickered] decides item by item, although it searches the
    joined text: it is true if and only if no tag and no variant title
    holds "stickerless", in any letter case, and some tag or variant
    title holds "stickered", "black" or "primary".  One item with
    "stickerless" makes it false whatever the other items hold. *)
Theorem X5_is_stickered_by_item (prod : product) :
  is_stickered prod = true
  <-> (forall item, In item (get (tags prod) [] ++ variant_titles prod)%list ->
         Str.contains "stickerless" (Str.lower item) = false)
      /\ (exists item kw,
            In item (get (tags prod) [] ++ variant_titles prod)%list
            /\ In kw ["stickered"; "black"; "primary"]
            /\ Str.contains kw (Str.lower item) = true).
Proof.
  rewrite StickerFacts.is_stickered_items, andb_true_iff, negb_true_iff.
  rewrite existsb_exists.
  split.
  - intros [N (item & I & C)]. split.
    + intros x J. destruct (Str.contains "stickerless" (Str.lower x)) eqn:S; auto.
      exfalso. assert (T : existsb (fun item => Str.contains "stickerless"
                                      (Str.lower item))
                             (get (tags prod) [] ++ variant_titles prod)%list
                           = true)
        by (apply existsb_exists; eauto).
      congruence.
    + apply orb_true_iff in C. destruct C as [C|C];
        [apply orb_true_iff in C; destruct C as [C|C]|].
      * exists item, "stickered". split; [exact I|]. split; [simpl; tauto|exact C].
      * exists item, "black". split; [exact I|]. split; [simpl; tauto|exact C].
      * exists item, "primary". split; [exact I|]. split; [simpl; tauto|exact C].
  - intros [N (item & kw & I & K & C)]. split.
    + apply not_true_is_false. intro T. apply existsb_exists in T.
      destruct T as (x & J & S). rewrite (N x J) in S. discriminate.
    + exists item. split; auto. simpl in K.
      destruct K as [<-|[<-|[<-|[]]]]; rewrite C;
        rewrite ?orb_true_r; reflexivity.
Qed.

(* ------------------------------------------------------------------ *)
(** ** The words of the series *)

Module SeriesFacts.

Import Series.

Lemma extract_series_name_words title :
  extract_series_name title
  = Str.strip (Str.join " " (leading_words (Str.split (clean title)))).
Proof. reflexivity. Qed.

Lemma leading_words_prefix ws :
  exists rest,
    ws = (leading_words ws ++ rest)%list
    /\ Forall (fun w => marker w = false) (leading_words ws)
    /\ (rest = [] \/ exists w rest', rest = w :: rest' /\ marker w = true).
Proof.
  induction ws as [|w ws (rest & E & F & R)]; simpl.
  - exists []. auto.
  - destruct (marker w) eqn:M.
    + exists (w :: ws). split; [reflexivity|]. split; [constructor|].
      right. eauto.
    + exists rest. split; [simpl; congruence|]. split; [|exact R].
      constructor; auto.
Qed.

Lemma no_whitespace_append s t :
  no_whitespace (s ++ t) = no_whitespace s && no_whitespace t.
Proof.
  induction s as [|c s IH]; simpl; auto. now rewrite IH, andb_assoc.
Qed.

Lemma is_empty_append s t :
  Str.is_empty (s ++ t) = Str.is_empty s && Str.is_empty t.
Proof. destruct s; reflexivity. Qed.

(** [str.split()] returns words. *)
Lemma split_from_words s : forall cur,
  no_whitespace cur = true ->
  Forall (fun w => word w = true) (Str.split_from cur s).
Proof.
  induction s as [|c s IH]; intros cur N; simpl.
  - destruct (Str.is_empty cur) eqn:E; constructor; auto.
    unfold word. now rewrite E, N.
  - destruct (Char.is_space c) eqn:S.
    + destruct (Str.is_empty cur) eqn:E.
      * now apply IH.
      * constructor; [unfold word; now rewrite E, N | now apply IH].
    + apply IH. rewrite no_whitespace_append, N. simpl. now rewrite S.
Qed.

Lemma leading_words_are_words ws :
  Forall (fun w => word w = true) ws ->
  Forall (fun w => word w = true) (leading_words ws).
Proof.
  induction 1 as [|w ws W F IH]; simpl; [constructor|].
  destruct (marker w); constructor; auto.
Qed.

Lemma rstrip_no_whitespace w : no_whitespace w = true -> Str.rstrip w = w.
Proof.
  induction w as [|c w IH]; simpl; auto. intro N.
  apply andb_true_iff in N. destruct N as [C N].
  apply negb_true_iff in C. rewrite C, IH by exact N. reflexivity.
Qed.

Lemma rstrip_append x : forall r,
  Str.rstrip r = r -> Str.is_empty r = false -> Str.rstrip (x ++ r) = x ++ r.
Proof.
  intros r R E. induction x as [|c x IH]; simpl; auto.
  rewrite IH, is_empty_append, E, !andb_false_r. reflexivity.
Qed.

Lemma join_cons a b l :
  Str.join " " (a :: b :: l) = a ++ String " " (Str.join " " (b :: l)).
Proof. reflexivity. Qed.

Lemma join_not_empty a l :
  Str.is_empty a = false -> Str.is_empty (Str.join " " (a :: l)) = false.
Proof.
  intro E. destruct l as [|b l]; [exact E|].
  now rewrite join_cons, is_empty_append, E.
Qed.

Lemma word_parts w :
  word w = true -> Str.is_empty w = false /\ no_whitespace w = true.
Proof.
  unfold word. rewrite andb_true_iff, negb_true_iff. tauto.
Qed.

Lemma rstrip_join ws :
  Forall (fun w => word w = true) ws ->
  Str.rstrip (Str.join " " ws) = Str.join " " ws.
Proof.
  induction 1 as [|a l W F IH]; [reflexivity|].
  apply word_parts in W. destruct W as [E N].
  destruct l as [|b l]; [now apply rstrip_no_whitespace|].
  rewrite join_cons.
  change (a ++ String " " (Str.join " " (b :: l)))
    with (a ++ (String " " (Str.join " " (b :: l)))).
  replace (a ++ String " " (Str.join " " (b :: l)))
    with ((a ++ " ") ++ Str.join " " (b :: l))
    by (rewrite StrFacts.append_assoc; reflexivity).
  apply rstrip_append; [exact IH|].
  inversion F; subst. apply join_not_empty.
  now apply word_parts.
Qed.

Lemma lstrip_join ws :
  Forall (fun w => word w = true) ws ->
  Str.lstrip (Str.join " " ws) = Str.join " " ws.
Proof.
  intro F. destruct ws as [|a l]; [reflexivity|].
  inversion F as [|? ? W _]; subst. apply word_parts in W.
  destruct W as [E N]. destruct a as [|c a]; [discriminate|].
  simpl in N. apply andb_true_iff in N. destruct N as [C _].
  apply negb_true_iff in C.
  destruct l as [|b l]; [simpl; now rewrite C|].
  rewrite join_cons. simpl. now rewrite C.
Qed.

Lemma strip_join ws :
  Forall (fun w => word w = true) ws ->
  Str.strip (Str.join " " ws) = Str.join " " ws.
Proof.
  intro F. unfold Str.strip. rewrite lstrip_join by exact F.
  now apply rstrip_join.
Qed.

Lemma split_from_word w : forall cur s,
  no_whitespace w = true ->
  Str.split_from cur (w ++ s) = Str.split_from (cur ++ w) s.
Proof.
  induction w as [|c w IH]; intros cur s N; simpl.
  - now rewrite StrFacts.append_nil_r.
  - simpl in N. apply andb_true_iff in N. destruct N as [C N].
    apply negb_true_iff in C. rewrite C, IH by exact N.
    rewrite StrFacts.append_assoc. reflexivity.
Qed.

(** [split] undoes [join] on words. *)
Lemma split_join ws :
  Forall (fun w => word w = true) ws ->
  Str.split (Str.join " " ws) = ws.
Proof.
  unfold Str.split. induction 1 as [|a l W F IH]; [reflexivity|].
  apply word_parts in W. destruct W as [E N].
  destruct l as [|b l].
  - simpl Str.join. rewrite <- (StrFacts.append_nil_r a) at 1.
    rewrite split_from_word by exact N. simpl. now rewrite E.
  - rewrite join_cons, split_from_word by exact N.
    simpl. rewrite E. f_equal. exact IH.
Qed.

End SeriesFacts.

(** X2.  [extract_series_name] returns the leading words of the title: the
    title without its parenthesised parts and without what follows its
    first " -" is split into words; the series is the words before the
    first size token, version marker or noise word, joined by single
    spaces.  Split into words again it gives those words back: the series
    holds no size token and no version marker, and no white space but
    the single spaces between its words. *)
Theorem X2_extract_series_name_leading_words (title : string) :
  exists kept rest,
    Str.split (Series.clean title) = (kept ++ rest)%list
    /\ Forall (fun w => Series.marker w = false) kept
    /\ (rest = [] \/ exists w rest', rest = w :: rest' /\ Series.marker w = true)
    /\ extract_series_name title = Str.join " " kept
    /\ Str.split (extract_series_name title) = kept.
Proof.
  destruct (SeriesFacts.leading_words_prefix (Str.split (Series.clean title)))
    as (rest & E & F & R).
  exists (Series.leading_words (Str.split (Series.clean title))), rest.
  assert (W : Forall (fun w => Series.word w = true)
                     (Series.leading_words (Str.split (Series.clean title)))).
  { apply SeriesFacts.leading_words_are_words.
    apply SeriesFacts.split_from_words. reflexivity. }
  rewrite SeriesFacts.extract_series_name_words.
  rewrite SeriesFacts.strip_join by exact W.
  rewrite SeriesFacts.split_join by exact W. auto.
Qed.

(* ------------------------------------------------------------------ *)
(** ** The slug of the Base row *)

Module SlugFacts.

Lemma replace_prefix old rest :
  Str.contains old rest = false ->
  Str.replace old "" (old ++ rest) = rest.
Proof.
  intro N. unfold Str.replace. destruct old as [|a o].
  - destruct rest; discriminate.
  - cbn [Str.is_empty].
    rewrite ModelFacts.replace_from_occurrence by discriminate.
    now rewrite ModelFacts.replace_from_absent.
Qed.

Lemma replace_empty s : Str.replace "" "" s = s.
Proof. unfold Str.replace. simpl. apply ModelFacts.interleave_nil. Qed.

End SlugFacts.

(** X3.  When the title is the extracted series followed by a rest in
    which the series does not occur again, or when the series is empty,
    the slug of the Base row is [slugify] of the whole title and the
    model is the rest, trimmed. *)
Theorem X3_slug_of_title
    (slugify charref_sub : string -> string) (prod : product) (rest : string)
    (T : get (title prod) "" = extract_series_name (get (title prod) "") ++ rest)
    (N : extract_series_name (get (title prod) "") = ""
         \/ Str.contains (extract_series_name (get (title prod) "")) rest = false) :
  slug (base_row slugify charref_sub prod) = slugify (get (title prod) "")
  /\ model (base_row slugify charref_sub prod) = Str.strip rest.
Proof.
  cbn [slug model base_row].
  set (t := get (title prod) "") in *.
  set (s := extract_series_name t) in *.
  assert (R : Str.replace s "" t = rest).
  { destruct N as [E|C].
    - rewrite E in *. simpl in T. rewrite SlugFacts.replace_empty. exact T.
    - rewrite T. now apply SlugFacts.replace_prefix. }
  rewrite R. split; [|reflexivity]. now rewrite <- T.
Qed.

(* ------------------------------------------------------------------ *)
(** ** Listings of any shape *)

Module ShapeFacts.

Local Open Scope list_scope.

(** The next step of a computation that is to raise. *)
Ltac raise_step :=
  cbn [Py.bind Py.iter Py.slice10 Py.extract_series_name Py.as_str];
  try reflexivity;
  match goal with
  | |- Py.bind ?x _ = Py.Raise =>
      destruct x; cbn [Py.bind]; [|reflexivity]
  end.

Lemma base_row_unusable slugify charref_sub d :
  Shape.unusable d -> Py.base_row slugify charref_sub (Py.VDict d) = Py.Raise.
Proof.
  intro U. unfold Py.base_row. cbn [Py.get].
  destruct U as [v T N | T | T | T]; rewrite ?T.
  - destruct v; try (exfalso; eapply N; reflexivity); repeat raise_step.
  - repeat raise_step.
  - repeat raise_step.
  - repeat raise_step.
Qed.

(** The steps of a computation that has returned. *)
Ltac ok_steps H :=
  repeat match type of H with
         | Py.bind ?x _ = Py.Ok _ =>
             let E := fresh "E" in
             destruct x eqn:E; cbn [Py.bind] in H; [|discriminate H]
         end.

Lemma get_setitem_same d key v : dict_get (Py.setitem d key v) key = Some v.
Proof.
  induction d as [|[k x] d IH]; simpl.
  - now rewrite String.eqb_refl.
  - destruct (String.eqb k key) eqn:E; simpl; now rewrite E.
Qed.

Lemma get_setitem_other d key v key' :
  key <> key' -> dict_get (Py.setitem d key v) key' = dict_get d key'.
Proof.
  intro N. induction d as [|[k x] d IH]; simpl.
  - apply String.eqb_neq in N. now rewrite N.
  - destruct (String.eqb k key) eqn:E; simpl.
    + apply String.eqb_eq in E. subst k.
      apply String.eqb_neq in N. now rewrite N.
    + now rewrite IH.
Qed.

Lemma keys_setitem d key v :
  map fst (Py.setitem d key v)
  = if Str.mem key (map fst d) then map fst d else map fst d ++ [key].
Proof.
  unfold Str.mem. induction d as [|[k x] d IH]; simpl; [reflexivity|].
  rewrite (String.eqb_sym key k).
  destruct (String.eqb k key) eqn:E; simpl; [reflexivity|].
  rewrite IH. now destruct (existsb (String.eqb key) (map fst d)).
Qed.

Lemma get_absent {A : Type} (d : list (string * A)) key :
  ~ In key (map fst d) -> dict_get d key = None.
Proof.
  induction d as [|[k x] d IH]; simpl; [reflexivity|].
  intro N. destruct (String.eqb k key) eqn:E.
  - apply String.eqb_eq in E. tauto.
  - apply IH. tauto.
Qed.

(** The Base row of a listing of any shape. *)
Lemma base_row_shape slugify charref_sub prod base :
  Py.base_row slugify charref_sub prod = Py.Ok base ->
  map fst base = Shape.columns
  /\ exists s, dict_get base "slug" = Some (Py.VStr s)
               /\ dict_get base "version_type" = Some (Py.VStr "Base").
Proof.
  intro H. unfold Py.base_row in H. ok_steps H.
  inversion H; subst base. split; [reflexivity|].
  eexists. split; reflexivity.
Qed.

(** A Trim row made from a row of that shape. *)
Lemma trim_row_shape slugify base v row s :
  map fst base = Shape.columns ->
  dict_get base "slug" = Some (Py.VStr s) ->
  Py.trim_row slugify base v = Py.Ok row ->
  map fst row = Shape.columns ++ ["related_to"]
  /\ (exists s', dict_get row "slug" = Some (Py.VStr s'))
  /\ dict_get row "version_type" = Some (Py.VStr "Trim")
  /\ dict_get row "related_to" = Some (Py.VStr s).
Proof.
  intros K S H. unfold Py.trim_row in H.
  assert (G : forall g, Py.getitem (Py.setitem base "weight" g) "slug"
                        = Py.Ok (Py.VStr s)).
  { intro g. unfold Py.getitem.
    now rewrite get_setitem_other, S by discriminate. }
  assert (G' : forall g x,
             Py.getitem (Py.setitem (Py.setitem base "weight" g) "related_to" x)
                        "slug"
             = Py.Ok (Py.VStr s)).
  { intros g x. unfold Py.getitem.
    now rewrite !get_setitem_other, S by discriminate. }
  destruct (Py.get v "grams" (Py.VInt 0)) as [g|]; cbn [Py.bind] in H;
    [|discriminate H].
  rewrite G in H. cbn [Py.bind] in H. rewrite G' in H.
  cbn [Py.bind Py.as_str] in H.
  destruct (Py.get v "title" (Py.VStr "")) as [t|]; cbn [Py.bind] in H;
    [|discriminate H].
  destruct (Py.as_str t) as [ts|]; cbn [Py.bind] in H; [|discriminate H].
  destruct (Py.get v "featured_image" Py.VNone) as [image|];
    cbn [Py.bind] in H; [|discriminate H].
  destruct image;
    try (destruct (Py.get _ "src" Py.VNone) as [src0|] eqn:E0 in H;
         cbn [Py.bind] in H; [|discriminate H]);
    inversion H; subst row;
    (split;
     [ rewrite !keys_setitem, !K; reflexivity
     | split; [eexists|split];
       repeat first [ rewrite get_setitem_same; reflexivity
                    | rewrite get_setitem_other by discriminate ] ]).
Qed.

Lemma map_m_forall {A B : Type} (f : A -> Py.result B) (P : B -> Prop) :
  (forall a b, f a = Py.Ok b -> P b) ->
  forall l bs, Py.map_m f l = Py.Ok bs -> Forall P bs.
Proof.
  intro H. induction l as [|a l IH]; intros bs E; simpl in E.
  - inversion E. constructor.
  - destruct (f a) as [b|] eqn:F; cbn [Py.bind] in E; [|discriminate E].
    destruct (Py.map_m f l) as [bs'|]; cbn [Py.bind] in E; [|discriminate E].
    inversion E; subst. constructor; eauto.
Qed.

(** The rows of a listing of any shape. *)
Lemma normalize_product_shape slugify charref_sub prod rows :
  Py.normalize_product slugify charref_sub prod = Py.Ok rows ->
  exists base trims s,
    rows = base :: trims
    /\ map fst base = Shape.columns
    /\ dict_get base "slug" = Some (Py.VStr s)
    /\ dict_get base "version_type" = Some (Py.VStr "Base")
    /\ Forall (fun r =>
                 map fst r = Shape.columns ++ ["related_to"]
                 /\ (exists s', dict_get r "slug" = Some (Py.VStr s'))
                 /\ dict_get r "version_type" = Some (Py.VStr "Trim")
                 /\ dict_get r "related_to" = Some (Py.VStr s))
              trims.
Proof.
  intro H. unfold Py.normalize_product in H.
  destruct (Py.base_row slugify charref_sub prod) as [base|] eqn:B;
    cbn [Py.bind] in H; [|discriminate H].
  destruct (base_row_shape _ _ _ _ B) as (K & s & S & V).
  destruct (Py.get prod "variants" Py.VNone) as [variants|];
    cbn [Py.bind] in H; [|discriminate H].
  destruct (Py.truthy (Py.or_ variants (Py.VList []))).
  - destruct (Py.iter (Py.or_ variants (Py.VList []))) as [items|];
      cbn [Py.bind] in H; [|discriminate H].
    destruct (Py.map_m (Py.trim_row slugify base) items) as [trims|] eqn:M;
      cbn [Py.bind] in H; [|discriminate H].
    inversion H; subst rows. exists base, trims, s. simpl.
    repeat split; auto.
    eapply map_m_forall; [|exact M].
    intros v row T. eapply trim_row_shape; eauto.
  - inversion H; subst rows. exists base, [], s. repeat split; auto.
Qed.


End ShapeFacts.

(** X13.  [normalize_product] raises on a listing whose [title] is there
    but is no string (JSON [null], a number), and on one whose [tags],
    [variants] or [published_at] is JSON [null]: the defaults stand for
    an absent key, not for a null value, and the [or []] of [variants]
    comes after the loops that have raised. *)
Theorem X13_unusable_listing_raises
    (slugify charref_sub : string -> string) (d : list (string * Py.value))
    (U : Shape.unusable d) :
  Py.normalize_product slugify charref_sub (Py.VDict d) = Py.Raise.
Proof.
  unfold Py.normalize_product.
  now rewrite ShapeFacts.base_row_unusable.
Qed.

(** X14.  Whatever the JSON value of a listing, the rows that
    [normalize_product] returns for it are a Base row and Trim rows: all
    have the 22 keys of the dict literal, in its order, and a string
    [slug]; the first has [version_type] "Base" and no [related_to]; each
    of the others has [version_type] "Trim" and, as a 23rd key,
    [related_to] with the slug of the first. *)
Theorem X14_rows_of_any_listing
    (slugify charref_sub : string -> string) (prod : Py.value)
    (rows : list (list (string * Py.value)))
    (H : Py.normalize_product slugify charref_sub prod = Py.Ok rows) :
  exists base trims s,
    rows = base :: trims
    /\ map fst base = Shape.columns
    /\ dict_get base "related_to" = None
    /\ dict_get base "slug" = Some (Py.VStr s)
    /\ dict_get base "version_type" = Some (Py.VStr "Base")
    /\ Forall (fun r =>
                 map fst r = (Shape.columns ++ ["related_to"])%list
                 /\ (exists s', dict_get r "slug" = Some (Py.VStr s'))
                 /\ dict_get r "version_type" = Some (Py.VStr "Trim")
                 /\ dict_get r "related_to" = Some (Py.VStr s))
              trims.
Proof.
  destruct (ShapeFacts.normalize_product_shape _ _ _ _ H)
    as (base & trims & s & E & K & S & V & F).
  exists base, trims, s. repeat split; auto.
  apply ShapeFacts.get_absent. rewrite K. simpl. intuition discriminate.
Qed.

(* ------------------------------------------------------------------ *)
(** ** The deduplicator on untyped rows *)

Module PyDedupFacts.

Local Open Scope list_scope.

Lemma has_untyped unique k :
  PyDedup.has (PyDedup.KStr k) (map PyDedup.untyped unique) = has_key unique k.
Proof.
  unfold PyDedup.has, has_key. induction unique as [|[k' r] u IH]; simpl; auto.
  now rewrite IH.
Qed.

Lemma slug_of_row r : Py.getitem (Py.of_row r) "slug" = Py.Ok (Py.VStr (slug r)).
Proof. reflexivity. Qed.

Lemma loop_typed rows : forall unique,
  PyDedup.loop (map PyDedup.untyped unique) (map Py.of_row rows)
  = Py.Ok (map PyDedup.untyped (fold_left Dedup.step rows unique)).
Proof.
  induction rows as [|r rows IH]; intro unique; [reflexivity|].
  cbn [map PyDedup.loop fold_left]. rewrite slug_of_row.
  cbn [Py.bind PyDedup.hash_key]. rewrite has_untyped.
  unfold Dedup.step at 2.
  destruct (negb (has_key unique (slug r))).
  - rewrite <- IH. now rewrite map_app.
  - apply IH.
Qed.

Lemma loop_returns rows : forall unique,
  (exists u, PyDedup.loop unique rows = Py.Ok u) <-> Forall PyDedup.keyed rows.
Proof.
  induction rows as [|r rows IH]; intro unique; simpl.
  - split; [constructor | eauto].
  - unfold Py.getitem. split.
    + intros (u & H).
      destruct (dict_get r "slug") as [v|] eqn:G; cbn [Py.bind] in H;
        [|discriminate H].
      destruct (PyDedup.hash_key v) as [k|] eqn:K; cbn [Py.bind] in H;
        [|discriminate H].
      constructor; [exists v, k; auto|].
      destruct (negb (PyDedup.has k unique)); eapply IH; eauto.
    + intro F. inversion F as [|? ? (v & k & G & K) F']; subst.
      rewrite G. cbn [Py.bind]. rewrite K. cbn [Py.bind].
      destruct (negb (PyDedup.has k unique)); now apply IH.
Qed.

End PyDedupFacts.

(** X10.  On the dicts of typed rows the untyped [deduplicate_rows] raises
    nothing and returns the dicts of the rows that the typed function
    keeps. *)
Theorem X10_deduplicate_rows_untyped (rows : list row) :
  PyDedup.deduplicate_rows (map Py.of_row rows)
  = Py.Ok (map Py.of_row (deduplicate_rows rows)).
Proof.
  unfold PyDedup.deduplicate_rows.
  change (@nil (PyDedup.key * list (string * Py.value)))
    with (map PyDedup.untyped []).
  rewrite PyDedupFacts.loop_typed. cbn [Py.bind].
  rewrite DedupFacts.deduplicate_rows_fold, !map_map. reflexivity.
Qed.

(** X11.  [deduplicate_rows] returns if and only if every row has a [slug]
    key whose value can be hashed: one row without the key ([KeyError]),
    or with a list or a dict under it ([TypeError]), makes the call
    raise, wherever the row stands. *)
Theorem X11_deduplicate_rows_returns (rows : list (list (string * Py.value))) :
  (exists out, PyDedup.deduplicate_rows rows = Py.Ok out)
  <-> Forall PyDedup.keyed rows.
Proof.
  rewrite <- (PyDedupFacts.loop_returns rows []).
  unfold PyDedup.deduplicate_rows. split.
  - intros (out & H). destruct (PyDedup.loop [] rows) as [u|]; [eauto|].
    discriminate H.
  - intros (u & H). rewrite H. cbn [Py.bind]. eauto.
Qed.

(** X12.  [deduplicate_rows] raises nothing on the rows that
    [normalize_product] has returned, for listings of any shape. *)
Theorem X12_deduplicate_rows_of_listings
    (slugify charref_sub : string -> string)
    (listings : list Py.value) (rows : list (list (list (string * Py.value))))
    (H : Py.map_m (Py.normalize_product slugify charref_sub) listings
         = Py.Ok rows) :
  exists out, PyDedup.deduplicate_rows (List.concat rows) = Py.Ok out.
Proof.
  assert (F : Forall (Forall PyDedup.keyed) rows).
  { eapply ShapeFacts.map_m_forall; [|exact H].
    intros prod rs N.
    destruct (ShapeFacts.normalize_product_shape _ _ _ _ N)
      as (base & trims & s & -> & _ & S & _ & T).
    constructor.
    - exists (Py.VStr s), (PyDedup.KStr s). auto.
    - eapply Forall_impl; [|exact T].
      intros r (_ & (s' & S') & _). exists (Py.VStr s'), (PyDedup.KStr s'). auto. }
  assert (G : Forall PyDedup.keyed (List.concat rows)).
  { clear H. induction F as [|rs rows Frs F IH]; simpl; [constructor|].
    apply Forall_app. auto. }
  apply (proj2 (PyDedupFacts.loop_returns (List.concat rows) [])) in G.
  destruct G as (u & G). unfold PyDedup.deduplicate_rows. rewrite G.
  cbn [Py.bind]. eauto.
Qed.

(* ------------------------------------------------------------------ *)
(** ** Null for absent *)

Module NullFacts.

Local Open Scope list_scope.

(** [d.get(k, default)] is the same on the two objects, but for a default
    other than [None] at the key that differs. *)
Lemma get_same key d1 d2 k default :
  Shape.null_for_absent key d1 d2 ->
  (k = key -> default = Py.VNone) ->
  Py.get (Py.VDict d1) k default = Py.get (Py.VDict d2) k default.
Proof.
  intros (N1 & N2 & S) D. cbn [Py.get]. f_equal.
  destruct (String.eqb_spec k key) as [->|N].
  - rewrite N1, N2. symmetry. now apply D.
  - now rewrite (S k N).
Qed.

Ltac same_gets H :=
  repeat (rewrite (get_same _ _ _ _ _ H)
            by (let E := fresh "E" in
                intro E; first [discriminate E | reflexivity]));
  try reflexivity.

Section Objects.

Variable slugify : string -> string.
Variable charref_sub : string -> string.
Variable key : string.
Variables d1 d2 : list (string * Py.value).
Hypothesis K : key = "body_html" \/ key = "images".
Hypothesis N : Shape.null_for_absent key d1 d2.

Lemma variant_titles_same :
  Py.variant_titles (Py.VDict d1) = Py.variant_titles (Py.VDict d2).
Proof.
  unfold Py.variant_titles. destruct K; subst key; same_gets N.
Qed.

Lemma detect_size_mm_same :
  Py.detect_size_mm charref_sub (Py.VDict d1)
  = Py.detect_size_mm charref_sub (Py.VDict d2).
Proof.
  unfold Py.detect_size_mm. rewrite variant_titles_same.
  destruct K; subst key; same_gets N.
Qed.

Lemma is_stickered_same :
  Py.is_stickered (Py.VDict d1) = Py.is_stickered (Py.VDict d2).
Proof.
  unfold Py.is_stickered. rewrite variant_titles_same.
  destruct K; subst key; same_gets N.
Qed.

Lemma wca_legal_same tags :
  Py.wca_legal tags (Py.VDict d1) = Py.wca_legal tags (Py.VDict d2).
Proof.
  unfold Py.wca_legal. destruct K; subst key; same_gets N.
Qed.

Lemma image_url_same :
  Py.image_url (Py.VDict d1) = Py.image_url (Py.VDict d2).
Proof.
  unfold Py.image_url. destruct K; subst key; same_gets N.
Qed.

Lemma base_row_same :
  Py.base_row slugify charref_sub (Py.VDict d1)
  = Py.base_row slugify charref_sub (Py.VDict d2).
Proof.
  unfold Py.base_row.
  rewrite detect_size_mm_same, is_stickered_same, image_url_same.
  unfold Py.wca_legal.
  destruct K; subst key; same_gets N.
Qed.

End Objects.

End NullFacts.

(** X15.  A [body_html] or an [images] that is JSON [null] is taken as an
    absent one: on two listings that differ only in that the key is
    [null] in one and absent from the other, [should_skip] and
    [normalize_product] do the same, returning the same rows or raising
    alike. *)
Theorem X15_null_as_absent
    (slugify charref_sub : string -> string) (skip_types : list string)
    (key : string) (d1 d2 : list (string * Py.value))
    (K : key = "body_html" \/ key = "images")
    (N : Shape.null_for_absent key d1 d2) :
  Py.should_skip skip_types (Py.VDict d1)
  = Py.should_skip skip_types (Py.VDict d2)
  /\ Py.normalize_product slugify charref_sub (Py.VDict d1)
     = Py.normalize_product slugify charref_sub (Py.VDict d2).
Proof.
  split.
  - unfold Py.should_skip.
    rewrite (NullFacts.get_same key d1 d2 "product_type" (Py.VStr "") N);
      [reflexivity|].
    intro E. destruct K; subst key; discriminate E.
  - unfold Py.normalize_product.
    rewrite (NullFacts.base_row_same slugify charref_sub key d1 d2 K N).
    rewrite (NullFacts.get_same key d1 d2 "variants" Py.VNone N);
      [reflexivity|reflexivity].
Qed.

(* ------------------------------------------------------------------ *)
(** ** The further properties at concrete inputs *)

Lemma X1_witness :
  Permutation SKIP_PRODUCT_TYPES (rev SKIP_PRODUCT_TYPES)
  /\ In "mat" SKIP_PRODUCT_TYPES
  /\ Str.lower "MAT" = Str.lower "mat"
  /\ should_skip (rev SKIP_PRODUCT_TYPES)
       (with_product_type (Some ("Speed Cube - " ++ "MAT" ++ "TE"))
                          (titled "GAN 356"))
     = true.
Proof.
  assert (I : In "mat" SKIP_PRODUCT_TYPES)
    by (apply StrFacts.mem_In; vm_compute; reflexivity).
  split; [apply Permutation_rev|]. split; [exact I|].
  split; [reflexivity|].
  apply (proj1 (X1_should_skip_substring (rev SKIP_PRODUCT_TYPES)
                  (titled "GAN 356") (Permutation_rev _))
               "mat" "Speed Cube - " "MAT" "TE" I).
  reflexivity.
Defined.

Lemma X3_witness :
  get (title (titled "GAN 356 M 3x3")) ""
  = extract_series_name (get (title (titled "GAN 356 M 3x3")) "") ++ " M 3x3"
  /\ Str.contains (extract_series_name (get (title (titled "GAN 356 M 3x3")) ""))
                  " M 3x3" = false
  /\ slug (base_row slugify_id charref_id (titled "GAN 356 M 3x3"))
     = slugify_id "GAN 356 M 3x3"
  /\ model (base_row slugify_id charref_id (titled "GAN 356 M 3x3")) = "M 3x3".
Proof.
  split; [reflexivity|]. split; [reflexivity|].
  apply (X3_slug_of_title slugify_id charref_id (titled "GAN 356 M 3x3")
           " M 3x3").
  - reflexivity.
  - right. reflexivity.
Defined.

Lemma X7_witness :
  NoDup (map slug (normalize_product slugify_id charref_id smart_listing))
  /\ deduplicate_rows (normalize_product slugify_id charref_id smart_listing)
     = normalize_product slugify_id charref_id smart_listing.
Proof.
  assert (N : NoDup (map slug
                       (normalize_product slugify_id charref_id smart_listing))).
  { vm_compute. repeat constructor; simpl; intuition discriminate. }
  split; [exact N|]. apply (X7_deduplicate_rows_distinct _ N).
Defined.

Lemma X9_witness :
  Permutation scraped_twice (rev scraped_twice)
  /\ NoDup (map slug (deduplicate_rows scraped_twice))
  /\ NoDup (map slug (deduplicate_rows (rev scraped_twice)))
  /\ (forall s, In s (map slug (deduplicate_rows scraped_twice))
                <-> In s (map slug scraped_twice))
  /\ Permutation (map slug (deduplicate_rows scraped_twice))
                 (map slug (deduplicate_rows (rev scraped_twice))).
Proof.
  split; [apply Permutation_rev|].
  apply (X9_deduplicate_rows_order scraped_twice (rev scraped_twice)).
  apply Permutation_rev.
Defined.

Lemma X12_witness :
  Py.map_m (Py.normalize_product slugify_id charref_id)
           [Py.of_product smart_listing; Py.of_product (titled "GAN 356")]
  = Py.Ok [map Py.of_row (normalize_product slugify_id charref_id smart_listing);
           map Py.of_row (normalize_product slugify_id charref_id (titled "GAN 356"))]
  /\ exists out,
       PyDedup.deduplicate_rows
         (List.concat
            [map Py.of_row (normalize_product slugify_id charref_id smart_listing);
             map Py.of_row (normalize_product slugify_id charref_id (titled "GAN 356"))])
       = Py.Ok out.
Proof.
  assert (H : Py.map_m (Py.normalize_product slugify_id charref_id)
                [Py.of_product smart_listing; Py.of_product (titled "GAN 356")]
              = Py.Ok [map Py.of_row
                         (normalize_product slugify_id charref_id smart_listing);
                       map Py.of_row
                         (normalize_product slugify_id charref_id
                            (titled "GAN 356"))])
    by (vm_compute; reflexivity).
  split; [exact H|].
  apply (X12_deduplicate_rows_of_listings slugify_id charref_id _ _ H).
Defined.

Lemma X13_witness :
  Shape.unusable null_title
  /\ Py.normalize_product slugify_id charref_id (Py.VDict null_title) = Py.Raise.
Proof.
  assert (U : Shape.unusable null_title).
  { apply (Shape.title_no_str null_title Py.VNone); [reflexivity|].
    intros s E. discriminate E. }
  split; [exact U|].
  apply (X13_unusable_listing_raises slugify_id charref_id null_title U).
Defined.

Lemma X14_witness :
  Py.normalize_product slugify_id charref_id (Py.of_product smart_listing)
  = Py.Ok (map Py.of_row (normalize_product slugify_id charref_id smart_listing))
  /\ exists base trims s,
       map Py.of_row (normalize_product slugify_id charref_id smart_listing)
       = base :: trims
       /\ map fst base = Shape.columns
       /\ dict_get base "related_to" = None
       /\ dict_get base "slug" = Some (Py.VStr s)
       /\ dict_get base "version_type" = Some (Py.VStr "Base")
       /\ Forall (fun r =>
                    map fst r = (Shape.columns ++ ["related_to"])%list
                    /\ (exists s', dict_get r "slug" = Some (Py.VStr s'))
                    /\ dict_get r "version_type" = Some (Py.VStr "Trim")
                    /\ dict_get r "related_to" = Some (Py.VStr s))
                 trims.
Proof.
  assert (H : Py.normalize_product slugify_id charref_id
                (Py.of_product smart_listing)
              = Py.Ok (map Py.of_row
                         (normalize_product slugify_id charref_id smart_listing)))
    by (vm_compute; reflexivity).
  split; [exact H|].
  apply (X14_rows_of_any_listing slugify_id charref_id _ _ H).
Defined.

Lemma X15_witness :
  Shape.null_for_absent "body_html" null_body no_body
  /\ Py.normalize_product slugify_id charref_id (Py.VDict null_body)
     = Py.normalize_product slugify_id charref_id (Py.VDict no_body).
Proof.
  assert (N : Shape.null_for_absent "body_html" null_body no_body).
  { split; [reflexivity|]. split; [reflexivity|].
    intros k D. unfold null_body, no_body. cbn [dict_get].
    destruct (String.eqb "title" k); [reflexivity|].
    destruct (String.eqb_spec "body_html" k) as [E|_]; [|reflexivity].
    exfalso. apply D. symmetry. exact E. }
  split; [exact N|].
  apply (proj2 (X15_null_as_absent slugify_id charref_id SKIP_PRODUCT_TYPES
                  "body_html" null_body no_body (or_introl eq_refl) N)).
Defined.

Lemma X16_witness :
  (0 < 4)%Z
  /\ exists batches,
       Upsert.write_rows_to_supabase scraped_twice 4 = Py.Ok batches
       /\ List.concat batches = scraped_twice
       /\ Forall (fun b => 1 <= List.length b <= Z.to_nat 4) batches
       /\ (forall i, S i < List.length batches ->
                     List.length (nth i batches []) = Z.to_nat 4)
       /\ List.length batches
          = (List.length scraped_twice + Z.to_nat 4 - 1) / Z.to_nat 4.
Proof.
  split; [reflexivity|].
  apply (X16_write_rows_batches scraped_twice 4). reflexivity.
Defined.

Lemma X18_witness :
  main slugify_id charref_id SKIP_PRODUCT_TYPES [[smart_listing]]
  = Some (normalize_product slugify_id charref_id smart_listing)
  /\ NoDup (map slug (normalize_product slugify_id charref_id smart_listing)).
Proof.
  assert (H : main slugify_id charref_id SKIP_PRODUCT_TYPES [[smart_listing]]
              = Some (normalize_product slugify_id charref_id smart_listing))
    by (vm_compute; reflexivity).
  split; [exact H|].
  apply (proj1 (X18_main_rows slugify_id charref_id SKIP_PRODUCT_TYPES
                  [[smart_listing]] _ H)).
Defined.

Lemma X19_witness :
  main slugify_id charref_id SKIP_PRODUCT_TYPES [[smart_listing]]
  = Some (normalize_product slugify_id charref_id smart_listing)
  /\ exists batches,
       Upsert.write_rows_to_supabase
         (normalize_product slugify_id charref_id smart_listing)
         Upsert.default_chunk
       = Py.Ok batches
       /\ List.concat batches
          = normalize_product slugify_id charref_id smart_listing
       /\ NoDup (map slug (List.concat batches))
       /\ Forall (fun b => 1 <= List.length b <= 500) batches.
Proof.
  assert (H : main slugify_id charref_id SKIP_PRODUCT_TYPES [[smart_listing]]
              = Some (normalize_product slugify_id charref_id smart_listing))
    by (vm_compute; reflexivity).
  split; [exact H|].
  apply (X19_main_upload slugify_id charref_id SKIP_PRODUCT_TYPES
           [[smart_listing]] _ H).
Defined.

Lemma X20_witness :
  (forall i, 1 <= i <= 2 -> Catalogue.full small_store i)
  /\ Catalogue.last small_store 3
  /\ 2 < 5
  /\ Fetch.fetch_all_products small_store 5 = Some [11; 12; 21]
  /\ Fetch.pages_collected small_store 5 = Some 2.
Proof.
  assert (F : forall i, 1 <= i <= 2 -> Catalogue.full small_store i).
  { intros i [L U]. destruct i as [|[|[|i]]].
    - inversion L.
    - exists 11, [12]. reflexivity.
    - exists 21, []. reflexivity.
    - exfalso. apply (Nat.lt_irrefl 2).
      apply Nat.lt_le_trans with (S (S (S i))); [|exact U].
      apply -> Nat.succ_lt_mono. apply -> Nat.succ_lt_mono.
      apply Nat.lt_0_succ. }
  assert (L : Catalogue.last small_store 3) by (left; reflexivity).
  assert (B : 2 < 5) by (repeat constructor).
  split; [exact F|]. split; [exact L|]. split; [exact B|].
  apply (X20_fetch_all_products_collects small_store 2 5 F L B).
Defined.

Lemma X21_witness :
  Fetch.fetch_all_products small_store 5 = Some [11; 12; 21]
  /\ exists n,
       Fetch.pages_collected small_store 5 = Some n
       /\ [11; 12; 21] = Catalogue.pages small_store 1 n
       /\ (forall i, 1 <= i <= n -> Catalogue.full small_store i)
       /\ Catalogue.last small_store (S n).
Proof.
  split; [reflexivity|].
  apply (X21_fetch_all_products_returns small_store 5 [11; 12; 21]).
  reflexivity.
Defined.

Lemma X22_witness :
  (forall i, 1 <= i -> Catalogue.full endless_store i)
  /\ Fetch.fetch_all_products endless_store 1000 = None.
Proof.
  assert (F : forall i, 1 <= i -> Catalogue.full endless_store i).
  { intros i _. exists i, []. reflexivity. }
  split; [exact F|].
  apply (X22_fetch_all_products_goes_on endless_store F 1000).
Defined.

(* ------------------------------------------------------------------ *)
(** ** The order of the files, and the smart cubes *)

Module OrderFacts.

Local Open Scope list_scope.

Lemma flat_map_permutation {A B : Type} (f : A -> list B) l l' :
  Permutation l l' -> Permutation (flat_map f l) (flat_map f l').
Proof.
  induction 1 as [|a l l' P IH|a b l|l l' l'' P1 IH1 P2 IH2]; simpl.
  - constructor.
  - now apply Permutation_app_head.
  - rewrite !app_assoc. apply Permutation_app_tail, Permutation_app_comm.
  - eapply Permutation_trans; eauto.
Qed.

Lemma bluetooth_is_illegal tags :
  Str.mem "bluetooth" tags = true ->
  existsb (fun t => Str.mem (Str.lower t) ILLEGAL_TAGS) tags = true.
Proof.
  intro H. apply StrFacts.mem_In in H. apply existsb_exists.
  exists "bluetooth". split; [exact H|]. vm_compute. reflexivity.
Qed.

End OrderFacts.

(** X23.  The order in which [main] reads the files decides which row
    is kept for a slug, not which slugs it hands on.  For two orders of
    the same files, either both runs stop at "Nothing suitable found",
    no listing of any file having given a row, or both hand on rows:
    then each run hands on every slug of its candidate rows exactly
    once, and the two runs hand on the same slugs. *)
Theorem X23_main_file_order
    (slugify charref_sub : string -> string) (skip_types : list string)
    (files files' : list (list product))
    (P : Permutation files files') :
  match main slugify charref_sub skip_types files,
        main slugify charref_sub skip_types files' with
  | Some rows, Some rows' =>
      NoDup (map slug rows) /\ NoDup (map slug rows')
      /\ (forall s,
            In s (map slug rows)
            <-> In s (map slug (candidate_rows slugify charref_sub
                                  skip_types files)))
      /\ (forall s,
            In s (map slug rows')
            <-> In s (map slug (candidate_rows slugify charref_sub
                                  skip_types files')))
      /\ Permutation (map slug rows) (map slug rows')
  | None, None =>
      candidate_rows slugify charref_sub skip_types files = []
      /\ candidate_rows slugify charref_sub skip_types files' = []
  | _, _ => False
  end.
Proof.
  assert (C : Permutation (candidate_rows slugify charref_sub skip_types files)
                          (candidate_rows slugify charref_sub skip_types files'))
    by (unfold candidate_rows; now apply OrderFacts.flat_map_permutation).
  unfold main.
  destruct (candidate_rows slugify charref_sub skip_types files) as [|r l] eqn:E,
           (candidate_rows slugify charref_sub skip_types files') as [|r' l'] eqn:E';
    auto.
  - apply Permutation_nil in C. discriminate C.
  - apply Permutation_sym, Permutation_nil in C. discriminate C.
  - rewrite !DedupFacts.deduplicate_rows_first_wins.
    split; [apply DedupFacts.first_wins_NoDup|].
    split; [apply DedupFacts.first_wins_NoDup|].
    split; [intro s; apply MergeFacts.first_wins_slugs|].
    split; [intro s; apply MergeFacts.first_wins_slugs|].
    apply NoDup_Permutation; try apply DedupFacts.first_wins_NoDup.
    intro s. rewrite !MergeFacts.first_wins_slugs. split; intro H.
    + eapply Permutation_in; [apply Permutation_map; exact C | exact H].
    + eapply Permutation_in;
        [apply Permutation_map, Permutation_sym; exact C | exact H].
Qed.

(** X24.  A row marked [smart] is never marked [wca_legal]: the tag
    "bluetooth" that sets the first flag is an entry of [ILLEGAL_TAGS],
    which clears the second. *)
Theorem X24_smart_is_not_legal
    (slugify charref_sub : string -> string) (prod : product) (r : row)
    (I : In r (normalize_product slugify charref_sub prod))
    (S : smart r = true) :
  wca_legal r = false.
Proof.
  assert (E : smart r = smart (base_row slugify charref_sub prod)
              /\ wca_legal r = wca_legal (base_row slugify charref_sub prod)).
  { apply Rows.in_normalize_product in I.
    destruct I as [->|(v & _ & ->)]; [auto|].
    destruct (Rows.trim_row_copied slugify (base_row slugify charref_sub prod) v)
      as (W & M & _). auto. }
  destruct E as [Es Ew]. rewrite Ew, Flags.wca_legal_base.
  rewrite Es, Flags.smart_base in S.
  now rewrite (OrderFacts.bluetooth_is_illegal _ S).
Qed.

Lemma X23_witness :
  Permutation [[smart_listing]; [titled "GAN 356 M 3x3"]]
              [[titled "GAN 356 M 3x3"]; [smart_listing]]
  /\ match main slugify_id charref_id SKIP_PRODUCT_TYPES
             [[smart_listing]; [titled "GAN 356 M 3x3"]],
           main slugify_id charref_id SKIP_PRODUCT_TYPES
             [[titled "GAN 356 M 3x3"]; [smart_listing]] with
     | Some rows, Some rows' =>
         NoDup (map slug rows) /\ NoDup (map slug rows')
         /\ (forall s,
               In s (map slug rows)
               <-> In s (map slug
                           (candidate_rows slugify_id charref_id
                              SKIP_PRODUCT_TYPES
                              [[smart_listing]; [titled "GAN 356 M 3x3"]])))
         /\ (forall s,
               In s (map slug rows')
               <-> In s (map slug
                           (candidate_rows slugify_id charref_id
                              SKIP_PRODUCT_TYPES
                              [[titled "GAN 356 M 3x3"]; [smart_listing]])))
         /\ Permutation (map slug rows) (map slug rows')
     | None, None =>
         candidate_rows slugify_id charref_id SKIP_PRODUCT_TYPES
           [[smart_listing]; [titled "GAN 356 M 3x3"]] = []
         /\ candidate_rows slugify_id charref_id SKIP_PRODUCT_TYPES
              [[titled "GAN 356 M 3x3"]; [smart_listing]] = []
     | _, _ => False
     end.
Proof.
  split; [apply perm_swap|].
  apply (X23_main_file_order slugify_id charref_id SKIP_PRODUCT_TYPES).
  apply perm_swap.
Defined.

Lemma X24_witness :
  In (base_row slugify_id charref_id
        (with_product_type None
           {| title := Some "GAN 12 ui"; vendor := None; product_type := None;
              tags := Some ["Bluetooth"; "3x3"]; body_html := None;
              images := None; variants := None; published_at := None |}))
     (normalize_product slugify_id charref_id
        (with_product_type None
           {| title := Some "GAN 12 ui"; vendor := None; product_type := None;
              tags := Some ["Bluetooth"; "3x3"]; body_html := None;
              images := None; variants := None; published_at := None |}))
  /\ smart (base_row slugify_id charref_id
              (with_product_type None
                 {| title := Some "GAN 12 ui"; vendor := None;
                    product_type := None;
                    tags := Some ["Bluetooth"; "3x3"]; body_html := None;
                    images := None; variants := None;
                    published_at := None |})) = true
  /\ wca_legal (base_row slugify_id charref_id
                  (with_product_type None
                     {| title := Some "GAN 12 ui"; vendor := None;
                        product_type := None;
                        tags := Some ["Bluetooth"; "3x3"]; body_html := None;
                        images := None; variants := None;
                        published_at := None |})) = false.
Proof.
  split; [left; reflexivity|]. split; [reflexivity|].
  apply (X24_smart_is_not_legal slugify_id charref_id
           (with_product_type None
              {| title := Some "GAN 12 ui"; vendor := None;
                 product_type := None;
                 tags := Some ["Bluetooth"; "3x3"]; body_html := None;
                 images := None; variants := None; published_at := None |})).
  - left. reflexivity.
  - reflexivity.
Defined.
